(** * Backup central server: agent registry, job ledger, health and tips

    A shallow embedding of the service layer of the central server
    ([app/services/agents.py], [events.py], [reports.py], [stats.py] and
    [tips.py]) together with the properties its specification states.

    Conventions of the embedding:
    - a [datetime] is the number of microseconds since the epoch (naive UTC,
      the resolution of Python's [datetime]); a [timedelta] is a number of
      microseconds;
    - Python numbers ([int] and [float]) are rationals; [round(x, 2)] is
      rounding to the nearest hundredth, ties to even;
    - the SQLAlchemy session is a record of tables, each table the list of its
      rows in insertion order; a function that writes returns the new session;
    - a Python exception is a value of [exn], and a call that may raise
      returns a [result];
    - [datetime.utcnow()] and [uuid4()] are arguments ([now], [uuid]) of the
      functions that call them. *)

From Stdlib Require Import ZArith QArith Qround Qminmax Lia Lqa String Ascii.
From stdpp Require Import gmap strings list sorting.

Local Open Scope Z_scope.

(** ** Exceptions *)

Inductive exn : Type :=
  | KeyError (key : string)
  | ValueError (msg : string)
  | TypeError
  | AttributeError (name : string)
  | NameError (name : string)
  | UnboundLocalError (name : string)
  | ZeroDivisionError.

Inductive result (A : Type) : Type :=
  | Ok (a : A)
  | Raise (e : exn).
Arguments Ok {A} a.
Arguments Raise {A} e.

#[global] Instance result_ret : MRet result := λ A a, Ok a.
#[global] Instance result_bind : MBind result := λ A B f r,
  match r with
  | Ok a => f a
  | Raise e => Raise e
  end.

#[global] Instance result_fmap : FMap result := λ A B f r,
  match r with
  | Ok a => Ok (f a)
  | Raise e => Raise e
  end.


(** [d[key]] on a dictionary whose key may be missing. *)
Definition getitem {A} (key : string) (o : option A) : result A :=
  match o with
  | Some a => Ok a
  | None => Raise (KeyError key)
  end.

(** ** Numbers *)

Definition Qltb (x y : Q) : bool := negb (Qle_bool y x).
Definition Qgtb (x y : Q) : bool := Qltb y x.
Definition Qgeb (x y : Q) : bool := Qle_bool y x.

(** Python's [x / y]. *)
Definition truediv (x y : Q) : result Q :=
  if Qeq_bool y 0 then Raise ZeroDivisionError else Ok (x / y)%Q.

Definition round_half_even (x : Q) : Z :=
  let n := Qfloor x in
  match ((x - inject_Z n) ?= (1 # 2))%Q with
  | Lt => n
  | Gt => n + 1
  | Eq => if Z.even n then n else n + 1
  end.

(** [round(x, 2)]. *)
Definition round2 (x : Q) : Q :=
  Qred (inject_Z (round_half_even (x * 100)) / 100).

(** [min(a, b)] and [max(a, b)] keep their first argument unless the second
    is strictly smaller (larger). *)
Definition py_min (a b : Q) : Q := if Qltb b a then b else a.
Definition py_max (a b : Q) : Q := if Qltb a b then b else a.

(** ** Time *)

Abbreviation datetime := Z (only parsing).
Abbreviation timedelta := Z (only parsing).

Definition timedelta_minutes (n : Z) : timedelta := n * 60000000.
Definition timedelta_hours (n : Z) : timedelta := n * 3600000000.
Definition timedelta_days (n : Z) : timedelta := n * 86400000000.

(** [td.total_seconds()]. *)
Definition total_seconds (td : timedelta) : Q := Qred (td # 1000000).

(** [dt.date()], as a day number; [date.isoformat()] is injective, so the
    day number stands for the text used as a dictionary key. *)
Definition date (dt : datetime) : Z := dt / 86400000000.

(** A text that is read back with [datetime.fromisoformat]: either the
    ISO-8601 rendering of a datetime, or some other text. *)
Inductive isotext : Type :=
  | IsoText (dt : datetime)
  | OtherText (s : string).

Definition isoformat (dt : datetime) : isotext := IsoText dt.

Definition fromisoformat (t : isotext) : result datetime :=
  match t with
  | IsoText dt => Ok dt
  | OtherText s => Raise (ValueError "Invalid isoformat string")
  end.

(** Truth value of a text: only the empty string is false. *)
Definition text_truthy (t : isotext) : bool :=
  match t with
  | IsoText _ => true
  | OtherText s => negb (String.eqb s "")
  end.

(** ** Tables *)

Record Agent : Type := {
  hostname : string;
  ip_address : string;
  os : string;
  agent_id : string;
  enabled : bool;
  last_seen : datetime;
  config_hash : string
}.

(** A JSON document, as stored in [AgentConfig.config]. *)
#[warnings="-register-all"]
Inductive json : Type :=
  | JNull
  | JBool (b : bool)
  | JNum (n : Z)
  | JStr (s : string)
  | JList (l : list json)
  | JDict (l : list (string * json)).

Record AgentConfig : Type := {
  config_agent_id : string;
  config : json
}.

Record BackupJob : Type := {
  job_id : Z;
  job_agent_id : string;
  start_time : datetime;
  end_time : option datetime;
  status : string;
  tool : string;
  source : string;
  destination : string;
  size_bytes : Z;
  logs : string;
  error_message : option string
}.

Record SystemEvent : Type := {
  event_category : string;
  event_type : string;
  event_description : string;
  event_agent_id : option string;
  event_backup_job_id : option Z;
  event_related_id : option string;
  event_details : option string;
  event_priority : string;
  event_timestamp : datetime
}.

Record Notification : Type := {
  notif_title : string;
  notif_message : string;
  notif_category : string;
  notif_priority : string;
  notif_related_id : option string;
  notif_user_id : option Z;
  notif_read : bool;
  notif_timestamp : datetime
}.

(** Modelled from the spec: the persistence layer ([app/models.py] and
    [app/database.py] are not among the sources) is a record store with
    simple get and put operations.  The session holds every table, rows in
    insertion order; a row is stored as given, and no constraint is checked
    between tables. *)
Record Session : Type := {
  agents : list Agent;
  agent_configs : list AgentConfig;
  backup_jobs : list BackupJob;
  system_events : list SystemEvent;
  notifications : list Notification
}.

Definition empty_db : Session :=
  {| agents := []; agent_configs := []; backup_jobs := [];
     system_events := []; notifications := [] |}.

Definition set_agents (db : Session) (l : list Agent) : Session :=
  {| agents := l; agent_configs := agent_configs db;
     backup_jobs := backup_jobs db; system_events := system_events db;
     notifications := notifications db |}.

Definition add_agent_config (db : Session) (c : AgentConfig) : Session :=
  {| agents := agents db; agent_configs := agent_configs db ++ [c];
     backup_jobs := backup_jobs db; system_events := system_events db;
     notifications := notifications db |}.

Definition add_backup_job (db : Session) (j : BackupJob) : Session :=
  {| agents := agents db; agent_configs := agent_configs db;
     backup_jobs := backup_jobs db ++ [j]; system_events := system_events db;
     notifications := notifications db |}.

Definition add_system_event (db : Session) (e : SystemEvent) : Session :=
  {| agents := agents db; agent_configs := agent_configs db;
     backup_jobs := backup_jobs db; system_events := system_events db ++ [e];
     notifications := notifications db |}.

Definition add_notification (db : Session) (n : Notification) : Session :=
  {| agents := agents db; agent_configs := agent_configs db;
     backup_jobs := backup_jobs db; system_events := system_events db;
     notifications := notifications db ++ [n] |}.

(** [app.config.settings], the part the services read. *)
Record Settings : Type := {
  host : string;
  agent_heartbeat_timeout_minutes : Z
}.

(** ** agents.py: the registry *)

(** The dictionary [agent_info]; a field is [None] when its key is absent. *)
Record AgentInfo : Type := {
  info_hostname : option string;
  info_ip_address : option string;
  info_os : option string
}.

(** [query(Agent).filter(...).first()], with the position of the row. *)
Definition find_agent (db : Session) (aid : string) : option (nat * Agent) :=
  list_find (λ a, agent_id a = aid) (agents db).

Definition find_agent_by_hostname (db : Session) (h : string)
  : option (nat * Agent) :=
  list_find (λ a, hostname a = h) (agents db).

Definition get_agent (db : Session) (aid : string) : option Agent :=
  snd <$> find_agent db aid.

Definition get_agent_by_hostname (db : Session) (h : string) : option Agent :=
  snd <$> find_agent_by_hostname db h.

Definition get_agents (db : Session) (skip limit : nat)
    (enabled_filter : option bool) : list Agent :=
  let query :=
    match enabled_filter with
    | Some e => filter (λ a, enabled a = e) (agents db)
    | None => agents db
    end in
  take limit (drop skip query).

Definition default_config (settings : Settings) (aid : string) : json :=
  JDict [
    ("server_url", JStr ("http://" +:+ host settings +:+ ":9200/api/agents"));
    ("heartbeat_interval", JNum 60);
    ("backup_jobs", JList []);
    ("repositories", JList []);
    ("logging", JDict [
       ("level", JStr "INFO");
       ("file", JStr ("/var/log/backup_agent_" +:+ aid +:+ ".log"))]);
    ("security", JDict [
       ("web_local_only", JBool true);
       ("require_auth", JBool false)])
  ].

Definition create_default_config (settings : Settings) (db : Session)
    (aid : string) : Session :=
  add_agent_config db
    {| config_agent_id := aid; config := default_config settings aid |}.

(** [create_agent]: the row found by hostname is updated in place, otherwise
    a row is added together with its default configuration.  An exception
    rolls the session back and is raised again. *)
Definition create_agent (settings : Settings) (now : datetime) (uuid : string)
    (db : Session) (agent_info : AgentInfo) : Session * result Agent :=
  match getitem "hostname" (info_hostname agent_info) with
  | Raise e => (db, Raise e)
  | Ok h =>
    match find_agent_by_hostname db h with
    | Some (i, existing) =>
      let existing' :=
        {| hostname := hostname existing;
           ip_address := default (ip_address existing)
                                 (info_ip_address agent_info);
           os := default (os existing) (info_os agent_info);
           agent_id := agent_id existing;
           enabled := enabled existing;
           last_seen := now;
           config_hash := config_hash existing |} in
      (set_agents db (<[i := existing']> (agents db)), Ok existing')
    | None =>
      let agent :=
        {| hostname := h;
           ip_address := default "" (info_ip_address agent_info);
           os := default "" (info_os agent_info);
           agent_id := uuid;
           enabled := true;
           last_seen := now;
           config_hash := "" |} in
      let db1 := set_agents db (agents db ++ [agent]) in
      (create_default_config settings db1 (agent_id agent), Ok agent)
    end
  end.

(** [update_agent_heartbeat]. *)
Definition update_agent_heartbeat (now : datetime) (db : Session)
    (aid : string) : Session * bool :=
  match find_agent db aid with
  | None => (db, false)
  | Some (i, agent) =>
    let agent' :=
      {| hostname := hostname agent;
         ip_address := ip_address agent;
         os := os agent;
         agent_id := agent_id agent;
         enabled := enabled agent;
         last_seen := now;
         config_hash := config_hash agent |} in
    (set_agents db (<[i := agent']> (agents db)), true)
  end.

(** ** agents.py: the job ledger *)

(** The dictionary [report]; a field is [None] when its key is absent (or
    JSON [null]). *)
Record Report : Type := {
  report_start_time : option isotext;
  report_end_time : option isotext;
  report_status : option string;
  report_tool : option string;
  report_source : option string;
  report_destination : option string;
  report_size_bytes : option Z;
  report_logs : option string;
  report_error_message : option string
}.

(** The row [report_backup] builds, keyword arguments evaluated in order. *)
Definition build_backup_job (db : Session) (aid : string) (report : Report)
  : result BackupJob :=
  st_text ← getitem "start_time" (report_start_time report);
  st ← fromisoformat st_text;
  et ← match report_end_time report return result (option Z) with
       | Some t => if text_truthy t then Some <$> fromisoformat t
                   else Ok None
       | None => Ok None
       end;
  status_ ← getitem "status" (report_status report);
  tool_ ← getitem "tool" (report_tool report);
  source_ ← getitem "source" (report_source report);
  destination_ ← getitem "destination" (report_destination report);
  mret {| job_id := Z.of_nat (length (backup_jobs db)) + 1;
          job_agent_id := aid;
          start_time := st;
          end_time := et;
          status := status_;
          tool := tool_;
          source := source_;
          destination := destination_;
          size_bytes := default 0 (report_size_bytes report);
          logs := default "" (report_logs report);
          error_message := report_error_message report |}.

(** [report_backup]: the row is added and committed; an exception rolls the
    session back and is raised again. *)
Definition report_backup (db : Session) (aid : string) (report : Report)
  : Session * result BackupJob :=
  match build_backup_job db aid report with
  | Ok job => (add_backup_job db job, Ok job)
  | Raise e => (db, Raise e)
  end.

(** ** agents.py: statistics *)

Record AgentStats : Type := {
  stats_agent_id : string;
  stats_hostname : string;
  stats_total_backups : Z;
  stats_success_backups : Z;
  stats_failed_backups : Z;
  stats_success_rate : Q;
  stats_last_backup : option isotext;
  stats_status : string;
  stats_last_seen : isotext
}.

(** [query.count()]. *)
Definition count {A} (P : A → bool) (l : list A) : Z :=
  Z.of_nat (length (filter (λ x, P x = true) l)).

(** [order_by(start_time.desc()).first()]. *)
Definition latest_backup (l : list BackupJob) : option BackupJob :=
  fold_left (λ acc j,
    match acc with
    | None => Some j
    | Some b => if start_time b <? start_time j then Some j else Some b
    end) l None.

(** [round((success / total * 100) if total > 0 else 0, 2)]. *)
Definition success_rate_of (success total : Z) : result Q :=
  r ← (if 0 <? total
       then q ← truediv (inject_Z success) (inject_Z total);
            mret (q * 100)%Q
       else Ok 0%Q);
  mret (round2 r).

Definition get_agent_stats_body (settings : Settings) (now : datetime)
    (db : Session) (aid : string) : result (option AgentStats) :=
  match get_agent db aid with
  | None => Ok None
  | Some agent =>
    let of_agent := λ j : BackupJob, String.eqb (job_agent_id j) aid in
    let total_backups := count of_agent (backup_jobs db) in
    let success_backups :=
      count (λ j, of_agent j && String.eqb (status j) "success")
            (backup_jobs db) in
    let failed_backups :=
      count (λ j, of_agent j && String.eqb (status j) "failed")
            (backup_jobs db) in
    let last_backup :=
      latest_backup (filter (λ j, of_agent j = true) (backup_jobs db)) in
    let threshold :=
      now - timedelta_minutes (agent_heartbeat_timeout_minutes settings) in
    let status_ :=
      if threshold <? last_seen agent then "online" else "offline" in
    rate ← success_rate_of success_backups total_backups;
    mret (Some
      {| stats_agent_id := aid;
         stats_hostname := hostname agent;
         stats_total_backups := total_backups;
         stats_success_backups := success_backups;
         stats_failed_backups := failed_backups;
         stats_success_rate := rate;
         stats_last_backup := (λ b, isoformat (start_time b)) <$> last_backup;
         stats_status := status_;
         stats_last_seen := isoformat (last_seen agent) |})
  end.

(** [get_agent_stats]: any exception is logged and [None] returned. *)
Definition get_agent_stats (settings : Settings) (now : datetime)
    (db : Session) (aid : string) : option AgentStats :=
  match get_agent_stats_body settings now db aid with
  | Ok r => r
  | Raise _ => None
  end.

(** One value of the dictionary [daily_stats]. *)
Record DayStats : Type := {
  day_success : Z;
  day_failed : Z;
  day_total : Z;
  day_duration : Q;
  day_size : Z
}.

Record Performance : Type := {
  daily_backups : list (Z * DayStats);
  success_rate : Q;
  avg_duration : Q;
  total_size_gb : Q;
  total_backups : Z
}.

Definition empty_performance : Performance :=
  {| daily_backups := []; success_rate := 0; avg_duration := 0;
     total_size_gb := 0; total_backups := 0 |}.

Definition new_day : DayStats :=
  {| day_success := 0; day_failed := 0; day_total := 0;
     day_duration := 0; day_size := 0 |}.

(** A dictionary that keeps insertion order. *)
Fixpoint dict_mem {V} (k : Z) (d : list (Z * V)) : bool :=
  match d with
  | [] => false
  | (k', _) :: d' => (k' =? k) || dict_mem k d'
  end.

Fixpoint dict_alter {V} (f : V → V) (k : Z) (d : list (Z * V))
  : list (Z * V) :=
  match d with
  | [] => []
  | (k', v) :: d' =>
    if k' =? k then (k', f v) :: d' else (k', v) :: dict_alter f k d'
  end.

(** The updates one backup makes to the entry of its day. *)
Definition count_backup (backup : BackupJob) (st : DayStats) : DayStats :=
  {| day_total := day_total st + 1;
     day_duration :=
       match end_time backup with
       | Some et => (day_duration st + total_seconds (et - start_time backup))%Q
       | None => day_duration st
       end;
     day_size := day_size st + size_bytes backup;
     day_success :=
       if String.eqb (status backup) "success" then day_success st + 1
       else day_success st;
     day_failed :=
       if String.eqb (status backup) "success" then day_failed st
       else if String.eqb (status backup) "failed" then day_failed st + 1
       else day_failed st |}.

(** One iteration of the loop over [backups]. *)
Definition group_by_day (daily_stats : list (Z * DayStats))
    (backup : BackupJob) : list (Z * DayStats) :=
  let day := date (start_time backup) in
  let daily_stats :=
    if dict_mem day daily_stats then daily_stats
    else daily_stats ++ [(day, new_day)] in
  dict_alter (count_backup backup) day daily_stats.

Definition sumZ {A} (f : A → Z) (l : list A) : Z :=
  fold_left (λ acc x, acc + f x) l 0.

Definition sumQ {A} (f : A → Q) (l : list A) : Q :=
  fold_left (λ acc x, (acc + f x)%Q) l 0%Q.

(** [order_by(BackupJob.start_time)]. *)
Definition by_start_time (a b : BackupJob) : Prop :=
  start_time a ≤ start_time b.

#[global] Instance by_start_time_dec : RelDecision by_start_time :=
  λ a b, Z_le_dec (start_time a) (start_time b).

(** The rows [get_agent_performance] reads: the jobs of the agent started
    in the last [days] days, by start time. *)
Definition backups_in_window (now : datetime) (db : Session) (aid : string)
    (days : Z) : list BackupJob :=
  let start_date := now - timedelta_days days in
  merge_sort by_start_time
    (filter (λ j, job_agent_id j = aid ∧ start_date ≤ start_time j)
            (backup_jobs db)).

Definition get_agent_performance_body (now : datetime) (db : Session)
    (aid : string) (days : Z) : result Performance :=
  let backups := backups_in_window now db aid days in
  match backups with
  | [] => Ok empty_performance
  | _ =>
    let daily_stats := fold_left group_by_day backups [] in
    let success_count := sumZ (λ e, day_success e.2) daily_stats in
    let total_count := sumZ (λ e, day_total e.2) daily_stats in
    let total_duration := sumQ (λ e, day_duration e.2) daily_stats in
    let total_size := sumZ (λ e, day_size e.2) daily_stats in
    rate ← success_rate_of success_count total_count;
    avg ← (if 0 <? total_count
           then truediv total_duration (inject_Z total_count)
           else Ok 0%Q);
    size_gb ← truediv (inject_Z total_size) (inject_Z (1024 ^ 3));
    mret {| daily_backups := daily_stats;
            success_rate := rate;
            avg_duration := round2 avg;
            total_size_gb := round2 size_gb;
            total_backups := total_count |}
  end.

(** [get_agent_performance]: any exception is logged and the empty answer
    returned. *)
Definition get_agent_performance (now : datetime) (db : Session)
    (aid : string) (days : Z) : Performance :=
  match get_agent_performance_body now db aid days with
  | Ok p => p
  | Raise _ => empty_performance
  end.

(** ** events.py *)

Definition EVENT_CATEGORIES : gmap string (list string) :=
  list_to_map [
    ("agent", ["register"; "heartbeat"; "config_update"; "offline"; "online"]);
    ("backup", ["start"; "success"; "failed"; "warning"]);
    ("system", ["startup"; "shutdown"; "error"; "maintenance"]);
    ("security", ["login"; "logout"; "unauthorized"; "config_change"])
  ].

Definition EVENT_PRIORITIES : gmap string Z :=
  list_to_map [("low", 1); ("medium", 2); ("high", 3); ("critical", 4)].

(** [s.upper()], on ASCII letters. *)
Definition ascii_upper (c : ascii) : ascii :=
  let n := N_of_ascii c in
  if ((97 <=? n) && (n <=? 122))%N then ascii_of_N (n - 32) else c.

Fixpoint upper (s : string) : string :=
  match s with
  | EmptyString => EmptyString
  | String c s' => String (ascii_upper c) (upper s')
  end.

(** An optional text inside an f-string. *)
Definition str_of_option (o : option string) : string := default "None" o.

(** [a or b] on optional texts. *)
Definition or_else (a b : option string) : option string :=
  match a with
  | Some s => if String.eqb s "" then b else Some s
  | None => b
  end.

(** notifications.py, [send_notification]: the row is stored; the e-mail
    that may follow is sent outside the session and its failure is caught. *)
Definition send_notification (now : datetime) (db : Session)
    (title message category priority : string) (related_id : option string)
  : Session :=
  add_notification db
    {| notif_title := title;
       notif_message := message;
       notif_category := category;
       notif_priority := priority;
       notif_related_id := related_id;
       notif_user_id := None;
       notif_read := false;
       notif_timestamp := now |}.

(** The local variable [message] of [send_event_notification]; it is left
    unbound by the branches that assign nothing. *)
Definition event_message (event : SystemEvent) : option string :=
  if String.eqb (event_category event) "agent" then
    if String.eqb (event_type event) "offline" then
      Some ("Agente " +:+ str_of_option (event_agent_id event)
            +:+ " está offline há mais de 15 minutos")
    else if String.eqb (event_type event) "failed" then
      Some ("Backup falhou no agente " +:+ str_of_option (event_agent_id event))
    else None
  else if String.eqb (event_category event) "backup" then
    if String.eqb (event_type event) "failed" then
      Some ("Backup falhou no agente " +:+ str_of_option (event_agent_id event))
    else None
  else Some (event_description event).

Definition send_event_notification (now : datetime) (db : Session)
    (event : SystemEvent) : Session * result unit :=
  let title :=
    "Evento " +:+ upper (event_priority event) +:+ ": " +:+ event_type event in
  match event_message event with
  | None => (db, Raise (UnboundLocalError "message"))
  | Some message =>
    (send_notification now db title message (event_category event)
       (event_priority event)
       (or_else (event_agent_id event) (event_related_id event)), Ok ())
  end.

(** The three checks at the head of [create_event], then the evaluation of
    [json.dumps(details) if details else None]: the module never imports
    [json]. *)
Definition check_event (category event_type : string)
    (details : option (list (string * json))) (priority : string)
  : result (option string) :=
  types ← match EVENT_CATEGORIES !! category with
          | None => Raise (ValueError
                      ("Categoria de evento inválida: " +:+ category))
          | Some l => Ok l
          end;
  _ ← (if bool_decide (event_type ∈@{list string} types) then Ok ()
       else Raise (ValueError
              ("Tipo de evento inválido para categoria " +:+ category
               +:+ ": " +:+ event_type)));
  _ ← (if bool_decide (is_Some (EVENT_PRIORITIES !! priority)) then Ok ()
       else Raise (ValueError ("Prioridade inválida: " +:+ priority)));
  match details with
  | Some (_ :: _) => Raise (NameError "json")
  | _ => Ok None
  end.

Definition create_event (now : datetime) (db : Session)
    (category event_type description : string)
    (agent_id_ : option string) (backup_job_id : option Z)
    (related_id : option string) (details : option (list (string * json)))
    (priority : string) : Session * result SystemEvent :=
  match check_event category event_type details priority with
  | Raise e => (db, Raise e)
  | Ok details_ =>
    let event :=
      {| event_category := category;
         event_type := event_type;
         event_description := description;
         event_agent_id := agent_id_;
         event_backup_job_id := backup_job_id;
         event_related_id := related_id;
         event_details := details_;
         event_priority := priority;
         event_timestamp := now |} in
    let db1 := add_system_event db event in
    if default 0 (EVENT_PRIORITIES !! "high")
       <=? default 0 (EVENT_PRIORITIES !! priority) then
      match send_event_notification now db1 event with
      | (db2, Ok _) => (db2, Ok event)
      | (db2, Raise e) => (db2, Raise e)
      end
    else (db1, Ok event)
  end.

(** ** stats.py *)

Record Storage : Type := {
  capacity_gb : Q;
  used_gb : Q;
  free_gb : Q;
  usage_percent : Q
}.

Record SystemOverview : Type := {
  overview_total_agents : Z;
  overview_online_agents : Z;
  overview_total_backups : Z;
  overview_success_rate : Q;
  overview_failed_backups : Z;
  overview_running_backups : Z;
  overview_total_size_gb : Q;
  overview_daily_growth_gb : Q;
  overview_storage : Storage
}.

Definition get_system_overview (now : datetime) (db : Session)
  : result SystemOverview :=
  let total_agents := Z.of_nat (length (agents db)) in
  let online_agents :=
    count (λ a, now - timedelta_minutes 15 <? last_seen a) (agents db) in
  let total_backups_ := Z.of_nat (length (backup_jobs db)) in
  let success_backups :=
    count (λ j, String.eqb (status j) "success") (backup_jobs db) in
  let failed_backups :=
    count (λ j, String.eqb (status j) "failed") (backup_jobs db) in
  let running_backups :=
    count (λ j, String.eqb (status j) "running") (backup_jobs db) in
  rate ← success_rate_of success_backups total_backups_;
  let total_size_bytes := sumZ size_bytes (backup_jobs db) in
  size_gb ← truediv (inject_Z total_size_bytes) (inject_Z (1024 ^ 3));
  let total_size_gb_ := round2 size_gb in
  let last_week := now - timedelta_days 7 in
  let backups_last_week :=
    filter (λ j, last_week ≤ start_time j) (backup_jobs db) in
  daily_growth_gb ←
    match backups_last_week with
    | [] => Ok 0%Q
    | _ =>
      avg_daily_size ← truediv (inject_Z (sumZ size_bytes backups_last_week)) 7;
      g ← truediv avg_daily_size (inject_Z (1024 ^ 3));
      mret (round2 g)
    end;
  let storage_capacity_gb := 1000%Q in
  let used_storage_gb := total_size_gb_ in
  let free_storage_gb := (storage_capacity_gb - used_storage_gb)%Q in
  used_ratio ← truediv used_storage_gb storage_capacity_gb;
  let storage_usage_percent := round2 (used_ratio * 100) in
  mret {| overview_total_agents := total_agents;
          overview_online_agents := online_agents;
          overview_total_backups := total_backups_;
          overview_success_rate := rate;
          overview_failed_backups := failed_backups;
          overview_running_backups := running_backups;
          overview_total_size_gb := total_size_gb_;
          overview_daily_growth_gb := daily_growth_gb;
          overview_storage :=
            {| capacity_gb := storage_capacity_gb;
               used_gb := used_storage_gb;
               free_gb := free_storage_gb;
               usage_percent := storage_usage_percent |} |}.

(** ** reports.py *)

(** [calculate_health_score(agent, stats, performance, issues)]. *)
Definition calculate_health_score (now : datetime) (agent : Agent)
    (stats : AgentStats) (performance : Performance) (issues : list string)
  : Q :=
  let score := 100%Q in
  let score :=
    if bool_decide ("high_failure_rate" ∈@{list string} issues)
    then (score - 30)%Q else score in
  let score :=
    if bool_decide ("not_reporting" ∈@{list string} issues)
    then (score - 40)%Q else score in
  let score :=
    if bool_decide ("low_success_rate" ∈@{list string} issues)
    then (score - 20)%Q else score in
  let score :=
    if Qltb (success_rate performance) 80
    then (score - (80 - success_rate performance) * (1 # 2))%Q
    else score in
  let score :=
    if now - timedelta_minutes 15 <? last_seen agent then (score + 10)%Q
    else score in
  py_max 0 (py_min 100 score).

(** The list [issues] that [generate_agent_health_report] builds for one
    agent. *)
Definition agent_issues (now : datetime) (agent : Agent)
    (agent_stats : AgentStats) (agent_performance : Performance)
  : list string :=
  let issues := [] in
  let issues :=
    if Qgtb (inject_Z (stats_failed_backups agent_stats))
            (inject_Z (stats_total_backups agent_stats) * (3 # 10))
    then issues ++ ["high_failure_rate"] else issues in
  let issues :=
    if last_seen agent <? now - timedelta_hours 1
    then issues ++ ["not_reporting"] else issues in
  let issues :=
    if Qltb (success_rate agent_performance) 80
    then issues ++ ["low_success_rate"] else issues in
  issues.





(** ** tips.py: the rule table *)

Record Solution : Type := {
  solution_title : string;
  solution_description : string;
  solution_priority : string
}.

Record Resource : Type := {
  resource_title : string;
  resource_url : string
}.

(** A number or a text, as found in a dictionary of metrics and in a rule. *)
Inductive pyvalue : Type :=
  | VNum (q : Q)
  | VStr (t : isotext).

Record MetricCondition : Type := {
  operator : string;
  value : pyvalue
}.

Record Condition : Type := {
  category : string;
  metrics : list (string * MetricCondition)
}.

Record TipRule : Type := {
  id : string;
  title : string;
  condition : Condition;
  solutions : list Solution;
  resources : list Resource
}.

Definition TIPS_DATABASE : list TipRule := [
  {| id := "backup_slow_performance";
     title := "Melhorar Performance de Backup Lento";
     condition :=
       {| category := "agent";
          metrics := [
            ("avg_duration_seconds",
             {| operator := ">"; value := VNum 3600 |});
            ("success_rate", {| operator := "<"; value := VNum 90 |})] |};
     solutions := [
       {| solution_title := "Otimizar Exclusões";
          solution_description := "Configure padrões de exclusão para arquivos temporários, caches e downloads que não precisam ser backupados";
          solution_priority := "high" |};
       {| solution_title := "Ajustar Compressão";
          solution_description := "Reduza o nível de compressão ou desative para diretórios com arquivos já comprimidos (imagens, vídeos, zips)";
          solution_priority := "medium" |};
       {| solution_title := "Verificar Conexão de Rede";
          solution_description := "Teste a velocidade da conexão de rede entre o agente e o destino de backup";
          solution_priority := "medium" |}];
     resources := [
       {| resource_title := "Documentação de Otimização";
          resource_url := "https://backup-system.docs/optimization" |}] |};
  {| id := "backup_high_failure_rate";
     title := "Reduzir Taxa de Falhas nos Backups";
     condition :=
       {| category := "agent";
          metrics := [
            ("success_rate", {| operator := "<"; value := VNum 80 |});
            ("failed_backups", {| operator := ">"; value := VNum 3 |})] |};
     solutions := [
       {| solution_title := "Verificar Permissões de Acesso";
          solution_description := "Certifique-se de que o serviço do agente tem permissões de leitura em todas as pastas de origem";
          solution_priority := "critical" |};
       {| solution_title := "Aumentar Timeout";
          solution_description := "Aumente o tempo limite de execução para backups de grandes volumes de dados";
          solution_priority := "high" |};
       {| solution_title := "Verificar Espaço em Disco";
          solution_description := "Confira se há espaço suficiente tanto na origem quanto no destino do backup";
          solution_priority := "critical" |}];
     resources := [
       {| resource_title := "Guia de Solução de Problemas";
          resource_url := "https://backup-system.docs/troubleshooting" |}] |};
  {| id := "agent_offline";
     title := "Agente Offline por Longo Período";
     condition :=
       {| category := "agent";
          metrics := [
            ("status",
             {| operator := "=="; value := VStr (OtherText "offline") |});
            ("last_seen",
             {| operator := "<"; value := VStr (OtherText "1h") |})] |};
     solutions := [
       {| solution_title := "Verificar Serviço do Agente";
          solution_description := "Reinicie o serviço do agente backup no Windows";
          solution_priority := "critical" |};
       {| solution_title := "Verificar Conectividade de Rede";
          solution_description := "Confira se a máquina pode se comunicar com o servidor central";
          solution_priority := "high" |};
       {| solution_title := "Verificar Firewall";
          solution_description := "Certifique-se de que as portas 9200 (API) e 8080 (interface web) estão liberadas";
          solution_priority := "high" |}];
     resources := [
       {| resource_title := "Manual de Instalação do Agente";
          resource_url := "https://backup-system.docs/agent-installation" |}] |};
  {| id := "storage_low_space";
     title := "Espaço em Disco Insuficiente";
     condition :=
       {| category := "system";
          metrics := [
            ("storage_usage_percent",
             {| operator := ">"; value := VNum 90 |})] |};
     solutions := [
       {| solution_title := "Aumentar Capacidade de Storage";
          solution_description := "Adicione mais espaço de armazenamento ao servidor ou migre para storage externo";
          solution_priority := "critical" |};
       {| solution_title := "Limpar Backups Antigos";
          solution_description := "Configure políticas de retenção para remover backups antigos automaticamente";
          solution_priority := "high" |};
       {| solution_title := "Otimizar Deduplicação";
          solution_description := "Habilite ou ajuste configurações de deduplicação de dados para reduzir uso de espaço";
          solution_priority := "medium" |}];
     resources := [
       {| resource_title := "Configuração de Retenção";
          resource_url := "https://backup-system.docs/retention-policies" |}] |}
].

(** ** tips.py: comparisons of dynamically typed values *)

#[global] Instance isotext_eq_dec : EqDecision isotext.
Proof. solve_decision. Defined.

(** Order on texts.  ISO renderings are ordered as their datetimes.  The
    service never orders an ISO rendering against another text; the
    embedding puts the rendering first. *)
Definition text_ltb (a b : isotext) : bool :=
  match a, b with
  | IsoText x, IsoText y => x <? y
  | OtherText s, OtherText t => String.ltb s t
  | IsoText _, OtherText _ => true
  | OtherText _, IsoText _ => false
  end.

(** [a == b]. *)
Definition py_eqb (a b : pyvalue) : bool :=
  match a, b with
  | VNum x, VNum y => Qeq_bool x y
  | VStr s, VStr t => bool_decide (s = t)
  | _, _ => false
  end.

(** [a <= b] and [a >= b]; a number against a text is a [TypeError]. *)
Definition py_leb (a b : pyvalue) : result bool :=
  match a, b with
  | VNum x, VNum y => Ok (Qle_bool x y)
  | VStr s, VStr t => Ok (negb (text_ltb t s))
  | _, _ => Raise TypeError
  end.

Definition py_geb (a b : pyvalue) : result bool := py_leb b a.

(** [s.endswith(suffix)] and [s[:-1]]. *)
Definition endswith (s suffix : string) : bool :=
  let n := String.length s in
  let m := String.length suffix in
  (m <=? n)%nat && String.eqb (substring (n - m) m s) suffix.

Definition drop_last (s : string) : string :=
  substring 0 (String.length s - 1) s.

Fixpoint digits_value (s : string) (acc : Z) : option Z :=
  match s with
  | EmptyString => Some acc
  | String c s' =>
    let n := Z.of_N (N_of_ascii c) in
    if (48 <=? n) && (n <=? 57) then digits_value s' (10 * acc + (n - 48))
    else None
  end.

(** [float(s)], on the unsigned decimal integers (the durations of the
    rule table are of this form). *)
Definition py_float (s : string) : result Q :=
  match s with
  | EmptyString => Raise (ValueError "could not convert string to float")
  | _ =>
    match digits_value s 0 with
    | Some z => Ok (inject_Z z)
    | None => Raise (ValueError "could not convert string to float")
    end
  end.

(** The seconds a duration text such as ["1h"] stands for. *)
Definition duration_seconds (t : isotext) : result Q :=
  match t with
  | IsoText _ => Raise (ValueError "could not convert string to float")
  | OtherText duration_str =>
    if endswith duration_str "h" then
      q ← py_float (drop_last duration_str); mret (q * 3600)%Q
    else if endswith duration_str "m" then
      q ← py_float (drop_last duration_str); mret (q * 60)%Q
    else py_float duration_str
  end.

(** [max(strings)]: the first of the largest elements, in the order of
    Python strings. *)
Definition py_max_str (l : list string) : result string :=
  match l with
  | [] => Raise (ValueError "max() arg is an empty sequence")
  | x :: l' => Ok (fold_left (λ acc y, if String.ltb acc y then y else acc) l' x)
  end.

(** ** tips.py: agent rules *)

Record Tip : Type := {
  tip_id : string;
  tip_title : string;
  tip_description : string;
  tip_solutions : list Solution;
  tip_resources : list Resource;
  tip_priority : string;
  tip_agent_id : option string;
  tip_system_wide : option bool
}.

(** The branches of the loop over [condition["metrics"].items()] of
    [analyze_agent_health], for a metric present in [metrics]; each returns
    the new value of [matches]. *)
Definition is_str (v : pyvalue) : bool :=
  match v with VStr _ => true | VNum _ => false end.

Definition check_last_seen (now : datetime) (condition_value : MetricCondition)
    (metric_value : pyvalue) (matches : bool) : result bool :=
  duration ← match value condition_value with
             | VStr duration_str => duration_seconds duration_str
             | VNum _ => Raise TypeError
             end;
  last_seen_ ← match metric_value with
               | VStr t => fromisoformat t
               | VNum _ => Raise TypeError
               end;
  let actual_value := total_seconds (now - last_seen_) in
  if String.eqb (operator condition_value) "<" then
    mret (if Qgeb actual_value duration then false else matches)
  else if String.eqb (operator condition_value) ">" then
    mret (if Qle_bool actual_value duration then false else matches)
  else mret matches.

Definition check_status (condition_value : MetricCondition)
    (metric_value : pyvalue) (matches : bool) : bool :=
  if String.eqb (operator condition_value) "=="
     && negb (py_eqb metric_value (value condition_value)) then false
  else if String.eqb (operator condition_value) "!="
          && py_eqb metric_value (value condition_value) then false
  else matches.

Definition check_number (condition_value : MetricCondition)
    (metric_value : pyvalue) (matches : bool) : result bool :=
  if String.eqb (operator condition_value) ">" then
    is_le ← py_leb metric_value (value condition_value);
    mret (if is_le : bool then false else matches)
  else if String.eqb (operator condition_value) "<" then
    is_ge ← py_geb metric_value (value condition_value);
    mret (if is_ge : bool then false else matches)
  else if String.eqb (operator condition_value) "==" then
    mret (if py_eqb metric_value (value condition_value) then matches
          else false)
  else mret matches.

Definition check_agent_metric (now : datetime) (metric_name : string)
    (condition_value : MetricCondition) (metric_value : pyvalue)
    (matches : bool) : result bool :=
  if String.eqb metric_name "last_seen" && is_str (value condition_value)
  then check_last_seen now condition_value metric_value matches
  else if String.eqb metric_name "status"
  then mret (check_status condition_value metric_value matches)
  else check_number condition_value metric_value matches.

(** The loop over the metrics of one rule; a metric absent from [metrics]
    ends it with [matches = False]. *)
Fixpoint agent_rule_matches (now : datetime) (metrics_ : gmap string pyvalue)
    (conds : list (string * MetricCondition)) (matches : bool) : result bool :=
  match conds with
  | [] => Ok matches
  | (metric_name, condition_value) :: conds' =>
    match metrics_ !! metric_name with
    | None => Ok false
    | Some metric_value =>
      matches' ← check_agent_metric now metric_name condition_value
                   metric_value matches;
      agent_rule_matches now metrics_ conds' matches'
    end
  end.

Definition agent_tip (aid : string) (tip : TipRule) : result Tip :=
  priority ← py_max_str (solution_priority <$> solutions tip);
  mret {| tip_id := id tip;
          tip_title := title tip;
          tip_description :=
            "Soluções recomendadas para melhorar a performance do seu agente";
          tip_solutions := solutions tip;
          tip_resources := resources tip;
          tip_priority := priority;
          tip_agent_id := Some aid;
          tip_system_wide := None |}.

(** The loop over the rule table. *)
Fixpoint agent_rules (now : datetime) (metrics_ : gmap string pyvalue)
    (aid : string) (rules : list TipRule) (applicable_tips : list Tip)
  : result (list Tip) :=
  match rules with
  | [] => Ok applicable_tips
  | tip :: rules' =>
    if negb (String.eqb (category (condition tip)) "agent") then
      agent_rules now metrics_ aid rules' applicable_tips
    else
      matches ← agent_rule_matches now metrics_ (metrics (condition tip)) true;
      if matches : bool then
        t ← agent_tip aid tip;
        agent_rules now metrics_ aid rules' (applicable_tips ++ [t])
      else agent_rules now metrics_ aid rules' applicable_tips
  end.

(** The dictionary [metrics] of [analyze_agent_health]. *)
Definition agent_metrics (now : datetime) (agent_stats : AgentStats)
    (agent_performance : Performance) : result (gmap string pyvalue) :=
  let metrics_ : gmap string pyvalue :=
    list_to_map [
      ("success_rate", VNum (success_rate agent_performance));
      ("avg_duration_seconds", VNum (avg_duration agent_performance));
      ("failed_backups", VNum (inject_Z (stats_failed_backups agent_stats)));
      ("total_backups", VNum (inject_Z (stats_total_backups agent_stats)));
      ("status", VStr (OtherText (stats_status agent_stats)));
      ("last_seen", VStr (stats_last_seen agent_stats))] in
  if String.eqb (stats_status agent_stats) "offline" then
    last_seen_ ← fromisoformat (stats_last_seen agent_stats);
    mret (<["offline_duration" := VNum (total_seconds (now - last_seen_))]>
            metrics_)
  else mret metrics_.

Definition analyze_agent_health_in (rules : list TipRule)
    (settings : Settings) (now : datetime) (db : Session) (aid : string)
  : result (list Tip) :=
  match get_agent_stats settings now db aid with
  | None => Ok []
  | Some agent_stats =>
    let agent_performance := get_agent_performance now db aid 7 in
    metrics_ ← agent_metrics now agent_stats agent_performance;
    agent_rules now metrics_ aid rules []
  end.

Definition analyze_agent_health : Settings → datetime → Session → string
    → result (list Tip) :=
  analyze_agent_health_in TIPS_DATABASE.

(** ** tips.py: system rules *)

(** The names bound at the top level of [app/services/agents.py]: its
    imports, [logger] and its functions. *)
Definition agents_module : list string := [
  "json"; "logging"; "datetime"; "timedelta"; "List"; "Dict"; "Any";
  "Optional"; "uuid4"; "Session"; "and_"; "or_"; "func"; "models"; "schemas";
  "settings"; "helpers"; "logger";
  "get_agent"; "get_agent_by_hostname"; "get_agents"; "create_agent";
  "create_default_config"; "update_agent"; "update_agent_config";
  "update_agent_heartbeat"; "get_agent_config"; "report_backup";
  "get_agent_stats"; "get_agent_performance"].

(** The names bound at the top level of [app/services/stats.py]. *)
Definition stats_module : list string := [
  "datetime"; "timedelta"; "List"; "Dict"; "Any"; "Optional"; "Session";
  "func"; "and_"; "or_"; "text"; "models"; "schemas"; "agents"; "backup";
  "get_system_overview"; "get_backup_trends";
  "get_agent_performance_comparison"; "get_storage_usage_by_agent";
  "get_backup_success_rate_by_tool"; "get_top_backup_sources"].

(** [module.name]: the attribute must be bound in the module. *)
Definition getattr (module_name : string) (namespace : list string)
    (name : string) : result unit :=
  if bool_decide (name ∈@{list string} namespace) then Ok ()
  else Raise (AttributeError
         ("module '" +:+ module_name +:+ "' has no attribute '" +:+ name
          +:+ "'")).

Definition system_metrics (system_overview : SystemOverview)
  : gmap string pyvalue :=
  list_to_map [
    ("storage_usage_percent",
     VNum (usage_percent (overview_storage system_overview)));
    ("total_agents", VNum (inject_Z (overview_total_agents system_overview)));
    ("online_agents",
     VNum (inject_Z (overview_online_agents system_overview)));
    ("success_rate", VNum (overview_success_rate system_overview))].

Definition check_system_metric (condition_value : MetricCondition)
    (metric_value : pyvalue) (matches : bool) : result bool :=
  if String.eqb (operator condition_value) ">" then
    is_le ← py_leb metric_value (value condition_value);
    mret (if is_le : bool then false else matches)
  else if String.eqb (operator condition_value) "<" then
    is_ge ← py_geb metric_value (value condition_value);
    mret (if is_ge : bool then false else matches)
  else mret matches.

Fixpoint system_rule_matches (metrics_ : gmap string pyvalue)
    (conds : list (string * MetricCondition)) (matches : bool) : result bool :=
  match conds with
  | [] => Ok matches
  | (metric_name, condition_value) :: conds' =>
    match metrics_ !! metric_name with
    | None => Ok false
    | Some metric_value =>
      matches' ← check_system_metric condition_value metric_value matches;
      system_rule_matches metrics_ conds' matches'
    end
  end.

Definition system_tip (tip : TipRule) : result Tip :=
  priority ← py_max_str (solution_priority <$> solutions tip);
  mret {| tip_id := id tip;
          tip_title := title tip;
          tip_description :=
            "Soluções recomendadas para melhorar a saúde do sistema";
          tip_solutions := solutions tip;
          tip_resources := resources tip;
          tip_priority := priority;
          tip_agent_id := None;
          tip_system_wide := Some true |}.

Fixpoint system_rules (metrics_ : gmap string pyvalue)
    (rules : list TipRule) (applicable_tips : list Tip) : result (list Tip) :=
  match rules with
  | [] => Ok applicable_tips
  | tip :: rules' =>
    if negb (String.eqb (category (condition tip)) "system") then
      system_rules metrics_ rules' applicable_tips
    else
      matches ← system_rule_matches metrics_ (metrics (condition tip)) true;
      if matches : bool then
        t ← system_tip tip;
        system_rules metrics_ rules' (applicable_tips ++ [t])
      else system_rules metrics_ rules' applicable_tips
  end.

(** [analyze_system_health]: its first statement evaluates
    [agents.get_system_overview], an attribute of the module [agents]. *)
Definition analyze_system_health_in (rules : list TipRule) (now : datetime)
    (db : Session) : result (list Tip) :=
  _ ← getattr "app.services.agents" agents_module "get_system_overview";
  system_overview ← get_system_overview now db;
  system_rules (system_metrics system_overview) rules [].

Definition analyze_system_health : datetime → Session → result (list Tip) :=
  analyze_system_health_in TIPS_DATABASE.

(** ** tips.py: all tips *)

(** [d[k] = v] on a dictionary that keeps insertion order. *)
Fixpoint dict_set {V} (k : string) (v : V) (d : list (string * V))
  : list (string * V) :=
  match d with
  | [] => [(k, v)]
  | (k', v') :: d' =>
    if String.eqb k' k then (k', v) :: d' else (k', v') :: dict_set k v d'
  end.

(** The key under which [get_all_applicable_tips] stores a tip. *)
Definition tip_key (tip : Tip) : result string :=
  suffix ← (if default false (tip_system_wide tip)
            then Ok (default "" (tip_agent_id tip))
            else getitem "agent_id" (tip_agent_id tip));
  mret (tip_id tip +:+ suffix).

(** The loop that fills [unique_tips]. *)
Fixpoint remove_duplicates (tips : list Tip)
    (unique_tips : list (string * Tip)) : result (list (string * Tip)) :=
  match tips with
  | [] => Ok unique_tips
  | tip :: tips' =>
    k ← tip_key tip;
    remove_duplicates tips' (dict_set k tip unique_tips)
  end.

(** The sort key; the dictionary written in [get_all_applicable_tips] has
    the content of [EVENT_PRIORITIES]. *)
Definition priority_rank (tip : Tip) : result Z :=
  getitem (tip_priority tip) (EVENT_PRIORITIES !! tip_priority tip).

(** [sorted(..., key=..., reverse=True)]: a stable sort, largest key first. *)
Fixpoint insert_by_rank (x : Z * Tip) (l : list (Z * Tip)) : list (Z * Tip) :=
  match l with
  | [] => [x]
  | y :: l' => if y.1 <=? x.1 then x :: l else y :: insert_by_rank x l'
  end.

Definition sort_by_rank (l : list (Z * Tip)) : list (Z * Tip) :=
  foldr insert_by_rank [] l.

Definition get_all_applicable_tips (settings : Settings) (now : datetime)
    (db : Session) : result (list Tip) :=
  system_tips ← analyze_system_health now db;
  let agents_list := get_agents db 0 100 None in
  agent_tips ← mapM (λ agent, analyze_agent_health settings now db
                                (agent_id agent)) agents_list;
  let tips := system_tips ++ concat agent_tips in
  unique_tips ← remove_duplicates tips [];
  ranked ← mapM (λ e : string * Tip, r ← priority_rank e.2; mret (r, e.2))
             unique_tips;
  mret (snd <$> sort_by_rank ranked).

(** * The code around the services *)

(** ** agents.py: [get_agent_config] *)

Record ConfigAnswer : Type := {
  answer_config : json;
  answer_config_hash : string
}.

(** [get_agent_config].  The column [AgentConfig.config] holds what
    [json.dumps] wrote, so [json.loads] gives the document back. *)
Definition get_agent_config (db : Session) (aid : string)
  : option ConfigAnswer :=
  match get_agent db aid with
  | None => None
  | Some agent =>
    match list_find (λ c, config_agent_id c = aid) (agent_configs db) with
    | None => Some {| answer_config := JDict []; answer_config_hash := "" |}
    | Some (_, c) =>
      Some {| answer_config := config c;
              answer_config_hash := config_hash agent |}
    end
  end.

(** ** Names of a module *)

(** A global name that a function body reads must be bound in its module
    (none of the names below is a builtin). *)
Definition global_name (namespace : list string) (name : string)
  : result unit :=
  if bool_decide (name ∈@{list string} namespace) then Ok ()
  else Raise (NameError name).

(** The names bound at the top level of [app/services/events.py]. *)
Definition events_module : list string := [
  "datetime"; "List"; "Dict"; "Any"; "Optional"; "Session"; "func"; "and_";
  "or_"; "models"; "schemas"; "notifications"; "helpers";
  "EVENT_CATEGORIES"; "EVENT_PRIORITIES";
  "create_event"; "send_event_notification"; "get_events";
  "get_event_summary"; "get_agent_events"; "get_backup_events";
  "cleanup_old_events"].

(** The names bound at the top level of [app/utils/notifications.py]. *)
Definition notifications_module : list string := [
  "datetime"; "List"; "Dict"; "Any"; "Optional"; "Session"; "models";
  "schemas"; "helpers"; "email"; "NOTIFICATION_TYPES";
  "send_notification"; "should_send_email"; "get_notification_emails";
  "get_user_notifications"; "mark_notification_read";
  "mark_all_notifications_read"; "get_unread_notification_count"].

(** The names bound at the top level of [app/utils/scheduler.py]. *)
Definition scheduler_module : list string := [
  "datetime"; "Callable"; "Dict"; "Any"; "threading"; "time";
  "BackgroundScheduler"; "CronTrigger"; "SessionLocal"; "agents"; "backup";
  "reports"; "events"; "notifications"; "SystemScheduler"; "scheduler";
  "cleanup_old_events"; "generate_daily_report"; "check_offline_agents";
  "monitor_storage_usage"; "cleanup_old_notifications"].

(** ** events.py: [cleanup_old_events] *)

Module events.

(** [cleanup_old_events]: the rows older than [days] days are deleted and
    counted. *)
Definition cleanup_old_events (now : datetime) (db : Session) (days : Z)
  : Session * result Z :=
  match global_name events_module "timedelta" with
  | Raise e => (db, Raise e)
  | Ok _ =>
    let cutoff_date := now - timedelta_days days in
    let deleted_count :=
      count (λ e, event_timestamp e <? cutoff_date) (system_events db) in
    ({| agents := agents db; agent_configs := agent_configs db;
        backup_jobs := backup_jobs db;
        system_events :=
          filter (λ e, ¬ event_timestamp e < cutoff_date) (system_events db);
        notifications := notifications db |}, Ok deleted_count)
  end.

End events.

(** ** notifications.py: [get_unread_notification_count] *)

Definition get_unread_notification_count (db : Session) (user_id : Z)
  : result Z :=
  _ ← global_name notifications_module "and_";
  mret (count (λ n, bool_decide (notif_user_id n = Some user_id)
                    && negb (notif_read n))
              (notifications db)).

(** ** stats.py: [get_agent_performance_comparison] *)









(** ** helpers.py *)

(** [d.get(k)] on a dictionary with text keys that keeps insertion order. *)
Fixpoint sdict_get {V} (k : string) (d : list (string * V)) : option V :=
  match d with
  | [] => None
  | (k', v) :: d' => if String.eqb k' k then Some v else sdict_get k d'
  end.

(** [merge_dicts], on dictionaries as lists of items in insertion order.
    [merge_value value old] is what the loop stores under a key of [dict2]:
    the merge of the two values when both are dictionaries, and [value]
    otherwise. *)
Fixpoint merge_value (value : json) (old : option json) {struct value}
  : json :=
  match value with
  | JDict dict2 =>
    match old with
    | Some (JDict dict1) =>
      JDict (fold_left
               (λ result item,
                  dict_set item.1
                    (merge_value item.2 (sdict_get item.1 result)) result)
               dict2 dict1)
    | _ => value
    end
  | _ => value
  end.

Definition merge_dicts (dict1 dict2 : list (string * json))
  : list (string * json) :=
  fold_left
    (λ result item,
       dict_set item.1 (merge_value item.2 (sdict_get item.1 result)) result)
    dict2 dict1.

(** [s[:k]]: a negative [k] counts from the end. *)
Definition slice_to {A} (k : Z) (s : list A) : list A :=
  if 0 <=? k then take (Z.to_nat k) s
  else take (Z.to_nat (Z.of_nat (length s) + k)) s.

(** [truncate_string], on texts as lists of characters. *)
Definition truncate_string {A} (text : list A) (max_length : Z)
    (suffix : list A) : list A :=
  if Z.of_nat (length text) <=? max_length then text
  else slice_to (max_length - Z.of_nat (length suffix)) text ++ suffix.

(** The slices [lst[i:i + n]] for [i] in [range(0, len(lst), n)], [n]
    positive; [fuel] bounds the number of slices. *)
Fixpoint chunks_from {A} (fuel n : nat) (lst : list A) : list (list A) :=
  match fuel with
  | O => []
  | S fuel' =>
    match lst with
    | [] => []
    | _ :: _ => take n lst :: chunks_from fuel' n (drop n lst)
    end
  end.

(** [list(chunks(lst, n))]: [range] refuses the step 0 and is empty for a
    negative step. *)
Definition chunks {A} (lst : list A) (n : Z) : result (list (list A)) :=
  if n =? 0 then Raise (ValueError "range() arg 3 must not be zero")
  else if n <? 0 then Ok []
  else Ok (chunks_from (length lst) (Z.to_nat n) lst).

(** ** reports.py: [generate_backup_report] *)

Record ReportSummary : Type := {
  summary_total_backups : Z;
  summary_success_backups : Z;
  summary_failed_backups : Z;
  summary_running_backups : Z;
  summary_success_rate : Q;
  summary_total_size_gb : Q;
  summary_avg_size_gb : Q;
  summary_avg_duration_seconds : Q
}.

(** One value of the dictionary [tool_stats]. *)
Record ToolStats : Type := {
  tool_count : Z;
  tool_success : Z;
  tool_failed : Z;
  tool_size : Z
}.

(** One value of the dictionary [source_stats]. *)
Record SourceStats : Type := {
  source_count : Z;
  source_total_size : Z
}.

Record TopSource : Type := {
  top_source : string;
  top_backup_count : Z;
  top_total_size_gb : Q
}.

Record DetailedBackup : Type := {
  detail_id : Z;
  detail_agent_id : string;
  detail_status : string;
  detail_tool : string;
  detail_source : string;
  detail_destination : string;
  detail_size_gb : Q;
  detail_start_time : isotext;
  detail_end_time : option isotext;
  detail_duration_seconds : option Q
}.

(** The report; [period] holds the two days whose texts the source joins
    with " to ". *)
Record BackupReport : Type := {
  backup_report_period : Z * Z;
  backup_report_generated_at : isotext;
  backup_report_summary : ReportSummary;
  backup_report_tool_breakdown : list (string * ToolStats);
  backup_report_top_sources : list TopSource;
  backup_report_detailed_backups : list DetailedBackup
}.

(** A dictionary with text keys that keeps insertion order. *)
Fixpoint sdict_mem {V} (k : string) (d : list (string * V)) : bool :=
  match d with
  | [] => false
  | (k', _) :: d' => String.eqb k' k || sdict_mem k d'
  end.

Fixpoint sdict_alter {V} (f : V → V) (k : string) (d : list (string * V))
  : list (string * V) :=
  match d with
  | [] => []
  | (k', v) :: d' =>
    if String.eqb k' k then (k', f v) :: d' else (k', v) :: sdict_alter f k d'
  end.

(** [order_by(BackupJob.start_time.desc())]: newest first, and rows of
    equal [start_time] stay in the order of the table. *)
Fixpoint insert_by_start_time (x : BackupJob) (l : list BackupJob)
  : list BackupJob :=
  match l with
  | [] => [x]
  | y :: l' =>
    if start_time x <? start_time y
    then y :: insert_by_start_time x l'
    else x :: l
  end.

Definition newest_first (l : list BackupJob) : list BackupJob :=
  foldr insert_by_start_time [] l.

(** The rows [generate_backup_report] reads: the jobs started in the last
    [days] days, of one agent when [agent_id] is a text that is not empty,
    newest first. *)
Definition report_backups (now : datetime) (db : Session)
    (agent_id_ : option string) (days : Z) : list BackupJob :=
  let start_date := now - timedelta_days days in
  let query := filter (λ b, start_date ≤ start_time b) (backup_jobs db) in
  let query :=
    match agent_id_ with
    | Some aid =>
      if String.eqb aid "" then query
      else filter (λ b, job_agent_id b = aid) query
    | None => query
    end in
  newest_first query.

(** The list [durations]. *)
Definition report_durations (backups : list BackupJob) : list Q :=
  omap (λ b, (λ et, total_seconds (et - start_time b)) <$> end_time b)
       backups.

Definition new_tool : ToolStats :=
  {| tool_count := 0; tool_success := 0; tool_failed := 0; tool_size := 0 |}.

(** The updates one backup makes to the entry of its tool. *)
Definition count_tool (backup : BackupJob) (st : ToolStats) : ToolStats :=
  {| tool_count := tool_count st + 1;
     tool_success :=
       if String.eqb (status backup) "success" then tool_success st + 1
       else tool_success st;
     tool_size :=
       if String.eqb (status backup) "success"
       then tool_size st + size_bytes backup
       else tool_size st;
     tool_failed :=
       if String.eqb (status backup) "success" then tool_failed st
       else if String.eqb (status backup) "failed" then tool_failed st + 1
       else tool_failed st |}.

(** One iteration of the loop that fills [tool_stats]. *)
Definition group_by_tool (tool_stats : list (string * ToolStats))
    (backup : BackupJob) : list (string * ToolStats) :=
  let tool_stats :=
    if sdict_mem (tool backup) tool_stats then tool_stats
    else tool_stats ++ [(tool backup, new_tool)] in
  sdict_alter (count_tool backup) (tool backup) tool_stats.

Definition new_source : SourceStats :=
  {| source_count := 0; source_total_size := 0 |}.

Definition count_source (backup : BackupJob) (st : SourceStats)
  : SourceStats :=
  {| source_count := source_count st + 1;
     source_total_size := source_total_size st + size_bytes backup |}.

(** One iteration of the loop that fills [source_stats]. *)
Definition group_by_source (source_stats : list (string * SourceStats))
    (backup : BackupJob) : list (string * SourceStats) :=
  if String.eqb (status backup) "success" && (0 <? size_bytes backup) then
    let source_stats :=
      if sdict_mem (source backup) source_stats then source_stats
      else source_stats ++ [(source backup, new_source)] in
    sdict_alter (count_source backup) (source backup) source_stats
  else source_stats.

(** [sorted(..., key=lambda x: x[1]["total_size"], reverse=True)]:
    descending, and entries of equal sizes stay in their order. *)
Fixpoint insert_by_size (x : string * SourceStats)
    (l : list (string * SourceStats)) : list (string * SourceStats) :=
  match l with
  | [] => [x]
  | y :: l' =>
    if source_total_size x.2 <? source_total_size y.2
    then y :: insert_by_size x l'
    else x :: l
  end.

Definition sort_by_size (l : list (string * SourceStats))
  : list (string * SourceStats) :=
  foldr insert_by_size [] l.

(** [round(x / (1024 ** 3), 2)]. *)
Definition round_gb (x : Q) : result Q :=
  g ← truediv x (inject_Z (1024 ^ 3)); mret (round2 g).

Definition top_source_row (entry : string * SourceStats) : result TopSource :=
  size_gb ← round_gb (inject_Z (source_total_size entry.2));
  mret {| top_source := entry.1;
          top_backup_count := source_count entry.2;
          top_total_size_gb := size_gb |}.

Definition detailed_backup (b : BackupJob) : result DetailedBackup :=
  size_gb ← (if size_bytes b =? 0 then Ok 0%Q
             else round_gb (inject_Z (size_bytes b)));
  mret {| detail_id := job_id b;
          detail_agent_id := job_agent_id b;
          detail_status := status b;
          detail_tool := tool b;
          detail_source := source b;
          detail_destination := destination b;
          detail_size_gb := size_gb;
          detail_start_time := isoformat (start_time b);
          detail_end_time := isoformat <$> end_time b;
          detail_duration_seconds :=
            (λ et, total_seconds (et - start_time b)) <$> end_time b |}.

(** [generate_backup_report], for a period whose start
    [utcnow() - timedelta(days)] is a datetime; the [OverflowError] that the
    subtraction raises for another number of days is not modelled, and the
    properties of the report are stated for such a period. *)
Definition generate_backup_report (now : datetime) (db : Session)
    (agent_id_ : option string) (days : Z) : result (option BackupReport) :=
  let start_date := now - timedelta_days days in
  let backups := report_backups now db agent_id_ days in
  match backups with
  | [] => Ok None
  | _ :: _ =>
    let total_backups_ := Z.of_nat (length backups) in
    let success_backups :=
      count (λ b, String.eqb (status b) "success") backups in
    let failed_backups :=
      count (λ b, String.eqb (status b) "failed") backups in
    let running_backups :=
      count (λ b, String.eqb (status b) "running") backups in
    rate ← success_rate_of success_backups total_backups_;
    let total_size_bytes :=
      sumZ size_bytes (filter (λ b, size_bytes b ≠ 0) backups) in
    avg_size_bytes ← (if 0 <? total_backups_
                      then truediv (inject_Z total_size_bytes)
                                   (inject_Z total_backups_)
                      else Ok 0%Q);
    let durations := report_durations backups in
    avg ← match durations with
          | [] => Ok 0%Q
          | _ :: _ => truediv (sumQ (λ d, d) durations)
                              (inject_Z (Z.of_nat (length durations)))
          end;
    let avg_duration_ := round2 avg in
    let tool_stats := fold_left group_by_tool backups [] in
    let source_stats := fold_left group_by_source backups [] in
    let top_sources := take 5 (sort_by_size source_stats) in
    total_size_gb_ ← round_gb (inject_Z total_size_bytes);
    avg_size_gb ← round_gb avg_size_bytes;
    top_rows ← mapM top_source_row top_sources;
    detailed ← mapM detailed_backup (take 50 backups);
    mret (Some
      {| backup_report_period := (date start_date, date now);
         backup_report_generated_at := isoformat now;
         backup_report_summary :=
           {| summary_total_backups := total_backups_;
              summary_success_backups := success_backups;
              summary_failed_backups := failed_backups;
              summary_running_backups := running_backups;
              summary_success_rate := rate;
              summary_total_size_gb := total_size_gb_;
              summary_avg_size_gb := avg_size_gb;
              summary_avg_duration_seconds := avg_duration_ |};
         backup_report_tool_breakdown := tool_stats;
         backup_report_top_sources := top_rows;
         backup_report_detailed_backups := detailed |})
  end.

(** ** scheduler.py: the tasks *)

Module scheduler.

Section tasks.

(** The texts [str(x)] of a float and [dt.isoformat()] of a datetime, as
    they appear inside the f-strings of the tasks. *)
Variable str_float : Q → string.
Variable isoformat_text : datetime → string.

(** The text [str(e)] of an exception. *)
Variable str_exn : exn → string.

(** [cleanup_old_events]: an exception is printed. *)
Definition cleanup_old_events (now : datetime) (db : Session) : Session :=
  (events.cleanup_old_events now db 90).1.


(** The body of the loop of [check_offline_agents] over [offline_agents]. *)
Definition report_offline_agent (now : datetime) (db : Session)
    (agent : Agent) : Session * result unit :=
  match
    create_event now db "agent" "offline"
      ("Agente " +:+ hostname agent +:+ " está offline há mais de 15 minutos")
      (Some (agent_id agent)) None None None "high"
  with
  | (db1, Raise e) => (db1, Raise e)
  | (db1, Ok _) =>
    (send_notification now db1
       ("Agente Offline: " +:+ hostname agent)
       ("O agente " +:+ hostname agent
        +:+ " não responde há mais de 15 minutos. Último heartbeat: "
        +:+ isoformat_text (last_seen agent))
       "agent" "high" (Some (agent_id agent)), Ok ())
  end.

Fixpoint report_offline_agents (now : datetime) (db : Session)
    (offline_agents : list Agent) : Session * result unit :=
  match offline_agents with
  | [] => (db, Ok ())
  | agent :: rest =>
    match report_offline_agent now db agent with
    | (db1, Raise e) => (db1, Raise e)
    | (db1, Ok _) => report_offline_agents now db1 rest
    end
  end.

(** [check_offline_agents]: an exception ends the loop and is printed. *)
Definition check_offline_agents (now : datetime) (db : Session) : Session :=
  let offline_threshold := now - timedelta_minutes 15 in
  let agents_list := get_agents db 0 100 None in
  let offline_agents :=
    filter (λ agent, last_seen agent < offline_threshold) agents_list in
  (report_offline_agents now db offline_agents).1.

(** The message of the two storage notifications. *)
Definition storage_message (storage : Storage) : string :=
  "O storage está " +:+ str_float (usage_percent storage)
  +:+ "% cheio. Capacidade total: 1000GB, Usado: "
  +:+ str_float (used_gb storage) +:+ "GB, Livre: "
  +:+ str_float (free_gb storage) +:+ "GB".

(** One branch of [monitor_storage_usage]: the event, then the
    notification. *)
Definition storage_alert (now : datetime) (db : Session)
    (description priority title message : string) : Session * result unit :=
  match
    create_event now db "system" "warning" description None None None None
      priority
  with
  | (db1, Raise e) => (db1, Raise e)
  | (db1, Ok _) =>
    (send_notification now db1 title message "system" priority None, Ok ())
  end.

(** [monitor_storage_usage]: an exception is printed. *)
Definition monitor_storage_usage (now : datetime) (db : Session) : Session :=
  match get_system_overview now db with
  | Raise _ => db
  | Ok overview =>
    let storage := overview_storage overview in
    if Qltb 90 (usage_percent storage) then
      (storage_alert now db
         ("Uso de storage crítico: " +:+ str_float (usage_percent storage)
          +:+ "%")
         "critical" "ALERTA CRÍTICO: Storage Quase Cheio"
         (storage_message storage)).1
    else if Qltb 80 (usage_percent storage) then
      (storage_alert now db
         ("Uso de storage alto: " +:+ str_float (usage_percent storage)
          +:+ "%")
         "high" "Aviso: Storage Acima de 80%"
         (storage_message storage)).1
    else db
  end.

(** [cleanup_old_notifications]: the rows older than 30 days are deleted;
    an exception is printed. *)
Definition cleanup_old_notifications (now : datetime) (db : Session)
  : Session :=
  let cutoff_date := now - timedelta_days 30 in
  match global_name scheduler_module "models" with
  | Raise _ => db
  | Ok _ =>
    {| agents := agents db; agent_configs := agent_configs db;
       backup_jobs := backup_jobs db; system_events := system_events db;
       notifications :=
         filter (λ n, ¬ notif_timestamp n < cutoff_date) (notifications db) |}
  end.

End tasks.

End scheduler.

(** * Specification-side definitions *)

(** ** The health score *)

Definition is_online (now : datetime) (agent : Agent) : Prop :=
  now - last_seen agent < timedelta_minutes 15.

#[global] Instance is_online_dec now agent : Decision (is_online now agent) :=
  Z_lt_dec _ _.

(** The score as the specification words it: penalties and bonus added up,
    then clamped to [0, 100]. *)
Definition health_score_spec (now : datetime) (agent : Agent) (rate : Q)
    (issues : list string) : Q :=
  let penalty (issue : string) (p : Q) : Q :=
    if decide (issue ∈ issues) then p else 0%Q in
  Qmax 0 (Qmin 100
    (100 - penalty "high_failure_rate" 30 - penalty "not_reporting" 40
         - penalty "low_success_rate" 20
         - (if Qlt_le_dec rate 80 then (80 - rate) * (1 # 2) else 0)
         + (if decide (is_online now agent) then 10 else 0)))%Q.


(** ** The registry *)

(** At most one row per hostname. *)
Definition unique_hostnames (db : Session) : Prop :=
  NoDup (hostname <$> agents db).

(** The row [create_agent] leaves for a hostname it already knows. *)
Definition refreshed (now : datetime) (agent_info : AgentInfo)
    (existing : Agent) : Agent :=
  {| hostname := hostname existing;
     ip_address := default (ip_address existing) (info_ip_address agent_info);
     os := default (os existing) (info_os agent_info);
     agent_id := agent_id existing;
     enabled := enabled existing;
     last_seen := now;
     config_hash := config_hash existing |}.

(** The row [update_agent_heartbeat] leaves. *)
Definition touched (now : datetime) (agent : Agent) : Agent :=
  {| hostname := hostname agent;
     ip_address := ip_address agent;
     os := os agent;
     agent_id := agent_id agent;
     enabled := enabled agent;
     last_seen := now;
     config_hash := config_hash agent |}.

(** ** The job ledger *)

(** A report from which [report_backup] can build a row: the required keys
    are present and the times are ISO texts. *)
Definition report_well_formed (report : Report) : bool :=
  match report_start_time report with
  | Some (IsoText _) => true
  | _ => false
  end
  && match report_end_time report with
     | Some (OtherText s) => String.eqb s ""
     | _ => true
     end
  && bool_decide (is_Some (report_status report))
  && bool_decide (is_Some (report_tool report))
  && bool_decide (is_Some (report_source report))
  && bool_decide (is_Some (report_destination report)).

(** Every session the registry, the ledger and the event log can produce. *)
Inductive reachable (settings : Settings) : Session → Prop :=
  | reachable_empty : reachable settings empty_db
  | reachable_create_agent now uuid db agent_info :
      reachable settings db →
      reachable settings (create_agent settings now uuid db agent_info).1
  | reachable_heartbeat now db aid :
      reachable settings db →
      reachable settings (update_agent_heartbeat now db aid).1
  | reachable_report_backup db aid report :
      reachable settings db →
      reachable settings (report_backup db aid report).1
  | reachable_create_event now db category event_type description agent_id_
      backup_job_id related_id details priority :
      reachable settings db →
      reachable settings
        (create_event now db category event_type description agent_id_
           backup_job_id related_id details priority).1.


(** ** Events *)

(** The pair belongs to the vocabulary table. *)
Definition in_vocabulary (category event_type : string) : Prop :=
  ∃ types : list string,
    EVENT_CATEGORIES !! category = Some types ∧ event_type ∈ types.

(** ** Average duration *)

(** The duration of a finished job, in seconds. *)
Definition finished_duration (b : BackupJob) : option Q :=
  (λ et, total_seconds (et - start_time b)) <$> end_time b.

(** The mean as the specification words it: over the jobs that have an
    [end_time], and 0 when there is none. *)
Definition mean_finished_duration (backups : list BackupJob) : Q :=
  let durations : list Q := omap finished_duration backups in
  match durations with
  | [] => 0%Q
  | _ => Qred (sumQ (λ q, q) durations / inject_Z (Z.of_nat (length durations)))
  end.

(** What a job adds to the [duration] of its day: nothing when it has no
    [end_time]. *)
Definition counted_duration (b : BackupJob) : Q :=
  default 0%Q (finished_duration b).

(** ** Tips *)

(** The rank of a priority: low < medium < high < critical. *)
Definition rank_of (priority : string) : Z :=
  default 0 (EVENT_PRIORITIES !! priority).

(** The highest priority of a list, as the specification words it. *)
Definition highest_priority (l : list string) : option string :=
  match l with
  | [] => None
  | x :: l' =>
    Some (fold_left (λ acc y, if rank_of acc <? rank_of y then y else acc)
                    l' x)
  end.

(** * Further specification-side definitions *)

(** [d.get(k)] on a dictionary that keeps insertion order. *)
Fixpoint dict_get {V} (k : Z) (d : list (Z * V)) : option V :=
  match d with
  | [] => None
  | (k', v) :: d' => if k' =? k then Some v else dict_get k d'
  end.

(** The jobs of a list that started on a given day. *)
Definition started_on (day : Z) (backups : list BackupJob) : list BackupJob :=
  filter (λ b, date (start_time b) = day) backups.

(** The event row [create_event] builds. *)
Definition event_row (now : datetime) (category type_ description : string)
    (agent_id_ : option string) (backup_job_id : option Z)
    (related_id : option string) (priority : string) : SystemEvent :=
  {| event_category := category; event_type := type_;
     event_description := description; event_agent_id := agent_id_;
     event_backup_job_id := backup_job_id; event_related_id := related_id;
     event_details := None; event_priority := priority;
     event_timestamp := now |}.

(** ** Tips *)




(** ** The scheduler *)

(** The agents [check_offline_agents] reports: among the first hundred, the
    ones last seen more than 15 minutes ago. *)
Definition offline_agents (now : datetime) (db : Session) : list Agent :=
  filter (λ agent, last_seen agent < now - timedelta_minutes 15)
         (take 100 (agents db)).

(** The event stored for an offline agent. *)
Definition offline_event (now : datetime) (agent : Agent) : SystemEvent :=
  event_row now "agent" "offline"
    ("Agente " +:+ hostname agent +:+ " está offline há mais de 15 minutos")
    (Some (agent_id agent)) None None "high".

(** The two notifications stored for an offline agent: the one of the
    event, which names the agent by its id, then the one of the task, which
    names it by its hostname. *)
Definition offline_notifications (isoformat_text : datetime → string)
    (now : datetime) (agent : Agent) : list Notification :=
  [ {| notif_title := "Evento HIGH: offline";
       notif_message :=
         "Agente " +:+ agent_id agent
         +:+ " está offline há mais de 15 minutos";
       notif_category := "agent";
       notif_priority := "high";
       notif_related_id := or_else (Some (agent_id agent)) None;
       notif_user_id := None;
       notif_read := false;
       notif_timestamp := now |};
    {| notif_title := "Agente Offline: " +:+ hostname agent;
       notif_message :=
         "O agente " +:+ hostname agent
         +:+ " não responde há mais de 15 minutos. Último heartbeat: "
         +:+ isoformat_text (last_seen agent);
       notif_category := "agent";
       notif_priority := "high";
       notif_related_id := Some (agent_id agent);
       notif_user_id := None;
       notif_read := false;
       notif_timestamp := now |} ].

(** ** The comparison of agents *)



(** ** The range of dates *)

(** The first and the last [datetime], in microseconds from the epoch:
    0001-01-01 00:00:00 and 9999-12-31 23:59:59.999999. *)
Definition datetime_min : datetime := -62135596800000000.
Definition datetime_max : datetime := 253402300799999999.

(** [datetime.utcnow() - timedelta(days=days)] is a datetime: [days] is a
    number of days of a [timedelta] and the date is in the range of
    datetimes.  Otherwise the subtraction raises [OverflowError]. *)
Definition start_date_in_range (now : datetime) (days : Z) : Prop :=
  Z.abs days ≤ 999999999
  ∧ datetime_min ≤ now - timedelta_days days ≤ datetime_max.

(** An example: one agent, with a finished and a running job. *)
Definition example_session : Session :=
  {| agents := [{| hostname := "db01"; ip_address := "10.0.0.7";
                   os := "Windows"; agent_id := "a-1"; enabled := true;
                   last_seen := 1700000000000000; config_hash := "" |}];
     agent_configs := [];
     backup_jobs :=
       [{| job_id := 1; job_agent_id := "a-1";
           start_time := 1700000000000000;
           end_time := Some 1700000100000000;
           status := "success"; tool := "restic";
           source := "/srv"; destination := "/mnt";
           size_bytes := 1073741824; logs := "";
           error_message := None |};
        {| job_id := 2; job_agent_id := "a-1";
           start_time := 1700000200000000; end_time := None;
           status := "running"; tool := "restic";
           source := "/srv"; destination := "/mnt";
           size_bytes := 0; logs := "";
           error_message := None |}];
     system_events := []; notifications := [] |}.

(** ** The backup report *)

(** [order_by(BackupJob.start_time.desc())]: the order of the rows. *)
Definition by_start_time_desc (a b : BackupJob) : Prop :=
  start_time b ≤ start_time a.

(** The jobs a report is about: started in the last [days] days, and of the
    agent when one is named. *)
Definition in_report (now : datetime) (agent_id_ : option string) (days : Z)
    (b : BackupJob) : bool :=
  (now - timedelta_days days <=? start_time b)
  && match agent_id_ with
     | Some aid => String.eqb aid "" || String.eqb (job_agent_id b) aid
     | None => true
     end.

(** The statistics of a tool over a list of jobs. *)
Definition tool_stats_of (backups : list BackupJob) (t : string)
  : ToolStats :=
  let of_tool := λ b, String.eqb (tool b) t in
  {| tool_count := count of_tool backups;
     tool_success :=
       count (λ b, of_tool b && String.eqb (status b) "success") backups;
     tool_failed :=
       count (λ b, of_tool b && String.eqb (status b) "failed") backups;
     tool_size :=
       sumZ size_bytes
         (filter (λ b, of_tool b && String.eqb (status b) "success" = true)
                 backups) |}.

(** The jobs that count for a source: successful and of positive size. *)
Definition counts_for_source (s : string) (b : BackupJob) : bool :=
  String.eqb (source b) s && String.eqb (status b) "success"
  && (0 <? size_bytes b).

(** A row of [top_sources]. *)
Definition top_source_of (entry : string * SourceStats) : TopSource :=
  {| top_source := entry.1;
     top_backup_count := source_count entry.2;
     top_total_size_gb :=
       round2 (inject_Z (source_total_size entry.2) / inject_Z (1024 ^ 3)) |}.

(** A row of [detailed_backups]. *)
Definition detail_of (b : BackupJob) : DetailedBackup :=
  {| detail_id := job_id b;
     detail_agent_id := job_agent_id b;
     detail_status := status b;
     detail_tool := tool b;
     detail_source := source b;
     detail_destination := destination b;
     detail_size_gb :=
       if size_bytes b =? 0 then 0%Q
       else round2 (inject_Z (size_bytes b) / inject_Z (1024 ^ 3));
     detail_start_time := isoformat (start_time b);
     detail_end_time := isoformat <$> end_time b;
     detail_duration_seconds := finished_duration b |}.

(** One iteration of a loop that groups rows in a dictionary: the row [b]
    counts when [cond b] holds, under the key [key b]; a new key starts
    from [init]. *)
Definition group_step {B V} (key : B → string) (upd : B → V → V) (init : V)
    (cond : B → bool) (d : list (string * V)) (b : B) : list (string * V) :=
  if cond b then
    sdict_alter (upd b) (key b)
      (if sdict_mem (key b) d then d else d ++ [(key b, init)])
  else d.

(** The statistics of a source over a list of jobs. *)
Definition source_stats_of (backups : list BackupJob) (s : string)
  : SourceStats :=
  let jobs := filter (λ b, counts_for_source s b = true) backups in
  {| source_count := Z.of_nat (length jobs);
     source_total_size := sumZ size_bytes jobs |}.

(** The order of [top_sources]: by descending size. *)
Definition by_size_desc (a b : string * SourceStats) : Prop :=
  source_total_size b.2 ≤ source_total_size a.2.

(** * Properties *)

(** ** Rationals *)

Lemma Qltb_lt (x y : Q) : Qltb x y = true ↔ (x < y)%Q.
Proof.
  unfold Qltb. rewrite negb_true_iff, <- not_true_iff_false, Qle_bool_iff.
  split; [apply Qnot_le_lt | apply Qlt_not_le].
Qed.

Lemma Qltb_ge (x y : Q) : Qltb x y = false ↔ (y <= x)%Q.
Proof.
  unfold Qltb. rewrite negb_false_iff. apply Qle_bool_iff.
Qed.

Lemma py_min_Qmin (a b : Q) : (py_min a b == Qmin a b)%Q.
Proof.
  unfold py_min. destruct (Qltb b a) eqn:E.
  - apply Qltb_lt in E. symmetry. apply Q.min_r. by apply Qlt_le_weak.
  - apply Qltb_ge in E. symmetry. by apply Q.min_l.
Qed.

Lemma py_max_Qmax (a b : Q) : (py_max a b == Qmax a b)%Q.
Proof.
  unfold py_max. destruct (Qltb a b) eqn:E.
  - apply Qltb_lt in E. symmetry. apply Q.max_r. by apply Qlt_le_weak.
  - apply Qltb_ge in E. symmetry. by apply Q.max_l.
Qed.

Lemma clamp_range (x : Q) :
  (0 <= py_max 0 (py_min 100 x) ∧ py_max 0 (py_min 100 x) <= 100)%Q.
Proof.
  rewrite py_max_Qmax, py_min_Qmin. split.
  - apply Q.le_max_l.
  - apply Q.max_lub; [done | apply Q.le_min_l].
Qed.

(** ** The health score *)

(** C1.  For every agent, issue list, 7-day success rate and instant, the
    score is 100, minus 30, 40 and 20 for the issues [high_failure_rate],
    [not_reporting] and [low_success_rate] that the list contains, minus
    [(80 - success_rate) * 0.5] when the success rate is below 80, plus 10
    when [last_seen] is less than 15 minutes old, the whole clamped to
    [0, 100]; in particular it always lies in [0, 100]. *)
Theorem health_score_formula (now : datetime) (agent : Agent)
    (stats : AgentStats) (performance : Performance) (issues : list string) :
  (calculate_health_score now agent stats performance issues
     == health_score_spec now agent (success_rate performance) issues
   ∧ 0 <= calculate_health_score now agent stats performance issues
   ∧ calculate_health_score now agent stats performance issues <= 100)%Q.
Proof.
  split; [|apply clamp_range].
  unfold calculate_health_score, health_score_spec.
  rewrite py_max_Qmax, py_min_Qmin.
  apply Q.max_compat; [done|]. apply Q.min_compat; [done|].
  destruct (Qltb (success_rate performance) 80) eqn:Hr;
    [apply Qltb_lt in Hr | apply Qltb_ge in Hr];
    destruct (Qlt_le_dec (success_rate performance) 80) as [Hr'|Hr'];
    try (exfalso; eapply Qlt_not_le; eassumption).
  all: destruct (now - timedelta_minutes 15 <? last_seen agent) eqn:Hb;
    [apply Z.ltb_lt in Hb | apply Z.ltb_ge in Hb];
    destruct (decide (is_online now agent)) as [Ho|Ho];
    unfold is_online in Ho; try lia.
  all: repeat case_bool_decide; repeat case_decide; try tauto; ring.
Qed.

(** ** The registry *)

Section find.
Context {A : Type} (P : A → Prop) `{!∀ x, Decision (P x)}.

Lemma list_find_insert_same (l : list A) (i : nat) (x y : A) :
  list_find P l = Some (i, x) → P y →
  list_find P (<[i := y]> l) = Some (i, y).
Proof.
  intros Hf Hy. apply list_find_Some in Hf as (Hi & _ & Hleast).
  apply list_find_insert_Some. right; left.
  split_and!; [done|done|by eapply lookup_lt_Some|done|done].
Qed.

Lemma list_find_snoc (l : list A) (y : A) :
  list_find P l = None → P y →
  list_find P (l ++ [y]) = Some (length l, y).
Proof.
  intros Hl Hy. rewrite list_find_app_r by done. simpl.
  by rewrite decide_True.
Qed.
End find.

Lemma find_agent_by_hostname_Some (db : Session) (h : string) (i : nat)
    (a : Agent) :
  find_agent_by_hostname db h = Some (i, a) →
  agents db !! i = Some a ∧ hostname a = h.
Proof. intros Hf. by apply list_find_Some in Hf as (? & ? & _). Qed.

Lemma find_agent_Some (db : Session) (aid : string) (i : nat) (a : Agent) :
  find_agent db aid = Some (i, a) →
  agents db !! i = Some a ∧ agent_id a = aid.
Proof. intros Hf. by apply list_find_Some in Hf as (? & ? & _). Qed.

Lemma create_agent_known settings now uuid db agent_info h i existing :
  info_hostname agent_info = Some h →
  find_agent_by_hostname db h = Some (i, existing) →
  create_agent settings now uuid db agent_info
  = (set_agents db (<[i := refreshed now agent_info existing]> (agents db)),
     Ok (refreshed now agent_info existing)).
Proof. intros Hh Hf. unfold create_agent. by rewrite Hh; simpl; rewrite Hf. Qed.

Lemma create_agent_unknown settings now uuid db agent_info h :
  info_hostname agent_info = Some h →
  find_agent_by_hostname db h = None →
  let agent :=
    {| hostname := h;
       ip_address := default "" (info_ip_address agent_info);
       os := default "" (info_os agent_info);
       agent_id := uuid;
       enabled := true;
       last_seen := now;
       config_hash := "" |} in
  create_agent settings now uuid db agent_info
  = (create_default_config settings (set_agents db (agents db ++ [agent]))
       uuid, Ok agent).
Proof. intros Hh Hf. unfold create_agent. by rewrite Hh; simpl; rewrite Hf. Qed.

(** After [create_agent] the hostname is found, on the row returned. *)
Lemma create_agent_found settings now uuid db agent_info h :
  info_hostname agent_info = Some h →
  ∃ db' i a,
    create_agent settings now uuid db agent_info = (db', Ok a)
    ∧ find_agent_by_hostname db' h = Some (i, a)
    ∧ hostname a = h ∧ last_seen a = now.
Proof.
  intros Hh. destruct (find_agent_by_hostname db h) as [[i e]|] eqn:Hf.
  - eexists _, i, _. split; [by eapply create_agent_known|].
    apply find_agent_by_hostname_Some in Hf as Hi. destruct Hi as [_ He].
    split_and!; [|done..].
    unfold find_agent_by_hostname. simpl.
    eapply (list_find_insert_same (λ a, hostname a = h)); [exact Hf|done].
  - eexists _, _, _. split; [by eapply create_agent_unknown|].
    split_and!; [|done..].
    unfold find_agent_by_hostname. simpl.
    apply (list_find_snoc (λ a, hostname a = h)); [exact Hf|done].
Qed.

Lemma unique_hostnames_refresh db i existing existing' :
  agents db !! i = Some existing →
  hostname existing' = hostname existing →
  unique_hostnames db →
  unique_hostnames (set_agents db (<[i := existing']> (agents db))).
Proof.
  unfold unique_hostnames. simpl. intros Hi Hh Hu.
  rewrite list_fmap_insert, Hh, list_insert_id; [done|].
  by rewrite list_lookup_fmap, Hi.
Qed.

Lemma unique_hostnames_new settings db agent :
  find_agent_by_hostname db (hostname agent) = None →
  unique_hostnames db →
  unique_hostnames
    (create_default_config settings (set_agents db (agents db ++ [agent]))
       (agent_id agent)).
Proof.
  unfold unique_hostnames. simpl. intros Hf Hu.
  rewrite fmap_app. apply NoDup_app. split_and!; [done| |apply NoDup_singleton].
  intros h Hin ->%list_elem_of_singleton.
  apply list_elem_of_fmap in Hin as (a & Ha & Hin).
  apply list_find_None in Hf. rewrite Forall_forall in Hf.
  by apply (Hf a).
Qed.

(** [create_agent] keeps hostnames unique. *)
Lemma create_agent_unique settings now uuid db agent_info :
  unique_hostnames db →
  unique_hostnames (create_agent settings now uuid db agent_info).1.
Proof.
  intros Hu. destruct (info_hostname agent_info) as [h|] eqn:Hh.
  - destruct (find_agent_by_hostname db h) as [[i e]|] eqn:Hf.
    + erewrite create_agent_known by done. simpl.
      apply find_agent_by_hostname_Some in Hf as [Hi _].
      by eapply unique_hostnames_refresh.
    + erewrite create_agent_unknown by done.
      by apply (unique_hostnames_new settings db
                  {| hostname := h; agent_id := uuid |}).
  - unfold create_agent. by rewrite Hh.
Qed.

Lemma filter_none {A} (P : A → Prop) `{!∀ x, Decision (P x)} (l : list A) :
  (∀ a, a ∈ l → ¬ P a) → filter P l = [].
Proof.
  induction l as [|y l IH]; intros Hl; [done|].
  rewrite filter_cons_False by (apply Hl, elem_of_cons; by left).
  apply IH. intros a Ha. apply Hl, elem_of_cons. by right.
Qed.

Lemma unique_filter {A B} `{EqDecision B} (f : A → B) (l : list A) (x : A) :
  NoDup (f <$> l) → x ∈ l → filter (λ a, f a = f x) l = [x].
Proof.
  induction l as [|y l IH]; intros Hnd Hin; [by apply elem_of_nil in Hin|].
  rewrite fmap_cons in Hnd. apply NoDup_cons in Hnd as [Hy Hnd].
  apply elem_of_cons in Hin as [->|Hin].
  - rewrite filter_cons_True by done. f_equal.
    apply filter_none. intros a Ha Hfa. apply Hy. rewrite <- Hfa.
    by apply list_elem_of_fmap_2.
  - rewrite filter_cons_False; [by apply IH|].
    intros Hfy. apply Hy. rewrite Hfy. by apply list_elem_of_fmap_2.
Qed.

(** C8 (as the specification states it, refuted).  Two registrations of
    one hostname, the second one reading an earlier clock than the first:
    both return the same [agent_id], and [last_seen] goes back from 9 to 5,
    as [create_agent] stores the clock it reads and takes no maximum with
    the stored value. *)
Lemma register_twice_clock_back :
  let settings := {| host := "backup.local";
                     agent_heartbeat_timeout_minutes := 15 |} in
  let info := {| info_hostname := Some "db01";
                 info_ip_address := Some "10.0.0.7";
                 info_os := Some "Windows" |} in
  ∃ db1 a1 db2 a2,
    create_agent settings 9 "0b0e4f3c" empty_db info = (db1, Ok a1)
    ∧ create_agent settings 5 "77aa01d2" db1 info = (db2, Ok a2)
    ∧ agent_id a2 = agent_id a1
    ∧ last_seen a1 = 9 ∧ last_seen a2 = 5
    ∧ get_agent db2 (agent_id a1) = Some a2
    ∧ ¬ (last_seen a1 ≤ last_seen a2).
Proof.
  intros settings info. eexists _, _, _, _.
  split_and!; [reflexivity..|]. simpl. lia.
Qed.

(** C8 (amended).  Registering twice with one hostname, whatever the two
    readings of the clock: both calls succeed and return the same
    [agent_id]; the second call allocates no row and adds no configuration,
    it refreshes [ip_address], [os] and [last_seen] of the row the first
    call returned; [last_seen] is the clock each call reads, so it does not
    decrease across the two calls exactly when the clock does not run
    backwards between them; and when hostnames were unique before (as they
    are in every reachable session) they are unique afterwards and exactly
    one row carries the hostname. *)
Theorem register_twice settings now1 now2 uuid1 uuid2 db info1 info2 h :
  info_hostname info1 = Some h →
  info_hostname info2 = Some h →
  ∃ db1 a1 db2 a2,
    create_agent settings now1 uuid1 db info1 = (db1, Ok a1)
    ∧ create_agent settings now2 uuid2 db1 info2 = (db2, Ok a2)
    ∧ agent_id a2 = agent_id a1
    ∧ a2 = refreshed now2 info2 a1
    ∧ length (agents db2) = length (agents db1)
    ∧ agent_configs db2 = agent_configs db1
    ∧ last_seen a1 = now1 ∧ last_seen a2 = now2
    ∧ (last_seen a1 ≤ last_seen a2 ↔ now1 ≤ now2)
    ∧ (unique_hostnames db →
         unique_hostnames db2
         ∧ filter (λ a, hostname a = h) (agents db2) = [a2]).
Proof.
  intros Hh1 Hh2.
  destruct (create_agent_found settings now1 uuid1 db info1 h Hh1)
    as (db1 & i & a1 & Hc1 & Hf1 & Hn1 & Hl1).
  pose proof (create_agent_known settings now2 uuid2 db1 info2 h i a1 Hh2 Hf1)
    as Hc2.
  eexists db1, a1, _, _.
  split_and!; [done|exact Hc2|done|done| |done|done|done| |].
  - simpl. by rewrite length_insert.
  - rewrite Hl1. simpl. lia.
  - intros Hu.
    pose proof (create_agent_unique settings now1 uuid1 db info1 Hu) as Hu1.
    rewrite Hc1 in Hu1. simpl in Hu1.
    pose proof (create_agent_unique settings now2 uuid2 db1 info2 Hu1) as Hu2.
    rewrite Hc2 in Hu2. simpl in Hu2.
    split; [exact Hu2|].
    apply find_agent_by_hostname_Some in Hf1 as [Hi Hhn].
    rewrite <- Hhn.
    change (hostname a1) with (hostname (refreshed now2 info2 a1)).
    apply unique_filter; [exact Hu2|].
    simpl. apply list_elem_of_lookup. exists i.
    apply list_lookup_insert_eq. by eapply lookup_lt_Some.
Qed.

Lemma register_twice_witness :
  let settings := {| host := "backup.local";
                     agent_heartbeat_timeout_minutes := 15 |} in
  let info1 := {| info_hostname := Some "db01";
                  info_ip_address := Some "10.0.0.7";
                  info_os := Some "Windows" |} in
  let info2 := {| info_hostname := Some "db01";
                  info_ip_address := Some "10.0.0.8"; info_os := None |} in
  ∃ db1 a1 db2 a2,
    create_agent settings 5 "0b0e4f3c" empty_db info1 = (db1, Ok a1)
    ∧ create_agent settings 9 "77aa01d2" db1 info2 = (db2, Ok a2)
    ∧ agent_id a2 = agent_id a1
    ∧ ip_address a2 = "10.0.0.8" ∧ os a2 = os a1
    ∧ last_seen a1 ≤ last_seen a2
    ∧ unique_hostnames db2.
Proof.
  intros settings info1 info2.
  destruct (register_twice settings 5 9 "0b0e4f3c" "77aa01d2" empty_db
              info1 info2 "db01" eq_refl eq_refl)
    as (db1 & a1 & db2 & a2 & H1 & H2 & Hid & Ha2 & _ & _ & _ & _ & Hls & Hu).
  exists db1, a1, db2, a2.
  split_and!; [exact H1 | exact H2 | exact Hid | by rewrite Ha2
              | by rewrite Ha2 | apply (proj2 Hls); lia
              | apply Hu, NoDup_nil_2].
Defined.

(** Sessions the service can reach from the empty one. *)
Lemma update_agent_heartbeat_unique now db aid :
  unique_hostnames db → unique_hostnames (update_agent_heartbeat now db aid).1.
Proof.
  intros Hu. unfold update_agent_heartbeat.
  destruct (find_agent db aid) as [[i a]|] eqn:Hf; [|done]. simpl.
  apply find_agent_Some in Hf as [Hi _].
  by eapply unique_hostnames_refresh.
Qed.

(** C7.  A heartbeat for an [agent_id] without a row returns [False] and
    leaves the session as it was; for a known [agent_id] it returns [True]
    and the only change is [last_seen = now] on the row of that agent. *)
Theorem heartbeat_known_and_unknown (now : datetime) (db : Session)
    (aid : string) :
  (get_agent db aid = None → update_agent_heartbeat now db aid = (db, false))
  ∧ (∀ agent, get_agent db aid = Some agent →
       ∃ i, agents db !! i = Some agent
         ∧ update_agent_heartbeat now db aid
           = (set_agents db (<[i := touched now agent]> (agents db)), true)
         ∧ get_agent (update_agent_heartbeat now db aid).1 aid
           = Some (touched now agent)
         ∧ last_seen (touched now agent) = now).
Proof.
  unfold get_agent, update_agent_heartbeat.
  destruct (find_agent db aid) as [[i a]|] eqn:Hf; simpl.
  - split; [done|]. intros agent [= <-].
    apply find_agent_Some in Hf as Hi. destruct Hi as [Hi Hid].
    exists i. split_and!; [done|done| |done].
    unfold find_agent. simpl.
    erewrite (list_find_insert_same (λ a, agent_id a = aid)); [done|exact Hf|done].
  - split; [done|]. by intros agent.
Qed.

Lemma heartbeat_witness :
  let db := {| agents := [{| hostname := "db01"; ip_address := "10.0.0.7";
                             os := "Windows"; agent_id := "a-1";
                             enabled := true; last_seen := 5;
                             config_hash := "" |}];
               agent_configs := []; backup_jobs := [];
               system_events := []; notifications := [] |} in
  get_agent db "a-2" = None
  ∧ update_agent_heartbeat 9 db "a-2" = (db, false)
  ∧ (update_agent_heartbeat 9 db "a-1").2 = true.
Proof.
  intros db. split; [reflexivity|]. split.
  - apply (heartbeat_known_and_unknown 9 db "a-2"). reflexivity.
  - destruct (proj2 (heartbeat_known_and_unknown 9 db "a-1") _ eq_refl)
      as (i & _ & -> & _). reflexivity.
Defined.

(** C4 (as the specification states it, refuted).  A registration with the
    empty hostname, on the empty session: the call succeeds, and the agent
    row and its default configuration are stored. *)
Lemma empty_hostname_is_registered :
  create_agent
    {| host := "backup.local"; agent_heartbeat_timeout_minutes := 15 |}
    1700000000000000 "0b0e4f3c" empty_db
    {| info_hostname := Some ""; info_ip_address := Some "10.0.0.7";
       info_os := Some "Windows" |}
  = ({| agents := [{| hostname := ""; ip_address := "10.0.0.7";
                      os := "Windows"; agent_id := "0b0e4f3c";
                      enabled := true; last_seen := 1700000000000000;
                      config_hash := "" |}];
        agent_configs :=
          [{| config_agent_id := "0b0e4f3c";
              config := default_config
                {| host := "backup.local";
                   agent_heartbeat_timeout_minutes := 15 |} "0b0e4f3c" |}];
        backup_jobs := []; system_events := []; notifications := [] |},
     Ok {| hostname := ""; ip_address := "10.0.0.7"; os := "Windows";
           agent_id := "0b0e4f3c"; enabled := true;
           last_seen := 1700000000000000; config_hash := "" |}).
Proof. reflexivity. Qed.

(** C4 (amended).  [create_agent] does not look at the content of the
    hostname: for every hostname, the empty one included, the call succeeds
    and returns the row stored under that hostname, with [last_seen = now];
    when the hostname was unknown that row is new, carries the fresh
    [agent_id] and comes with its default configuration.  The call fails
    only when the request has no hostname key; it then raises [KeyError] and
    stores nothing. *)
Theorem create_agent_any_hostname (settings : Settings) (now : datetime)
    (uuid : string) (db : Session) (agent_info : AgentInfo) :
  (∀ h, info_hostname agent_info = Some h →
     ∃ db' a,
       create_agent settings now uuid db agent_info = (db', Ok a)
       ∧ hostname a = h ∧ last_seen a = now
       ∧ get_agent_by_hostname db' h = Some a
       ∧ (get_agent_by_hostname db h = None →
            agent_id a = uuid
            ∧ agents db' = agents db ++ [a]
            ∧ agent_configs db'
              = agent_configs db
                ++ [{| config_agent_id := uuid;
                       config := default_config settings uuid |}]))
  ∧ (info_hostname agent_info = None →
       create_agent settings now uuid db agent_info
       = (db, Raise (KeyError "hostname"))).
Proof.
  split.
  - intros h Hh.
    destruct (create_agent_found settings now uuid db agent_info h Hh)
      as (db' & i & a & Hc & Hf & Hn & Hl).
    exists db', a. split_and!; [done..| |].
    + unfold get_agent_by_hostname. by rewrite Hf.
    + unfold get_agent_by_hostname. intros Hnone.
      destruct (find_agent_by_hostname db h) as [?|] eqn:Hf0; [done|].
      rewrite (create_agent_unknown settings now uuid db agent_info h Hh Hf0)
        in Hc.
      by injection Hc as <- <-.
  - intros Hh. unfold create_agent. by rewrite Hh.
Qed.

Lemma create_agent_any_hostname_witness :
  let settings := {| host := "backup.local";
                     agent_heartbeat_timeout_minutes := 15 |} in
  let agent_info := {| info_hostname := Some ""; info_ip_address := None;
                       info_os := None |} in
  ∃ db' a,
    create_agent settings 7 "0b0e4f3c" empty_db agent_info = (db', Ok a)
    ∧ hostname a = "" ∧ agent_id a = "0b0e4f3c" ∧ agents db' = [a].
Proof.
  intros settings agent_info.
  destruct (proj1 (create_agent_any_hostname settings 7 "0b0e4f3c" empty_db
                     agent_info) "" eq_refl)
    as (db' & a & Hc & Hh & _ & _ & Hnew).
  destruct (Hnew eq_refl) as (Hid & Hag & _).
  exists db', a. split_and!; done.
Defined.

(** ** The job ledger *)

(** C3 (as the specification states it, refuted).  A report for an
    [agent_id] that no row carries, on the empty session: the call succeeds
    and the job row is stored. *)
Lemma unknown_agent_job_is_recorded :
  let report :=
    {| report_start_time := Some (IsoText 1700000000000000);
       report_end_time := Some (IsoText 1700000060000000);
       report_status := Some "success"; report_tool := Some "restic";
       report_source := Some "C:\data"; report_destination := Some "s3:bucket";
       report_size_bytes := Some 1024; report_logs := None;
       report_error_message := None |} in
  let job :=
    {| job_id := 1; job_agent_id := "no-such-agent";
       start_time := 1700000000000000; end_time := Some 1700000060000000;
       status := "success"; tool := "restic"; source := "C:\data";
       destination := "s3:bucket"; size_bytes := 1024; logs := "";
       error_message := None |} in
  get_agent empty_db "no-such-agent" = None
  ∧ report_backup empty_db "no-such-agent" report
    = (add_backup_job empty_db job, Ok job)
  ∧ backup_jobs (report_backup empty_db "no-such-agent" report).1 = [job].
Proof. split_and!; reflexivity. Qed.

Lemma build_backup_job_well_formed (db : Session) (aid : string)
    (report : Report) :
  report_well_formed report = true →
  ∃ job, build_backup_job db aid report = Ok job
    ∧ job_agent_id job = aid
    ∧ job_id job = Z.of_nat (length (backup_jobs db)) + 1.
Proof.
  unfold report_well_formed, build_backup_job. intros Hwf.
  repeat (apply andb_true_iff in Hwf as [Hwf ?]).
  repeat match goal with
         | H : bool_decide (is_Some _) = true |- _ =>
           apply bool_decide_eq_true in H as [? ->]
         end.
  destruct (report_start_time report) as [[st|]|]; try done.
  destruct (report_end_time report) as [[et|s]|]; simpl.
  - eexists. split_and!; reflexivity.
  - match goal with H : String.eqb s "" = true |- _ => rewrite H end. simpl.
    eexists. split_and!; reflexivity.
  - eexists. split_and!; reflexivity.
Qed.

Lemma build_backup_job_malformed (db : Session) (aid : string)
    (report : Report) :
  report_well_formed report = false →
  ∃ e, build_backup_job db aid report = Raise e.
Proof.
  unfold report_well_formed, build_backup_job. intros Hwf.
  destruct (report_start_time report) as [[st|?]|]; simpl in *;
    [|by eexists..].
  destruct (report_end_time report) as [[et|s]|]; simpl in *.
  all: try (destruct (String.eqb s "") eqn:Es; simpl in *; [|by eexists]).
  all: destruct (report_status report); simpl in *; [|by eexists].
  all: destruct (report_tool report); simpl in *; [|by eexists].
  all: destruct (report_source report); simpl in *; [|by eexists].
  all: destruct (report_destination report); simpl in *; [|by eexists].
  all: done.
Qed.

(** C3 (amended).  [report_backup] does not consult the agents table: for
    every session and every [agent_id], registered or not, a well-formed
    report is stored as one new job row carrying that [agent_id] and the row
    is returned; a malformed report raises and the session is left as it
    was. *)
Theorem report_backup_any_agent (db : Session) (aid : string)
    (report : Report) :
  (report_well_formed report = true →
     ∃ job, report_backup db aid report = (add_backup_job db job, Ok job)
       ∧ job_agent_id job = aid
       ∧ backup_jobs (add_backup_job db job) = backup_jobs db ++ [job]
       ∧ agents (add_backup_job db job) = agents db)
  ∧ (report_well_formed report = false →
       ∃ e, report_backup db aid report = (db, Raise e)).
Proof.
  unfold report_backup. split; intros Hwf.
  - destruct (build_backup_job_well_formed db aid report Hwf)
      as (job & -> & Hid & _).
    by exists job.
  - destruct (build_backup_job_malformed db aid report Hwf) as (e & ->).
    by exists e.
Qed.

Lemma report_backup_any_agent_witness :
  let report :=
    {| report_start_time := Some (IsoText 1700000000000000);
       report_end_time := None;
       report_status := Some "running"; report_tool := Some "restic";
       report_source := Some "C:\data"; report_destination := Some "s3:bucket";
       report_size_bytes := None; report_logs := None;
       report_error_message := None |} in
  get_agent empty_db "no-such-agent" = None
  ∧ ∃ job, report_backup empty_db "no-such-agent" report
           = (add_backup_job empty_db job, Ok job)
      ∧ job_agent_id job = "no-such-agent".
Proof.
  intros report. split; [reflexivity|].
  destruct (proj1 (report_backup_any_agent empty_db "no-such-agent" report)
              eq_refl) as (job & Hr & Hid & _).
  by exists job.
Defined.

Lemma send_event_notification_agents now db event :
  agents (send_event_notification now db event).1 = agents db.
Proof. unfold send_event_notification. by destruct (event_message event). Qed.

Lemma create_event_agents now db c t d a b r det p :
  agents (create_event now db c t d a b r det p).1 = agents db.
Proof.
  unfold create_event. destruct (check_event c t det p) as [det'|]; [|done].
  destruct (_ <=? _); [|done].
  match goal with
  | |- context [send_event_notification ?n ?s ?e] =>
    pose proof (send_event_notification_agents n s e) as Ha;
    destruct (send_event_notification n s e) as [db2 [[]|e']]
  end; exact Ha.
Qed.

(** Hostnames are unique in every reachable session. *)
Lemma reachable_unique_hostnames settings db :
  reachable settings db → unique_hostnames db.
Proof.
  induction 1 as [|now uuid db info _ IH|now db aid _ IH|db aid report _ IH
                 |now db c t d a b r det p _ IH].
  - apply NoDup_nil_2.
  - by apply create_agent_unique.
  - by apply update_agent_heartbeat_unique.
  - unfold report_backup. by destruct (build_backup_job db aid report).
  - unfold unique_hostnames. by rewrite create_event_agents.
Qed.

(** ** Events *)

(** C5.  A (category, event type) pair outside the vocabulary table makes
    [create_event] raise [ValueError]; the session is left as it was, so no
    event row (and no notification) is stored. *)
Theorem create_event_rejects_unknown_pair (now : datetime) (db : Session)
    (category event_type description : string) (agent_id_ : option string)
    (backup_job_id : option Z) (related_id : option string)
    (details : option (list (string * json))) (priority : string) :
  ¬ in_vocabulary category event_type →
  ∃ msg,
    create_event now db category event_type description agent_id_
      backup_job_id related_id details priority
    = (db, Raise (ValueError msg)).
Proof.
  intros Hout. unfold create_event, check_event.
  destruct (EVENT_CATEGORIES !! category) as [types|] eqn:Hc; simpl.
  - destruct (decide (event_type ∈ types)) as [Hin|Hin].
    + destruct Hout. exists types. split; [exact Hc | exact Hin].
    + rewrite (bool_decide_eq_false_2 _ Hin). simpl. by eexists.
  - by eexists.
Qed.

Lemma create_event_rejects_unknown_pair_witness :
  ¬ in_vocabulary "agent" "unknown_type"
  ∧ ∃ msg,
      create_event 1700000000000000 empty_db "agent" "unknown_type"
        "agent did something" (Some "a-1") None None None "medium"
      = (empty_db, Raise (ValueError msg)).
Proof.
  assert (Hout : ¬ in_vocabulary "agent" "unknown_type").
  { intros (types & Ht & Hin).
    change (EVENT_CATEGORIES !! "agent")
      with (Some ["register"; "heartbeat"; "config_update"; "offline";
                  "online"]) in Ht.
    injection Ht as <-.
    refine (bool_decide_eq_false_1 _ _ Hin). reflexivity. }
  split; [exact Hout|].
  exact (create_event_rejects_unknown_pair 1700000000000000 empty_db "agent"
           "unknown_type" "agent did something" (Some "a-1") None None None
           "medium" Hout).
Defined.

(** A pair of the table, a known priority and no details: the event row is
    stored and returned. *)
Lemma create_event_stores_known_pair (now : datetime) (db : Session)
    (category type_ description : string) (priority : string) :
  in_vocabulary category type_ →
  priority = "low" ∨ priority = "medium" →
  ∃ event,
    create_event now db category type_ description None None None None
      priority
    = (add_system_event db event, Ok event)
    ∧ event_category event = category ∧ event_type event = type_.
Proof.
  intros (types & Ht & Hin) Hp. unfold create_event, check_event.
  rewrite Ht. simpl. rewrite (bool_decide_eq_true_2 _ Hin). simpl.
  destruct Hp as [-> | ->]; by eexists.
Qed.

(** ** Success rate and average duration *)

Lemma truediv_ok (x y : Q) : ¬ (y == 0)%Q → truediv x y = Ok (x / y)%Q.
Proof.
  intros Hy. unfold truediv. destruct (Qeq_bool y 0) eqn:E; [|done].
  by apply Qeq_bool_iff in E.
Qed.

Lemma inject_Z_nonzero (z : Z) : z ≠ 0 → ¬ (inject_Z z == 0)%Q.
Proof. unfold Qeq. simpl. lia. Qed.

(** The guarded quotient never divides by zero. *)
Lemma success_rate_of_ok (success total : Z) :
  ∃ q, success_rate_of success total = Ok q.
Proof.
  unfold success_rate_of. destruct (0 <? total) eqn:Ht.
  - apply Z.ltb_lt in Ht. rewrite truediv_ok by (apply inject_Z_nonzero; lia).
    by eexists.
  - by eexists.
Qed.

(** Names the rate that the goal computes. *)
Ltac rate_ok :=
  match goal with
  | |- context [success_rate_of ?s ?t] =>
    let q := fresh "q" in
    destruct (success_rate_of_ok s t) as [q ->]
  end.









(** *** What the performance sums *)

Lemma fold_sumZ {A} (f : A → Z) (l : list A) (a : Z) :
  fold_left (λ acc x, acc + f x) l a = a + sumZ f l.
Proof.
  unfold sumZ. revert a. induction l as [|x l IH]; intros a; simpl; [lia|].
  rewrite IH, (IH (0 + f x)). lia.
Qed.

Lemma sumZ_cons {A} (f : A → Z) (x : A) (l : list A) :
  sumZ f (x :: l) = f x + sumZ f l.
Proof. unfold sumZ at 1. simpl. by rewrite fold_sumZ. Qed.

Lemma sumZ_snoc {A} (f : A → Z) (l : list A) (x : A) :
  sumZ f (l ++ [x]) = sumZ f l + f x.
Proof.
  induction l as [|y l IH]; simpl; [rewrite sumZ_cons; lia|].
  rewrite !sumZ_cons, IH. lia.
Qed.

Lemma fold_sumQ {A} (f : A → Q) (l : list A) (a : Q) :
  (fold_left (λ acc x, acc + f x) l a == a + sumQ f l)%Q.
Proof.
  unfold sumQ. revert a. induction l as [|x l IH]; intros a; simpl; [ring|].
  rewrite IH, (IH (0 + f x)%Q). ring.
Qed.

Lemma sumQ_cons {A} (f : A → Q) (x : A) (l : list A) :
  (sumQ f (x :: l) == f x + sumQ f l)%Q.
Proof. unfold sumQ at 1. simpl. rewrite fold_sumQ. ring. Qed.

Lemma sumQ_snoc {A} (f : A → Q) (l : list A) (x : A) :
  (sumQ f (l ++ [x]) == sumQ f l + f x)%Q.
Proof.
  induction l as [|y l IH]; simpl.
  - rewrite sumQ_cons. unfold sumQ. simpl. ring.
  - rewrite !sumQ_cons, IH. ring.
Qed.

Lemma dict_alter_snoc {V} (g : V → V) (k : Z) (d : list (Z * V)) (v : V) :
  dict_mem k d = false →
  dict_alter g k (d ++ [(k, v)]) = d ++ [(k, g v)].
Proof.
  induction d as [|[k' v'] d IH]; simpl; intros Hm.
  - by rewrite Z.eqb_refl.
  - apply orb_false_iff in Hm as [-> Hm]. by rewrite IH.
Qed.

Section sums.
Context (backup : BackupJob).

(** A field of [DayStats] that one backup raises by [c]. *)
Lemma sumZ_dict_alter (f : DayStats → Z) (c : Z) (k : Z)
    (d : list (Z * DayStats)) :
  (∀ st, f (count_backup backup st) = f st + c) →
  dict_mem k d = true →
  sumZ (λ e, f e.2) (dict_alter (count_backup backup) k d)
  = sumZ (λ e, f e.2) d + c.
Proof.
  intros Hf. induction d as [|[k' v'] d IH]; simpl; [done|].
  destruct (k' =? k); simpl; intros Hm.
  - rewrite !sumZ_cons. simpl. rewrite Hf. lia.
  - rewrite !sumZ_cons, IH by done. lia.
Qed.

Lemma sumZ_group_by_day (f : DayStats → Z) (c : Z)
    (d : list (Z * DayStats)) :
  (∀ st, f (count_backup backup st) = f st + c) →
  f new_day = 0 →
  sumZ (λ e, f e.2) (group_by_day d backup) = sumZ (λ e, f e.2) d + c.
Proof.
  intros Hf H0. unfold group_by_day.
  destruct (dict_mem _ d) eqn:Hm.
  - by apply sumZ_dict_alter.
  - rewrite dict_alter_snoc, sumZ_snoc by done. simpl. rewrite Hf, H0. lia.
Qed.

Lemma sumQ_dict_alter (f : DayStats → Q) (c : Q) (k : Z)
    (d : list (Z * DayStats)) :
  (∀ st, f (count_backup backup st) == f st + c)%Q →
  dict_mem k d = true →
  (sumQ (λ e, f e.2) (dict_alter (count_backup backup) k d)
   == sumQ (λ e, f e.2) d + c)%Q.
Proof.
  intros Hf. induction d as [|[k' v'] d IH]; simpl; [done|].
  destruct (k' =? k); simpl; intros Hm.
  - rewrite !sumQ_cons. simpl. rewrite Hf. ring.
  - rewrite !sumQ_cons, IH by done. ring.
Qed.

Lemma sumQ_group_by_day (f : DayStats → Q) (c : Q)
    (d : list (Z * DayStats)) :
  (∀ st, f (count_backup backup st) == f st + c)%Q →
  (f new_day == 0)%Q →
  (sumQ (λ e, f e.2) (group_by_day d backup) == sumQ (λ e, f e.2) d + c)%Q.
Proof.
  intros Hf H0. unfold group_by_day.
  destruct (dict_mem _ d) eqn:Hm.
  - by apply sumQ_dict_alter.
  - rewrite dict_alter_snoc, sumQ_snoc by done. simpl. rewrite Hf, H0. ring.
Qed.
End sums.

(** The daily totals add up to the number of jobs read. *)
Lemma total_count_length (backups : list BackupJob)
    (d : list (Z * DayStats)) :
  sumZ (λ e, day_total e.2) (fold_left group_by_day backups d)
  = sumZ (λ e, day_total e.2) d + Z.of_nat (length backups).
Proof.
  revert d. induction backups as [|b backups IH]; intros d; simpl; [lia|].
  rewrite IH, (sumZ_group_by_day b day_total 1) by done. lia.
Qed.

(** The daily durations add up to the durations of the finished jobs. *)
Lemma total_duration_finished (backups : list BackupJob)
    (d : list (Z * DayStats)) :
  (sumQ (λ e, day_duration e.2) (fold_left group_by_day backups d)
   == sumQ (λ e, day_duration e.2) d + sumQ counted_duration backups)%Q.
Proof.
  revert d. induction backups as [|b backups IH]; intros d; simpl.
  - unfold sumQ at 3. simpl. ring.
  - rewrite IH, (sumQ_group_by_day b day_duration (counted_duration b)),
      sumQ_cons.
    + ring.
    + intros st. unfold counted_duration, finished_duration. simpl.
      destruct (end_time b); simpl; ring.
    + done.
Qed.

Lemma round_half_even_proper (x y : Q) :
  (x == y)%Q → round_half_even x = round_half_even y.
Proof.
  intros Hxy. unfold round_half_even.
  rewrite (Qfloor_comp x y Hxy).
  assert (Hc : ((x - inject_Z (Qfloor y)) ?= (1 # 2))%Q
               = ((y - inject_Z (Qfloor y)) ?= (1 # 2))%Q).
  { apply Qcompare_comp; [by rewrite Hxy | done]. }
  by rewrite Hc.
Qed.

Lemma round2_proper (x y : Q) : (x == y)%Q → round2 x = round2 y.
Proof.
  intros Hxy. unfold round2.
  rewrite (round_half_even_proper (x * 100) (y * 100)); [done|].
  by rewrite Hxy.
Qed.

(** The average duration the performance reports: the durations of the
    finished jobs, divided by the number of all the jobs of the window. *)
Lemma avg_duration_formula (now : datetime) (db : Session) (aid : string)
    (days : Z) :
  let backups := backups_in_window now db aid days in
  backups ≠ [] →
  avg_duration (get_agent_performance now db aid days)
  = round2 (sumQ counted_duration backups
            / inject_Z (Z.of_nat (length backups))).
Proof.
  intros backups Hne. unfold get_agent_performance, get_agent_performance_body.
  fold backups. destruct backups as [|b bs] eqn:Hb; [done|].
  rewrite <- Hb.
  rate_ok.
  rewrite (truediv_ok _ (inject_Z (1024 ^ 3))) by done.
  rewrite total_count_length.
  assert (Hlen : 0 < Z.of_nat (length backups)) by (rewrite Hb; simpl; lia).
  change (sumZ (λ e, day_total e.2) []) with 0.
  rewrite Z.add_0_l. rewrite (proj2 (Z.ltb_lt _ _) Hlen).
  rewrite truediv_ok by (apply inject_Z_nonzero; lia).
  simpl. apply round2_proper.
  rewrite total_duration_finished. unfold sumQ at 1. simpl.
  by rewrite Qplus_0_l.
Qed.

(** The scenario of the specification: a success rate of 70, the issue
    [low_success_rate] alone and an agent seen just now score 85. *)
Example health_score_db01 :
  let agent := {| hostname := "db01"; ip_address := "10.0.0.7";
                  os := "Windows"; agent_id := "a-1"; enabled := true;
                  last_seen := 1700000000000000; config_hash := "" |} in
  let stats := {| stats_agent_id := "a-1"; stats_hostname := "db01";
                  stats_total_backups := 10; stats_success_backups := 7;
                  stats_failed_backups := 3; stats_success_rate := 70;
                  stats_last_backup := None; stats_status := "online";
                  stats_last_seen := IsoText 1700000000000000 |} in
  let performance := {| daily_backups := []; success_rate := 70;
                        avg_duration := 0; total_size_gb := 0;
                        total_backups := 10 |} in
  agent_issues 1700000000000000 agent stats performance = ["low_success_rate"]
  ∧ (calculate_health_score 1700000000000000 agent stats performance
       ["low_success_rate"] == 85)%Q.
Proof. split; reflexivity. Qed.

(** C2.  The performance of an agent with two jobs in the window, one that
    ran for 100 seconds and one still running: the reported average is 50,
    the quotient by both jobs, where the mean over the finished jobs is
    100. *)
Theorem running_job_lowers_average :
  let db :=
    {| agents := [{| hostname := "db01"; ip_address := "10.0.0.7";
                     os := "Windows"; agent_id := "a-1"; enabled := true;
                     last_seen := 1700000300000000; config_hash := "" |}];
       agent_configs := [];
       backup_jobs :=
         [{| job_id := 1; job_agent_id := "a-1";
             start_time := 1700000000000000;
             end_time := Some 1700000100000000;
             status := "success"; tool := "restic"; source := "/srv";
             destination := "/mnt"; size_bytes := 1024; logs := "";
             error_message := None |};
          {| job_id := 2; job_agent_id := "a-1";
             start_time := 1700000200000000; end_time := None;
             status := "running"; tool := "restic"; source := "/srv";
             destination := "/mnt"; size_bytes := 0; logs := "";
             error_message := None |}];
       system_events := []; notifications := [] |} in
  length (backups_in_window 1700000300000000 db "a-1" 7) = 2%nat
  ∧ avg_duration (get_agent_performance 1700000300000000 db "a-1" 7) = 50%Q
  ∧ mean_finished_duration (backups_in_window 1700000300000000 db "a-1" 7)
    = 100%Q.
Proof. split_and!; reflexivity. Qed.

(** ** Tips *)

(** C6.  An online agent whose only job failed after two hours matches the
    rule [backup_slow_performance], whose suggestions have the priorities
    high, medium and medium: the tip carries "medium", the largest of the
    three as texts, where the highest priority is "high". *)
Theorem tip_priority_is_textual_maximum :
  let settings := {| host := "backup.local";
                     agent_heartbeat_timeout_minutes := 15 |} in
  let db :=
    {| agents := [{| hostname := "db01"; ip_address := "10.0.0.7";
                     os := "Windows"; agent_id := "a-1"; enabled := true;
                     last_seen := 1700007200000000; config_hash := "" |}];
       agent_configs := [];
       backup_jobs :=
         [{| job_id := 1; job_agent_id := "a-1";
             start_time := 1700000000000000;
             end_time := Some 1700007200000000;
             status := "failed"; tool := "restic"; source := "/srv";
             destination := "/mnt"; size_bytes := 0; logs := "";
             error_message := Some "timeout" |}];
       system_events := []; notifications := [] |} in
  ∃ tip,
    analyze_agent_health settings 1700007200000001 db "a-1" = Ok [tip]
    ∧ tip_id tip = "backup_slow_performance"
    ∧ (solution_priority <$> tip_solutions tip)
      = ["high"; "medium"; "medium"]
    ∧ tip_priority tip = "medium"
    ∧ highest_priority (solution_priority <$> tip_solutions tip)
      = Some "high".
Proof. eexists. split_and!; reflexivity. Qed.

(** No rule of the table gets the highest priority of its suggestions. *)
Lemma no_rule_gets_its_highest_priority :
  Forall (λ rule,
            (Some <$> py_max_str (solution_priority <$> solutions rule))
            ≠ Ok (highest_priority (solution_priority <$> solutions rule)))
         TIPS_DATABASE.
Proof. repeat constructor; discriminate. Qed.

(** C10.  [get_system_overview] is bound in the module [stats] and not in
    the module [agents], so [analyze_system_health] raises [AttributeError]
    on its first statement: whatever the session and the rule table, it
    returns no tip, and [get_all_applicable_tips], which calls it first,
    raises the same exception. *)
Theorem system_health_raises_attribute_error (settings : Settings)
    (now : datetime) (db : Session) :
  let error :=
    AttributeError
      "module 'app.services.agents' has no attribute 'get_system_overview'" in
  ("get_system_overview" ∈ stats_module)
  ∧ ("get_system_overview" ∉ agents_module)
  ∧ (∀ rules, analyze_system_health_in rules now db = Raise error)
  ∧ analyze_system_health now db = Raise error
  ∧ get_all_applicable_tips settings now db = Raise error.
Proof.
  split_and!.
  - by apply (bool_decide_unpack _).
  - by apply (bool_decide_eq_false_1 _).
  - done.
  - done.
  - done.
Qed.

(** * Further properties of the service layer *)

(** ** Rounding and rates *)

Lemma round_half_even_between (a b : Z) (x : Q) :
  (inject_Z a <= x)%Q → (x <= inject_Z b)%Q →
  a ≤ round_half_even x ≤ b.
Proof.
  intros Ha Hb. unfold round_half_even.
  pose proof (Qfloor_le x) as Hfl. pose proof (Qlt_floor x) as Hfu.
  assert (Hlo : a ≤ Qfloor x).
  { rewrite <- (Qfloor_Z a). by apply Qfloor_resp_le. }
  assert (Hhi : Qfloor x ≤ b).
  { rewrite <- (Qfloor_Z b). by apply Qfloor_resp_le. }
  assert (Hstep : (0 < x - inject_Z (Qfloor x))%Q → Qfloor x + 1 ≤ b).
  { intros Hpos. destruct (decide (Qfloor x = b)) as [Heq|]; [|lia].
    exfalso. rewrite Heq in Hpos. lra. }
  destruct (Qcompare_spec (x - inject_Z (Qfloor x)) (1 # 2)) as [He|Hl|Hg].
  - assert (Hpos : (0 < x - inject_Z (Qfloor x))%Q) by (clear -He; lra).
    specialize (Hstep Hpos). destruct (Z.even (Qfloor x)); lia.
  - lia.
  - assert (Hpos : (0 < x - inject_Z (Qfloor x))%Q) by (clear -Hg; lra).
    specialize (Hstep Hpos). lia.
Qed.

Lemma round2_between (x : Q) :
  (0 <= x)%Q → (x <= 100)%Q → (0 <= round2 x ∧ round2 x <= 100)%Q.
Proof.
  intros H0 H100. unfold round2. rewrite Qred_correct.
  destruct (round_half_even_between 0 10000 (x * 100)) as [Hlo Hhi].
  - change (inject_Z 0) with (0 * 100)%Q. by apply Qmult_le_compat_r.
  - change (inject_Z 10000) with (100 * 100)%Q. by apply Qmult_le_compat_r.
  - split.
    + apply Qle_shift_div_l; [done|]. rewrite Qmult_0_l.
      change 0%Q with (inject_Z 0). by rewrite <- Zle_Qle.
    + apply Qle_shift_div_r; [done|].
      change (100 * 100)%Q with (inject_Z 10000). by rewrite <- Zle_Qle.
Qed.

Lemma ratio_between (part total : Z) :
  0 ≤ part ≤ total → 0 < total →
  (0 <= inject_Z part / inject_Z total
   ∧ inject_Z part / inject_Z total <= 1)%Q.
Proof.
  intros [Hp Ht] Hpos.
  assert (Htq : (0 < inject_Z total)%Q).
  { change 0%Q with (inject_Z 0). by rewrite <- Zlt_Qlt. }
  split.
  - apply Qle_shift_div_l; [done|]. rewrite Qmult_0_l.
    change 0%Q with (inject_Z 0). by rewrite <- Zle_Qle.
  - apply Qle_shift_div_r; [done|]. rewrite Qmult_1_l. by rewrite <- Zle_Qle.
Qed.

Lemma success_rate_of_between (success total : Z) (q : Q) :
  0 ≤ success ≤ total →
  success_rate_of success total = Ok q →
  (0 <= q ∧ q <= 100)%Q.
Proof.
  intros Hst. unfold success_rate_of. destruct (0 <? total) eqn:Hpos.
  - apply Z.ltb_lt in Hpos.
    rewrite truediv_ok by (apply inject_Z_nonzero; lia). simpl.
    intros [= <-]. destruct (ratio_between success total Hst Hpos).
    apply round2_between; lra.
  - simpl. intros [= <-]. done.
Qed.

(** ** Grouping by day *)

Lemma dict_mem_keys {V} (k : Z) (d : list (Z * V)) :
  dict_mem k d = true ↔ k ∈ d.*1.
Proof.
  induction d as [|[k' v] d IH]; simpl.
  - rewrite elem_of_nil. done.
  - rewrite orb_true_iff, IH, elem_of_cons, Z.eqb_eq.
    split; (intros [?|?]; [by left|by right]).
Qed.

Lemma dict_mem_get {V} (k : Z) (d : list (Z * V)) :
  dict_mem k d = bool_decide (is_Some (dict_get k d)).
Proof.
  induction d as [|[k' v] d IH]; simpl; [done|].
  by destruct (k' =? k).
Qed.

Lemma dict_alter_keys {V} (f : V → V) (k : Z) (d : list (Z * V)) :
  (dict_alter f k d).*1 = d.*1.
Proof.
  induction d as [|[k' v] d IH]; simpl; [done|].
  destruct (k' =? k); csimpl; [done|by rewrite IH].
Qed.

Lemma dict_get_alter {V} (f : V → V) (k k' : Z) (d : list (Z * V)) :
  dict_get k' (dict_alter f k d)
  = if decide (k = k') then f <$> dict_get k d else dict_get k' d.
Proof.
  induction d as [|[k0 v] d IH]; simpl; [by case_decide|].
  destruct (k0 =? k) eqn:E0; simpl.
  - apply Z.eqb_eq in E0 as ->. case_decide as Hk.
    + subst. by rewrite Z.eqb_refl.
    + by rewrite (proj2 (Z.eqb_neq _ _) Hk).
  - rewrite IH. case_decide as Hk; [|done]. subst. by rewrite E0.
Qed.

Lemma dict_get_snoc {V} (k k' : Z) (v : V) (d : list (Z * V)) :
  dict_get k' (d ++ [(k, v)])
  = match dict_get k' d with
    | Some x => Some x
    | None => if decide (k = k') then Some v else None
    end.
Proof.
  induction d as [|[k0 v0] d IH]; simpl.
  - case_decide as Hk.
    + subst. by rewrite Z.eqb_refl.
    + by rewrite (proj2 (Z.eqb_neq _ _) Hk).
  - destruct (k0 =? k'); [done|]. exact IH.
Qed.

Lemma dict_get_elem_of {V} (k : Z) (v : V) (d : list (Z * V)) :
  NoDup d.*1 → (k, v) ∈ d → dict_get k d = Some v.
Proof.
  induction d as [|[k0 v0] d IH]; simpl; intros Hnd Hin.
  - by apply elem_of_nil in Hin.
  - apply NoDup_cons in Hnd as [Hk0 Hnd].
    apply elem_of_cons in Hin as [[= -> ->]|Hin].
    + by rewrite Z.eqb_refl.
    + destruct (k0 =? k) eqn:E; [|by apply IH].
      apply Z.eqb_eq in E as ->. destruct Hk0.
      apply list_elem_of_fmap. by exists (k, v).
Qed.

(** The entry of a day after one more backup. *)
Lemma dict_get_group_by_day (k : Z) (d : list (Z * DayStats))
    (b : BackupJob) :
  dict_get k (group_by_day d b)
  = if decide (date (start_time b) = k)
    then Some (count_backup b (default new_day (dict_get k d)))
    else dict_get k d.
Proof.
  unfold group_by_day. rewrite dict_mem_get.
  case_bool_decide as Hm.
  - rewrite dict_get_alter. case_decide as Hk; [|done]. subst.
    by destruct Hm as [st ->].
  - rewrite dict_get_alter.
    apply eq_None_not_Some in Hm.
    case_decide as Hk; rewrite dict_get_snoc.
    + subst. rewrite Hm. by case_decide.
    + destruct (dict_get k d); [done|]. by case_decide.
Qed.

Lemma group_by_day_keys (d : list (Z * DayStats)) (b : BackupJob) :
  (group_by_day d b).*1
  = if decide (date (start_time b) ∈ d.*1) then d.*1
    else d.*1 ++ [date (start_time b)].
Proof.
  unfold group_by_day. rewrite dict_alter_keys.
  destruct (dict_mem _ d) eqn:Hm.
  - apply dict_mem_keys in Hm. by rewrite decide_True by done.
  - rewrite decide_False; [by rewrite fmap_app|].
    intros Hin. apply dict_mem_keys in Hin. congruence.
Qed.

(** A field that one backup raises by [g b] holds, in the entry of a day,
    the sum of [g] over the backups of that day. *)
Lemma day_field_sum (f : DayStats → Z) (g : BackupJob → Z) (k : Z)
    (backups : list BackupJob) (d : list (Z * DayStats)) :
  (∀ b st, f (count_backup b st) = f st + g b) →
  f (default new_day (dict_get k (fold_left group_by_day backups d)))
  = f (default new_day (dict_get k d)) + sumZ g (started_on k backups).
Proof.
  intros Hf. revert d.
  induction backups as [|b backups IH]; intros d; simpl.
  - unfold started_on. simpl. unfold sumZ. simpl. lia.
  - rewrite IH, dict_get_group_by_day. unfold started_on.
    rewrite filter_cons. case_decide as Hk; simpl.
    + rewrite Hf, sumZ_cons. lia.
    + lia.
Qed.

Lemma sumZ_const_1 {A} (l : list A) : sumZ (λ _, 1) l = Z.of_nat (length l).
Proof.
  induction l as [|x l IH]; [done|]. rewrite sumZ_cons, IH. simpl. lia.
Qed.

Lemma sumZ_nonneg {A} (g : A → Z) (l : list A) :
  (∀ x, 0 ≤ g x) → 0 ≤ sumZ g l.
Proof.
  intros Hg. induction l as [|x l IH]; [done|].
  rewrite sumZ_cons. specialize (Hg x). lia.
Qed.

Lemma sumZ_le {A} (g h : A → Z) (l : list A) :
  (∀ x, g x ≤ h x) → sumZ g l ≤ sumZ h l.
Proof.
  intros Hg. induction l as [|x l IH]; [done|].
  rewrite !sumZ_cons. specialize (Hg x). lia.
Qed.

(** Days are entered in the order of the backups: when these come by start
    time, the keys come out strictly increasing. *)
Lemma group_by_day_sorted (backups : list BackupJob)
    (d : list (Z * DayStats)) :
  StronglySorted by_start_time backups →
  StronglySorted Z.lt d.*1 →
  Forall (λ b, Forall (λ k, k ≤ date (start_time b)) d.*1) backups →
  StronglySorted Z.lt (fold_left group_by_day backups d).*1.
Proof.
  revert d. induction backups as [|b backups IH]; intros d Hs Hd Hle; [done|].
  simpl. apply StronglySorted_cons in Hs as [Hb Hs].
  apply Forall_cons in Hle as [Hleb Hle].
  apply IH; [done|..]; rewrite group_by_day_keys; case_decide as Hin.
  - done.
  - apply StronglySorted_app. split_and!; [|done|repeat constructor].
    intros k1 k2 Hk1 ->%list_elem_of_singleton.
    rewrite Forall_forall in Hleb. specialize (Hleb k1 Hk1).
    assert (k1 ≠ date (start_time b)) by (by intros ->). lia.
  - done.
  - rewrite Forall_forall in Hle, Hb. apply Forall_forall. intros b' Hb'.
    apply Forall_app. split; [by apply Hle|].
    apply Forall_singleton. unfold date.
    apply Z.div_le_mono; [done|]. by apply Hb.
Qed.

Lemma dict_alter_Forall {V} (I : V → Prop) (f : V → V) (k : Z)
    (d : list (Z * V)) :
  (∀ v, I v → I (f v)) →
  Forall (λ e, I e.2) d → Forall (λ e, I e.2) (dict_alter f k d).
Proof.
  intros Hf. induction d as [|[k' v] d IH]; simpl; [done|].
  intros [Hv Hd]%Forall_cons. destruct (k' =? k); apply Forall_cons.
  - split; [by apply Hf|done].
  - split; [done|by apply IH].
Qed.

(** A property of the entries that every backup keeps and that holds of a
    fresh entry holds of every entry of the grouping. *)
Lemma group_by_day_Forall (I : DayStats → Prop) (backups : list BackupJob)
    (d : list (Z * DayStats)) :
  (∀ b st, (st = new_day ∨ I st) → I (count_backup b st)) →
  Forall (λ e, I e.2) d →
  Forall (λ e, I e.2) (fold_left group_by_day backups d).
Proof.
  intros HI. revert d. induction backups as [|b backups IH]; intros d Hd;
    [done|].
  simpl. apply IH. unfold group_by_day.
  destruct (dict_mem _ d) eqn:Hm.
  - apply dict_alter_Forall; [|done]. intros st Hst. apply HI. by right.
  - rewrite dict_alter_snoc by done. apply Forall_app. split; [done|].
    apply Forall_singleton. apply HI. by left.
Qed.

Lemma StronglySorted_lt_NoDup (l : list Z) : StronglySorted Z.lt l → NoDup l.
Proof.
  induction 1 as [|x l _ IH Hx]; [apply NoDup_nil_2|].
  apply NoDup_cons. split; [|done].
  intros Hin. rewrite Forall_forall in Hx. specialize (Hx x Hin). lia.
Qed.

#[local] Instance by_start_time_trans : Transitive by_start_time.
Proof. unfold by_start_time. intros a b c. lia. Qed.

#[local] Instance by_start_time_total : Total by_start_time.
Proof. unfold by_start_time. intros a b. lia. Qed.

Lemma backups_in_window_sorted now db aid days :
  StronglySorted by_start_time (backups_in_window now db aid days).
Proof. apply StronglySorted_merge_sort; apply _. Qed.

(** The rows of the window are the jobs of the agent started since
    [now - days]. *)
Lemma backups_in_window_elem_of now db aid days (b : BackupJob) :
  b ∈ backups_in_window now db aid days
  ↔ b ∈ backup_jobs db ∧ job_agent_id b = aid
    ∧ now - timedelta_days days ≤ start_time b.
Proof.
  unfold backups_in_window. rewrite merge_sort_Permutation.
  rewrite list_elem_of_filter. tauto.
Qed.

(** The answer of [get_agent_performance] for a window that is not empty. *)
Lemma get_agent_performance_nonempty now db aid days :
  let window := backups_in_window now db aid days in
  let daily_stats := fold_left group_by_day window [] in
  window ≠ [] →
  ∃ rate avg size_gb,
    success_rate_of (sumZ (λ e, day_success e.2) daily_stats)
                    (sumZ (λ e, day_total e.2) daily_stats) = Ok rate
    ∧ get_agent_performance now db aid days
      = {| daily_backups := daily_stats; success_rate := rate;
           avg_duration := avg; total_size_gb := size_gb;
           total_backups := sumZ (λ e, day_total e.2) daily_stats |}.
Proof.
  intros window daily_stats Hne.
  unfold get_agent_performance, get_agent_performance_body.
  fold window. destruct window as [|b bs] eqn:Hw; [done|].
  fold daily_stats.
  destruct (success_rate_of_ok (sumZ (λ e, day_success e.2) daily_stats)
              (sumZ (λ e, day_total e.2) daily_stats)) as [rate Hrate].
  rewrite Hrate.
  rewrite (truediv_ok _ (inject_Z (1024 ^ 3))) by done.
  destruct (0 <? _) eqn:Ht.
  - apply Z.ltb_lt in Ht. rewrite truediv_ok by (apply inject_Z_nonzero; lia).
    by eexists _, _, _.
  - by eexists _, _, _.
Qed.

(** Every entry of the grouping counts at least one job and no more
    successes and failures than jobs. *)
Lemma group_by_day_entries (backups : list BackupJob) :
  Forall (λ e : Z * DayStats,
            0 < day_total e.2 ∧ 0 ≤ day_success e.2 ∧ 0 ≤ day_failed e.2
            ∧ day_success e.2 + day_failed e.2 ≤ day_total e.2)
         (fold_left group_by_day backups []).
Proof.
  apply (group_by_day_Forall
           (λ st, 0 < day_total st ∧ 0 ≤ day_success st ∧ 0 ≤ day_failed st
                  ∧ day_success st + day_failed st ≤ day_total st));
    [|constructor].
  intros b st' [->|Hst]; simpl;
    destruct (String.eqb (status b) "success");
    destruct (String.eqb (status b) "failed"); simpl; lia.
Qed.

(** X1.  When the start of the window, [utcnow() - timedelta(days)], is a
    datetime (the subtraction raises [OverflowError] otherwise, and the
    function then returns its empty answer), the performance of an agent
    groups the jobs of the window by day: [total_backups] is the number of
    jobs of the window, the days of [daily_backups] come in increasing order
    without repetition, and the entry of a day counts the jobs started on
    that day, at least one, with no more successes and failures than
    jobs. *)
Theorem performance_groups_by_day (now : datetime) (db : Session)
    (aid : string) (days : Z) :
  start_date_in_range now days →
  let window := backups_in_window now db aid days in
  let p := get_agent_performance now db aid days in
  total_backups p = Z.of_nat (length window)
  ∧ StronglySorted Z.lt (daily_backups p).*1
  ∧ Forall (λ e, day_total e.2 = Z.of_nat (length (started_on e.1 window))
               ∧ 0 < day_total e.2
               ∧ 0 ≤ day_success e.2 ∧ 0 ≤ day_failed e.2
               ∧ day_success e.2 + day_failed e.2 ≤ day_total e.2)
           (daily_backups p).
Proof.
  intros _ window p.
  destruct (decide (window = [])) as [Hw|Hw].
  - subst p. unfold get_agent_performance, get_agent_performance_body.
    fold window. rewrite Hw. simpl. split_and!; constructor.
  - destruct (get_agent_performance_nonempty now db aid days Hw)
      as (rate & avg & size_gb & _ & Hp).
    subst p. rewrite Hp. simpl. fold window.
    assert (Hsorted : StronglySorted Z.lt
                        (fold_left group_by_day window []).*1).
    { apply group_by_day_sorted.
      - apply backups_in_window_sorted.
      - constructor.
      - apply Forall_forall. intros b _. constructor. }
    split_and!.
    + rewrite total_count_length. unfold sumZ. simpl. lia.
    + done.
    + apply Forall_forall. intros [k st] Hin. simpl.
      pose proof (dict_get_elem_of k st _
                    (StronglySorted_lt_NoDup _ Hsorted) Hin) as Hget.
      pose proof (day_field_sum day_total (λ _, 1) k window []
                    (λ _ _, eq_refl)) as Htot.
      rewrite Hget, sumZ_const_1 in Htot. simpl in Htot.
      pose proof (group_by_day_entries window) as Hinv.
      rewrite Forall_forall in Hinv. specialize (Hinv (k, st) Hin).
      simpl in Hinv. split; [lia|done].
Qed.

Lemma start_date_in_range_example : start_date_in_range 1700000300000000 7.
Proof.
  unfold start_date_in_range, datetime_min, datetime_max, timedelta_days.
  lia.
Defined.

Lemma performance_groups_by_day_witness :
  start_date_in_range 1700000300000000 7
  ∧ total_backups
      (get_agent_performance 1700000300000000 example_session "a-1" 7)
    = Z.of_nat
        (length (backups_in_window 1700000300000000 example_session "a-1" 7)).
Proof.
  split; [exact start_date_in_range_example|].
  exact (proj1 (performance_groups_by_day 1700000300000000 example_session
                  "a-1" 7 start_date_in_range_example)).
Defined.

(** ** Success rates *)


Lemma count_cons {A} (P : A → bool) (x : A) (l : list A) :
  count P (x :: l) = (if P x then 1 else 0) + count P l.
Proof.
  unfold count. rewrite filter_cons.
  destruct (P x); [rewrite decide_True by done|rewrite decide_False by done];
    simpl length; lia.
Qed.

Lemma count_nonneg {A} (P : A → bool) (l : list A) : 0 ≤ count P l.
Proof. unfold count. lia. Qed.


Lemma get_agent_stats_Some settings now db aid agent :
  get_agent db aid = Some agent →
  ∃ s, get_agent_stats settings now db aid = Some s
    ∧ stats_agent_id s = aid
    ∧ stats_hostname s = hostname agent
    ∧ stats_total_backups s
      = count (λ j, String.eqb (job_agent_id j) aid) (backup_jobs db)
    ∧ stats_success_backups s
      = count (λ j, String.eqb (job_agent_id j) aid
                    && String.eqb (status j) "success") (backup_jobs db)
    ∧ stats_failed_backups s
      = count (λ j, String.eqb (job_agent_id j) aid
                    && String.eqb (status j) "failed") (backup_jobs db)
    ∧ success_rate_of (stats_success_backups s) (stats_total_backups s)
      = Ok (stats_success_rate s)
    ∧ stats_status s
      = (if now - timedelta_minutes (agent_heartbeat_timeout_minutes settings)
            <? last_seen agent then "online" else "offline")
    ∧ stats_last_seen s = isoformat (last_seen agent).
Proof.
  intros Ha. unfold get_agent_stats, get_agent_stats_body. rewrite Ha.
  match goal with
  | |- context [success_rate_of ?s ?t] =>
    destruct (success_rate_of_ok s t) as [q Hq]; rewrite Hq
  end.
  simpl. eexists. split; [done|]. simpl. by split_and!.
Qed.

Lemma get_agent_stats_None settings now db aid :
  get_agent db aid = None → get_agent_stats settings now db aid = None.
Proof.
  intros Ha. unfold get_agent_stats, get_agent_stats_body. by rewrite Ha.
Qed.



(** ** The health score, continued *)

Ltac destruct_Qltb :=
  repeat match goal with
         | |- context [Qltb ?a ?b] =>
           let E := fresh "E" in
           destruct (Qltb a b) eqn:E;
           [apply Qltb_lt in E | apply Qltb_ge in E]
         | H : context [Qltb ?a ?b] |- _ =>
           let E := fresh "E" in
           destruct (Qltb a b) eqn:E;
           [apply Qltb_lt in E | apply Qltb_ge in E]
         end.

(** X3.  With the same agent, issues and instant, a higher success rate never
    gives a lower health score. *)
Theorem health_score_monotone (now : datetime) (agent : Agent)
    (stats1 stats2 : AgentStats) (p1 p2 : Performance)
    (issues : list string) :
  (success_rate p1 <= success_rate p2)%Q →
  (calculate_health_score now agent stats1 p1 issues
   <= calculate_health_score now agent stats2 p2 issues)%Q.
Proof.
  intros Hle. unfold calculate_health_score, py_max, py_min.
  repeat case_bool_decide;
    destruct (now - timedelta_minutes 15 <? last_seen agent);
    destruct_Qltb; lra.
Qed.

Lemma health_score_monotone_witness :
  let agent := {| hostname := "db01"; ip_address := "10.0.0.7";
                  os := "Windows"; agent_id := "a-1"; enabled := true;
                  last_seen := 0; config_hash := "" |} in
  let stats := {| stats_agent_id := "a-1"; stats_hostname := "db01";
                  stats_total_backups := 4; stats_success_backups := 2;
                  stats_failed_backups := 2; stats_success_rate := 50;
                  stats_last_backup := None; stats_status := "online";
                  stats_last_seen := IsoText 0 |} in
  let p (rate : Q) := {| daily_backups := []; success_rate := rate;
                         avg_duration := 0; total_size_gb := 0;
                         total_backups := 4 |} in
  (calculate_health_score 1 agent stats (p 50) ["low_success_rate"]
   <= calculate_health_score 1 agent stats (p 75) ["low_success_rate"])%Q.
Proof.
  intros agent stats p.
  apply (health_score_monotone 1 agent stats stats (p 50%Q) (p 75%Q)).
  simpl. lra.
Defined.

(** ** The health report *)



Lemma elem_of_take_drop {A} (x : A) (n m : nat) (l : list A) :
  x ∈ take n (drop m l) → x ∈ l.
Proof.
  intros Hin. rewrite <- (take_drop m l). apply elem_of_app. right.
  rewrite <- (take_drop n (drop m l)). apply elem_of_app. by left.
Qed.









(** ** The registry, continued *)

(** X5.  The pages of [get_agents] tile the listing: a page holds at most
    [limit] agents, all of them rows of the table that pass the filter, and
    a page followed by the next one is the page of both limits. *)
Theorem get_agents_pages (db : Session) (skip limit limit' : nat)
    (enabled_filter : option bool) :
  (length (get_agents db skip limit enabled_filter) ≤ limit)%nat
  ∧ Forall (λ a, a ∈ agents db
                 ∧ match enabled_filter with
                   | Some e => enabled a = e
                   | None => True
                   end)
           (get_agents db skip limit enabled_filter)
  ∧ get_agents db skip limit enabled_filter
    ++ get_agents db (skip + limit) limit' enabled_filter
    = get_agents db skip (limit + limit') enabled_filter.
Proof.
  unfold get_agents. split_and!.
  - rewrite length_take. lia.
  - apply Forall_forall. intros a Hin%elem_of_take_drop.
    destruct enabled_filter; [|done].
    by apply list_elem_of_filter in Hin as [? ?].
  - rewrite <- drop_drop. apply take_take_drop.
Qed.



(** ** The job ledger, continued *)

Lemma count_snoc {A} (P : A → bool) (l : list A) (x : A) :
  count P (l ++ [x]) = count P l + (if P x then 1 else 0).
Proof.
  induction l as [|y l IH]; simpl.
  - rewrite count_cons. unfold count. simpl. lia.
  - rewrite !count_cons, IH. lia.
Qed.

Lemma report_backup_Ok db aid report db' job :
  report_backup db aid report = (db', Ok job) →
  db' = add_backup_job db job ∧ job_agent_id job = aid.
Proof.
  unfold report_backup.
  destruct (build_backup_job db aid report) as [j|e] eqn:Hj; [|done].
  intros [= <- <-]. split; [done|].
  destruct (report_well_formed report) eqn:Hwf.
  - destruct (build_backup_job_well_formed db aid report Hwf)
      as (j' & Hj' & Hid & _). congruence.
  - destruct (build_backup_job_malformed db aid report Hwf) as (e & He).
    congruence.
Qed.

(** X7.  A recorded job is counted for its agent and for no other: after
    [report_backup] has stored a job, the statistics of the agent count one
    more job (and one more success or failure when the job has that status),
    and the statistics of every other agent are what they were. *)
Theorem recorded_job_is_counted (settings : Settings) (now : datetime)
    (db db' : Session) (aid : string) (report : Report) (job : BackupJob) :
  report_backup db aid report = (db', Ok job) →
  match get_agent_stats settings now db aid with
  | Some s =>
    ∃ s', get_agent_stats settings now db' aid = Some s'
      ∧ stats_total_backups s' = stats_total_backups s + 1
      ∧ stats_success_backups s'
        = stats_success_backups s
          + (if String.eqb (status job) "success" then 1 else 0)
      ∧ stats_failed_backups s'
        = stats_failed_backups s
          + (if String.eqb (status job) "failed" then 1 else 0)
  | None => get_agent_stats settings now db' aid = None
  end
  ∧ ∀ other, other ≠ aid →
      get_agent_stats settings now db' other
      = get_agent_stats settings now db other.
Proof.
  intros [-> Hid]%report_backup_Ok. split.
  - destruct (get_agent db aid) as [a|] eqn:Ha.
    + destruct (get_agent_stats_Some settings now db aid a Ha)
        as (s & -> & _ & _ & Ht & Hs & Hf & _).
      destruct (get_agent_stats_Some settings now (add_backup_job db job)
                  aid a Ha) as (s' & -> & _ & _ & Ht' & Hs' & Hf' & _).
      exists s'. simpl in Ht', Hs', Hf'.
      rewrite count_snoc in Ht', Hs', Hf'.
      rewrite Hid, String.eqb_refl in Ht', Hs', Hf'. simpl in Hs', Hf'.
      rewrite Ht, Hs, Hf. by split_and!.
    + rewrite !get_agent_stats_None; done.
  - intros other Hother.
    unfold get_agent_stats, get_agent_stats_body.
    change (get_agent (add_backup_job db job) other)
      with (get_agent db other).
    destruct (get_agent db other); [|done].
    assert (Hne : String.eqb (job_agent_id job) other = false).
    { apply String.eqb_neq. congruence. }
    change (backup_jobs (add_backup_job db job))
      with (backup_jobs db ++ [job]).
    rewrite !count_snoc, filter_app, Hne. simpl.
    rewrite filter_cons_False by (rewrite Hne; done).
    rewrite filter_nil, app_nil_r, !Z.add_0_r. done.
Qed.

Lemma recorded_job_is_counted_witness :
  let settings := {| host := "backup.local";
                     agent_heartbeat_timeout_minutes := 15 |} in
  let agent := {| hostname := "db01"; ip_address := "10.0.0.7";
                  os := "Windows"; agent_id := "a-1"; enabled := true;
                  last_seen := 0; config_hash := "" |} in
  let db := set_agents empty_db [agent] in
  let report :=
    {| report_start_time := Some (IsoText 1700000000000000);
       report_end_time := None;
       report_status := Some "success"; report_tool := Some "restic";
       report_source := Some "/srv"; report_destination := Some "/mnt";
       report_size_bytes := None; report_logs := None;
       report_error_message := None |} in
  ∃ s', get_agent_stats settings 5 (report_backup db "a-1" report).1 "a-1"
        = Some s'
    ∧ stats_total_backups s' = 1 ∧ stats_success_backups s' = 1.
Proof.
  intros settings agent db report.
  destruct (proj1 (recorded_job_is_counted settings 5 db
                     (report_backup db "a-1" report).1 "a-1" report _
                     eq_refl))
    as (s' & Hs' & Ht & Hs & _).
  exists s'. by split_and!.
Defined.

(** ** Events, continued *)

Lemma event_priorities_Some (priority : string) (r : Z) :
  EVENT_PRIORITIES !! priority = Some r →
  (priority = "low" ∧ r = 1) ∨ (priority = "medium" ∧ r = 2)
  ∨ (priority = "high" ∧ r = 3) ∨ (priority = "critical" ∧ r = 4).
Proof.
  intros Hp. apply elem_of_list_to_map_2 in Hp.
  repeat (apply elem_of_cons in Hp as [[= -> ->]|Hp]; [tauto|]).
  by apply elem_of_nil in Hp.
Qed.

Lemma check_event_Ok category type_ details priority details_ :
  check_event category type_ details priority = Ok details_ →
  in_vocabulary category type_
  ∧ is_Some (EVENT_PRIORITIES !! priority)
  ∧ (details = None ∨ details = Some [])
  ∧ details_ = None.
Proof.
  unfold check_event, in_vocabulary.
  destruct (EVENT_CATEGORIES !! category) as [types|]; [|done]. simpl.
  destruct (decide (type_ ∈ types)) as [Hin|Hin];
    [rewrite (bool_decide_eq_true_2 _ Hin)
    |by rewrite (bool_decide_eq_false_2 _ Hin)].
  simpl. case_bool_decide as Hp; [|done]. simpl.
  destruct details as [[|kv rest]|]; intros [= <-]; split_and!;
    eauto.
Qed.


(** X8.  What a successful [create_event] stores: exactly one event row, built
    from the arguments and without details, and, only when the priority is
    high or critical, exactly one notification of the same category and
    priority, addressed to the agent (or else the related id); the other
    tables are untouched. *)
Theorem create_event_stores (now : datetime) (db db' : Session)
    (category type_ description : string) (agent_id_ : option string)
    (backup_job_id : option Z) (related_id : option string)
    (details : option (list (string * json))) (priority : string)
    (event : SystemEvent) :
  create_event now db category type_ description agent_id_ backup_job_id
    related_id details priority = (db', Ok event) →
  event = event_row now category type_ description agent_id_ backup_job_id
            related_id priority
  ∧ system_events db' = system_events db ++ [event]
  ∧ agents db' = agents db ∧ agent_configs db' = agent_configs db
  ∧ backup_jobs db' = backup_jobs db
  ∧ ((priority = "low" ∨ priority = "medium")
       ∧ notifications db' = notifications db
     ∨ (priority = "high" ∨ priority = "critical")
       ∧ ∃ n, notifications db' = notifications db ++ [n]
           ∧ notif_category n = category ∧ notif_priority n = priority
           ∧ notif_related_id n = or_else agent_id_ related_id
           ∧ notif_read n = false ∧ notif_user_id n = None).
Proof.
  unfold create_event.
  destruct (check_event category type_ details priority) as [details_|e]
    eqn:Hc; [|done].
  apply check_event_Ok in Hc as (_ & [r Hr] & _ & ->).
  fold (event_row now category type_ description agent_id_ backup_job_id
          related_id priority).
  rewrite Hr. simpl.
  apply event_priorities_Some in Hr
    as [[-> ->]|[[-> ->]|[[-> ->]|[-> ->]]]]; simpl.
  1-2: intros [= <- <-]; split_and!; try done; left; split; [tauto|done].
  all: unfold send_event_notification;
    destruct (event_message _) as [message|]; [|done];
    intros [= <- <-]; split_and!; try done; right; split; [tauto|];
    eexists; split; [done|]; by split_and!.
Qed.

Lemma create_event_stores_witness :
  ∃ db' n,
    (create_event 1700000000000000 empty_db "system" "error" "disk failure"
       None None (Some "volume-1") None "critical").1 = db'
    ∧ notifications db' = [n]
    ∧ notif_related_id n = Some "volume-1"
    ∧ length (system_events db') = 1%nat.
Proof.
  destruct (create_event_stores 1700000000000000 empty_db
              (create_event 1700000000000000 empty_db "system" "error"
                 "disk failure" None None (Some "volume-1") None
                 "critical").1
              "system" "error" "disk failure" None None (Some "volume-1")
              None "critical" _ eq_refl)
    as (_ & Hev & _ & _ & _ & [[[?|?] _]|[_ (n & Hn & _ & _ & Hrel & _)]]);
    try done.
  eexists _, n. split_and!; [done|exact Hn|exact Hrel|].
  by rewrite Hev.
Defined.

(** X9.  An event with details is never stored: when the [details]
    dictionary is not empty [create_event] raises before any row is added,
    and the exception is [NameError] (the module does not import [json])
    whenever the pair and the priority are valid. *)
Theorem create_event_with_details (now : datetime) (db : Session)
    (category type_ description : string) (agent_id_ : option string)
    (backup_job_id : option Z) (related_id : option string)
    (entry : string * json) (entries : list (string * json))
    (priority : string) :
  ∃ e,
    create_event now db category type_ description agent_id_ backup_job_id
      related_id (Some (entry :: entries)) priority = (db, Raise e)
    ∧ (in_vocabulary category type_ →
       is_Some (EVENT_PRIORITIES !! priority) →
       e = NameError "json").
Proof.
  unfold create_event, check_event, in_vocabulary.
  destruct (EVENT_CATEGORIES !! category) as [types|]; simpl.
  - destruct (decide (type_ ∈ types)) as [Hin|Hin].
    + rewrite (bool_decide_eq_true_2 _ Hin). simpl.
      case_bool_decide as Hp; simpl.
      * by eexists.
      * eexists. split; [done|]. by intros _ ?.
    + rewrite (bool_decide_eq_false_2 _ Hin). simpl.
      eexists. split; [done|]. intros (types' & [= <-] & ?). done.
  - eexists. split; [done|]. intros (types' & ? & _). done.
Qed.

(** X10.  A high or critical event stored without notification: for an agent
    event other than [offline], and for a backup event other than [failed],
    [send_event_notification] assigns no message, so [create_event] stores
    the event row, raises [UnboundLocalError] and stores no notification. *)
Theorem create_event_unbound_message (now : datetime) (db : Session)
    (category type_ description : string) (agent_id_ : option string)
    (backup_job_id : option Z) (related_id : option string)
    (priority : string) :
  in_vocabulary category type_ →
  (category = "agent" ∧ type_ ≠ "offline")
  ∨ (category = "backup" ∧ type_ ≠ "failed") →
  priority = "high" ∨ priority = "critical" →
  create_event now db category type_ description agent_id_ backup_job_id
    related_id None priority
  = (add_system_event db
       (event_row now category type_ description agent_id_ backup_job_id
          related_id priority),
     Raise (UnboundLocalError "message")).
Proof.
  intros (types & Ht & Hin) Hcat Hp.
  destruct Hcat as [[-> Hne]|[-> Hne]].
  - change (EVENT_CATEGORIES !! "agent") with
      (Some ["register"; "heartbeat"; "config_update"; "offline"; "online"])
      in Ht.
    injection Ht as <-.
    repeat (apply elem_of_cons in Hin as [->|Hin];
            [destruct Hp as [-> | ->]; first [reflexivity | by destruct Hne]|]).
    by apply elem_of_nil in Hin.
  - change (EVENT_CATEGORIES !! "backup") with
      (Some ["start"; "success"; "failed"; "warning"]) in Ht.
    injection Ht as <-.
    repeat (apply elem_of_cons in Hin as [->|Hin];
            [destruct Hp as [-> | ->]; first [reflexivity | by destruct Hne]|]).
    by apply elem_of_nil in Hin.
Qed.

Lemma create_event_unbound_message_witness :
  create_event 1700000000000000 empty_db "agent" "heartbeat"
    "agent a-1 answered" (Some "a-1") None None None "high"
  = (add_system_event empty_db
       (event_row 1700000000000000 "agent" "heartbeat" "agent a-1 answered"
          (Some "a-1") None None "high"),
     Raise (UnboundLocalError "message")).
Proof.
  apply create_event_unbound_message.
  - exists ["register"; "heartbeat"; "config_update"; "offline"; "online"].
    split; [reflexivity|]. by apply (bool_decide_unpack _).
  - left. split; [reflexivity|discriminate].
  - by left.
Defined.

(** ** Tips, continued *)











(** ** The system overview *)

Lemma count_le_length {A} (P : A → bool) (l : list A) :
  count P l ≤ Z.of_nat (length l).
Proof. unfold count. pose proof (length_filter (λ x, P x = true) l). lia. Qed.

Lemma count_split_length {A} (Q1 Q2 : A → bool) (l : list A) :
  (∀ x, Q1 x = true → Q2 x = false) →
  count Q1 l + count Q2 l ≤ Z.of_nat (length l).
Proof.
  intros Hex. induction l as [|x l IH]; [done|].
  rewrite !count_cons. specialize (Hex x).
  change (length (x :: l)) with (S (length l)).
  destruct (Q1 x), (Q2 x); lia.
Qed.

(** X12.  The system overview never raises, whatever the session: its
    quotients have the divisors 7, 1000 and [1024 ** 3], or are guarded.
    The online agents are no more than the agents, the failed and running
    jobs no more than the jobs, the success rate lies in [0, 100], and the
    free storage is the capacity of 1000 less the used storage. *)
Theorem system_overview_totals (now : datetime) (db : Session) :
  ∃ o, get_system_overview now db = Ok o
    ∧ overview_total_agents o = Z.of_nat (length (agents db))
    ∧ 0 ≤ overview_online_agents o ≤ overview_total_agents o
    ∧ overview_total_backups o = Z.of_nat (length (backup_jobs db))
    ∧ 0 ≤ overview_failed_backups o ∧ 0 ≤ overview_running_backups o
    ∧ overview_failed_backups o + overview_running_backups o
      ≤ overview_total_backups o
    ∧ (0 <= overview_success_rate o ∧ overview_success_rate o <= 100)%Q
    ∧ capacity_gb (overview_storage o) = 1000%Q
    ∧ (used_gb (overview_storage o) + free_gb (overview_storage o)
       == 1000)%Q.
Proof.
  unfold get_system_overview.
  destruct (success_rate_of_ok
              (count (λ j, String.eqb (status j) "success") (backup_jobs db))
              (Z.of_nat (length (backup_jobs db)))) as [rate Hrate].
  rewrite Hrate. cbn [mbind result_bind].
  rewrite (truediv_ok _ (inject_Z (1024 ^ 3))) by done.
  cbn [mbind result_bind].
  assert (Hgrowth : ∃ g,
    match filter (λ j, now - timedelta_days 7 ≤ start_time j) (backup_jobs db)
    with
    | [] => Ok 0%Q
    | _ :: _ =>
      truediv
        (inject_Z
           (sumZ size_bytes
              (filter (λ j, now - timedelta_days 7 ≤ start_time j)
                 (backup_jobs db)))) 7
      ≫= λ avg_daily_size,
           truediv avg_daily_size (inject_Z (1024 ^ 3))
           ≫= λ g, mret (round2 g)
    end = Ok g).
  { destruct (filter _ _); [by eexists|].
    rewrite (truediv_ok _ 7) by done. cbn [mbind result_bind].
    rewrite (truediv_ok _ (inject_Z (1024 ^ 3))) by done.
    by eexists. }
  destruct Hgrowth as [g ->]. cbn [mbind result_bind].
  rewrite (truediv_ok _ 1000) by done. cbn [mbind result_bind].
  eexists. split; [done|]. cbn.
  pose proof (count_le_length (λ a, now - timedelta_minutes 15 <? last_seen a)
                (agents db)).
  pose proof (count_nonneg (λ a, now - timedelta_minutes 15 <? last_seen a)
                (agents db)).
  pose proof (count_nonneg (λ j : BackupJob, String.eqb (status j) "failed")
                (backup_jobs db)).
  pose proof (count_nonneg (λ j : BackupJob, String.eqb (status j) "running")
                (backup_jobs db)).
  pose proof (count_nonneg (λ j : BackupJob, String.eqb (status j) "success")
                (backup_jobs db)).
  pose proof (count_le_length
                (λ j : BackupJob, String.eqb (status j) "success")
                (backup_jobs db)).
  pose proof (count_split_length
                (λ j : BackupJob, String.eqb (status j) "failed")
                (λ j : BackupJob, String.eqb (status j) "running")
                (backup_jobs db)) as Hsplit.
  split_and!; try done; try lia.
  - apply Hsplit. by intros j ->%String.eqb_eq.
  - by eapply success_rate_of_between; [|exact Hrate].
  - by eapply success_rate_of_between; [|exact Hrate].
  - ring.
Qed.

(** ** The configuration of an agent *)

Lemma get_agent_None (db : Session) (aid : string) :
  get_agent db aid = None ↔ find_agent db aid = None.
Proof. unfold get_agent. by destruct (find_agent db aid). Qed.

(** X13.  Registration and [get_agent_config] compose: for a hostname that is
    not registered and an identifier that names no agent and no
    configuration row, the identifier has no configuration before the
    registration; the registration returns a row with that identifier, and
    after it the identifier has its default configuration, reported with the
    [config_hash] of that row. *)
Theorem fresh_agent_has_default_config (settings : Settings) (now : datetime)
    (uuid : string) (db : Session) (agent_info : AgentInfo) (h : string) :
  info_hostname agent_info = Some h →
  get_agent_by_hostname db h = None →
  get_agent db uuid = None →
  Forall (λ c, config_agent_id c ≠ uuid) (agent_configs db) →
  get_agent_config db uuid = None
  ∧ ∃ agent,
      (create_agent settings now uuid db agent_info).2 = Ok agent
      ∧ agent_id agent = uuid
      ∧ get_agent_config (create_agent settings now uuid db agent_info).1 uuid
        = Some {| answer_config := default_config settings uuid;
                  answer_config_hash := config_hash agent |}.
Proof.
  intros Hh Hhost Hid Hcfg. split.
  { unfold get_agent_config. by rewrite Hid. }
  assert (find_agent_by_hostname db h = None) as Hf.
  { unfold get_agent_by_hostname in Hhost.
    by destruct (find_agent_by_hostname db h). }
  rewrite (create_agent_unknown settings now uuid db agent_info h Hh Hf).
  eexists. split; [done|]. split; [done|].
  apply get_agent_None in Hid. unfold find_agent in Hid.
  unfold get_agent_config, get_agent, find_agent,
    create_default_config, add_agent_config, set_agents. simpl.
  rewrite (list_find_snoc _ _ _ Hid) by done. simpl.
  rewrite list_find_snoc; [done| |done].
  apply list_find_None. eapply Forall_impl; [exact Hcfg|]. by intros c Hc.
Qed.

Lemma fresh_agent_has_default_config_witness :
  let settings := {| host := "srv"; agent_heartbeat_timeout_minutes := 5 |} in
  let agent_info := {| info_hostname := Some "pc"; info_ip_address := None;
                       info_os := None |} in
  get_agent_config empty_db "id-1" = None
  ∧ ∃ agent,
      (create_agent settings 10 "id-1" empty_db agent_info).2 = Ok agent
      ∧ agent_id agent = "id-1"
      ∧ get_agent_config
          (create_agent settings 10 "id-1" empty_db agent_info).1 "id-1"
        = Some {| answer_config := default_config settings "id-1";
                  answer_config_hash := config_hash agent |}.
Proof.
  intros settings agent_info.
  apply (fresh_agent_has_default_config settings 10 "id-1" empty_db
           agent_info "pc");
    [reflexivity | reflexivity | reflexivity | constructor].
Defined.

(** ** The scheduler *)

Lemma report_offline_agent_Ok iso now db agent :
  scheduler.report_offline_agent iso now db agent
  = (foldl add_notification (add_system_event db (offline_event now agent))
       (offline_notifications iso now agent), Ok ()).
Proof. reflexivity. Qed.

Lemma report_offline_agents_Ok iso now db l :
  let db' := (scheduler.report_offline_agents iso now db l).1 in
  agents db' = agents db
  ∧ agent_configs db' = agent_configs db
  ∧ backup_jobs db' = backup_jobs db
  ∧ system_events db' = system_events db ++ (offline_event now <$> l)
  ∧ notifications db'
    = notifications db ++ (l ≫= offline_notifications iso now).
Proof.
  revert db. induction l as [|agent l IH]; intros db.
  { simpl. by rewrite !app_nil_r. }
  cbn [scheduler.report_offline_agents].
  rewrite report_offline_agent_Ok.
  destruct (IH (foldl add_notification
                  (add_system_event db (offline_event now agent))
                  (offline_notifications iso now agent)))
    as (-> & -> & -> & -> & ->).
  split_and!; try done.
  - csimpl. by rewrite <- app_assoc.
  - csimpl. by rewrite <- !app_assoc.
Qed.

(** X14.  [check_offline_agents] stores, for each of the first hundred agents
    last seen more than 15 minutes ago and in their order, one event
    ("agent", "offline", "high") and two notifications; it never fails and
    changes no other table.  Nothing records that an agent was reported: a
    second run stores the same rows again. *)
Theorem check_offline_agents_rows (iso : datetime → string) (now : datetime)
    (db : Session) :
  let db' := scheduler.check_offline_agents iso now db in
  let db'' := scheduler.check_offline_agents iso now db' in
  agents db' = agents db
  ∧ agent_configs db' = agent_configs db
  ∧ backup_jobs db' = backup_jobs db
  ∧ system_events db'
    = system_events db ++ (offline_event now <$> offline_agents now db)
  ∧ notifications db'
    = notifications db
      ++ (offline_agents now db ≫= offline_notifications iso now)
  ∧ system_events db''
    = system_events db' ++ (offline_event now <$> offline_agents now db)
  ∧ notifications db''
    = notifications db'
      ++ (offline_agents now db ≫= offline_notifications iso now).
Proof.
  intros db' db''.
  assert (Hrun : ∀ d,
    let d' := scheduler.check_offline_agents iso now d in
    agents d' = agents d
    ∧ agent_configs d' = agent_configs d
    ∧ backup_jobs d' = backup_jobs d
    ∧ system_events d'
      = system_events d ++ (offline_event now <$> offline_agents now d)
    ∧ notifications d'
      = notifications d
        ++ (offline_agents now d ≫= offline_notifications iso now)).
  { intros d. apply report_offline_agents_Ok. }
  destruct (Hrun db) as (Ha & Hc & Hj & He & Hn).
  destruct (Hrun db') as (_ & _ & _ & He' & Hn').
  fold db' in Ha, Hc, Hj, He, Hn. fold db'' in He', Hn'.
  assert (offline_agents now db' = offline_agents now db) as Hoff.
  { unfold offline_agents. by rewrite Ha. }
  rewrite Hoff in He', Hn'. by split_and!.
Qed.

Lemma create_event_system_warning now db description agent_id_ backup_job_id
    related_id details priority :
  create_event now db "system" "warning" description agent_id_ backup_job_id
    related_id details priority
  = (db, Raise (ValueError
           "Tipo de evento inválido para categoria system: warning")).
Proof. reflexivity. Qed.

(** X15.  [monitor_storage_usage] never changes the session, whatever the
    storage usage: its event ("system", "warning") is outside the
    vocabulary of events, so [create_event] raises before anything is
    stored, and the notification that follows is never sent. *)
Theorem monitor_storage_usage_stores_nothing (str_float : Q → string)
    (now : datetime) (db : Session) :
  ¬ in_vocabulary "system" "warning"
  ∧ scheduler.monitor_storage_usage str_float now db = db.
Proof.
  split.
  { intros (types & Htypes & Hin).
    change (EVENT_CATEGORIES !! "system")
      with (Some ["startup"; "shutdown"; "error"; "maintenance"]) in Htypes.
    injection Htypes as <-.
    refine (bool_decide_eq_false_1 _ _ Hin). reflexivity. }
  unfold scheduler.monitor_storage_usage.
  destruct (get_system_overview now db) as [overview|e]; [|done].
  cbv zeta. unfold scheduler.storage_alert.
  rewrite !create_event_system_warning.
  by repeat case_match.
Qed.

(** X16.  The clean-up tasks delete nothing.  [timedelta] is not bound in the
    module of the events and [models] is not bound in the module of the
    scheduler, so both tasks end on a [NameError], which the scheduler
    prints: every event and every notification stays.  For the same reason
    ([and_] in the module of the notifications) the count of unread
    notifications raises for every user. *)
Theorem cleanup_tasks_delete_nothing (now : datetime) (db : Session)
    (days user_id : Z) :
  ("timedelta" ∉ events_module)
  ∧ ("models" ∉ scheduler_module)
  ∧ ("and_" ∉ notifications_module)
  ∧ events.cleanup_old_events now db days = (db, Raise (NameError "timedelta"))
  ∧ scheduler.cleanup_old_events now db = db
  ∧ scheduler.cleanup_old_notifications now db = db
  ∧ get_unread_notification_count db user_id = Raise (NameError "and_").
Proof.
  split_and!; try reflexivity.
  - by apply (bool_decide_unpack _).
  - by apply (bool_decide_unpack _).
  - by apply (bool_decide_unpack _).
Qed.

(** ** The comparison of agents *)











(** ** The helpers *)

Lemma length_slice_to {A} (k : Z) (s : list A) :
  Z.of_nat (length (slice_to k s))
  = if 0 <=? k then Z.min k (Z.of_nat (length s))
    else Z.max 0 (Z.of_nat (length s) + k).
Proof.
  unfold slice_to. destruct (0 <=? k) eqn:Hk; rewrite length_take; lia.
Qed.

(** X18.  [truncate_string] returns a text of at most [max_length] characters
    exactly when the text already fits or the suffix fits: a text that is
    too long is cut to [max_length] characters, suffix included, when the
    suffix has at most [max_length] characters, and otherwise the result is
    longer than [max_length].  The result is the text, or a prefix of the
    text followed by the suffix. *)
Theorem truncate_string_length {A} (text : list A) (max_length : Z)
    (suffix : list A) :
  let r := truncate_string text max_length suffix in
  let len := λ s : list A, Z.of_nat (length s) in
  (len r ≤ max_length ↔ len text ≤ max_length ∨ len suffix ≤ max_length)
  ∧ (max_length < len text ∧ len suffix ≤ max_length ↔
     len r = max_length ∧ r ≠ text)
  ∧ (r = text ∨ ∃ n, r = take n text ++ suffix).
Proof.
  intros r len. subst r len. unfold truncate_string.
  destruct (Z.of_nat (length text) <=? max_length) eqn:Hfit.
  { apply Z.leb_le in Hfit. split_and!; [| |by left].
    - split; [by left|lia].
    - split; [lia|]. by intros [_ Hne]. }
  apply Z.leb_gt in Hfit.
  pose proof (length_slice_to (max_length - Z.of_nat (length suffix)) text)
    as Hlen.
  split_and!.
  - rewrite length_app, Nat2Z.inj_add, Hlen. case_match; lia.
  - rewrite length_app, Nat2Z.inj_add, Hlen. split.
    + intros [_ Hs]. split; [case_match; lia|].
      intros Heq. apply (f_equal length) in Heq.
      rewrite length_app in Heq.
      assert (Z.of_nat (length (slice_to
                (max_length - Z.of_nat (length suffix)) text))
              = max_length - Z.of_nat (length suffix))
        by (rewrite Hlen; case_match; lia).
      lia.
    + intros [Hr _]. split; [done|]. case_match; lia.
  - right. unfold slice_to. case_match; by eexists.
Qed.

Lemma chunks_from_spec {A} (fuel n : nat) (lst : list A) :
  (0 < n)%nat → (length lst ≤ fuel)%nat →
  let cs := chunks_from fuel n lst in
  concat cs = lst
  ∧ Forall (λ c, (0 < length c ≤ n)%nat) cs
  ∧ (∀ i c, cs !! i = Some c → (S i < length cs)%nat → length c = n).
Proof.
  intros Hn. revert lst. induction fuel as [|fuel IH]; intros lst Hfuel.
  { destruct lst; [|simpl in Hfuel; lia]. simpl. split_and!; [done..|].
    intros i c Hc. by rewrite lookup_nil in Hc. }
  destruct lst as [|x lst].
  { simpl. split_and!; [done..|]. intros i c Hc. by rewrite lookup_nil in Hc. }
  cbn [chunks_from].
  destruct (IH (drop n (x :: lst))) as (Hcat & Hlen & Hfull).
  { rewrite length_drop. simpl in *. lia. }
  cbv zeta. split_and!.
  - cbn [concat]. rewrite Hcat. apply take_drop.
  - constructor; [|done]. rewrite length_take. simpl. lia.
  - intros [|i] c Hc Hi.
    + injection Hc as <-.
      destruct (chunks_from fuel n (drop n (x :: lst))) as [|c' cs'] eqn:Hcs;
        [simpl in Hi; lia|].
      apply Forall_cons in Hlen as [Hc' _].
      assert (drop n (x :: lst) ≠ []) as Hne.
      { intros Hnil. rewrite Hnil in Hcat. simpl in Hcat.
        apply (f_equal length) in Hcat. rewrite length_app in Hcat.
        simpl in Hcat. lia. }
      rewrite length_take. apply Nat.min_l.
      destruct (decide (n ≤ length (x :: lst))%nat); [done|].
      destruct Hne. apply drop_ge. lia.
    + simpl in Hc, Hi. apply (Hfull i c Hc). lia.
Qed.

(** X19.  [chunks] cuts a list into slices of [n] elements for a positive
    [n]: the slices put together give the list back, none is empty, all have
    [n] elements but possibly the last, which has at most [n].  For [n = 0]
    it raises [ValueError], and for a negative [n] it yields nothing: the
    elements of the list are dropped. *)
Theorem chunks_round_trip {A} (lst : list A) (n : Z) :
  match n ?= 0 with
  | Gt =>
    ∃ cs, chunks lst n = Ok cs
      ∧ concat cs = lst
      ∧ Forall (λ c, 0 < Z.of_nat (length c) ≤ n) cs
      ∧ (∀ i c, cs !! i = Some c → (S i < length cs)%nat →
           Z.of_nat (length c) = n)
  | Eq => ∃ msg, chunks lst n = Raise (ValueError msg)
  | Lt => chunks lst n = Ok []
  end.
Proof.
  unfold chunks. destruct (Z.compare_spec n 0) as [->|Hn|Hn].
  - by eexists.
  - rewrite (proj2 (Z.eqb_neq n 0)) by lia.
    by rewrite (proj2 (Z.ltb_lt n 0)).
  - rewrite (proj2 (Z.eqb_neq n 0)) by lia.
    rewrite (proj2 (Z.ltb_ge n 0)) by lia.
    destruct (chunks_from_spec (length lst) (Z.to_nat n) lst)
      as (Hcat & Hlen & Hfull); [lia|done|].
    eexists. split_and!; [done|done| |].
    + eapply Forall_impl; [exact Hlen|]. simpl. intros c Hc. lia.
    + intros i c Hc Hi. rewrite (Hfull i c Hc Hi). lia.
Qed.

(** ** The backup report *)

Lemma round_gb_ok (x : Q) :
  round_gb x = Ok (round2 (x / inject_Z (1024 ^ 3))).
Proof. unfold round_gb. by rewrite truediv_ok. Qed.

Lemma mapM_fmap_Ok {A B} (f : A → result B) (g : A → B) (l : list A) :
  (∀ x, f x = Ok (g x)) → mapM f l = Ok (g <$> l).
Proof.
  intros Hf. induction l as [|x l IH]; [done|].
  simpl. rewrite Hf. simpl. by rewrite IH.
Qed.

Lemma top_source_row_ok entry : top_source_row entry = Ok (top_source_of entry).
Proof. unfold top_source_row. by rewrite round_gb_ok. Qed.

Lemma detailed_backup_ok b : detailed_backup b = Ok (detail_of b).
Proof.
  unfold detailed_backup, detail_of.
  destruct (size_bytes b =? 0); [done|]. by rewrite round_gb_ok.
Qed.

(** The report of a window that is not empty. *)
Lemma generate_backup_report_Some now db agent_id_ days :
  let backups := report_backups now db agent_id_ days in
  let total := Z.of_nat (length backups) in
  let total_size := sumZ size_bytes (filter (λ b, size_bytes b ≠ 0) backups) in
  backups ≠ [] →
  ∃ rate,
    success_rate_of (count (λ b, String.eqb (status b) "success") backups)
      total = Ok rate
    ∧ generate_backup_report now db agent_id_ days
      = Ok (Some
          {| backup_report_period :=
               (date (now - timedelta_days days), date now);
             backup_report_generated_at := isoformat now;
             backup_report_summary :=
               {| summary_total_backups := total;
                  summary_success_backups :=
                    count (λ b, String.eqb (status b) "success") backups;
                  summary_failed_backups :=
                    count (λ b, String.eqb (status b) "failed") backups;
                  summary_running_backups :=
                    count (λ b, String.eqb (status b) "running") backups;
                  summary_success_rate := rate;
                  summary_total_size_gb :=
                    round2 (inject_Z total_size / inject_Z (1024 ^ 3));
                  summary_avg_size_gb :=
                    round2 (inject_Z total_size / inject_Z total
                            / inject_Z (1024 ^ 3));
                  summary_avg_duration_seconds :=
                    round2 (mean_finished_duration backups) |};
             backup_report_tool_breakdown := fold_left group_by_tool backups [];
             backup_report_top_sources :=
               top_source_of
               <$> take 5 (sort_by_size (fold_left group_by_source backups []));
             backup_report_detailed_backups :=
               detail_of <$> take 50 backups |}).
Proof.
  cbv zeta. intros Hne. unfold generate_backup_report.
  remember (report_backups now db agent_id_ days) as backups eqn:Hb.
  destruct backups as [|b0 backups']; [done|]. clear Hne Hb.
  cbv beta iota zeta.
  set (backups := b0 :: backups').
  set (total := Z.of_nat (length backups)).
  set (total_size := sumZ size_bytes (filter (λ b, size_bytes b ≠ 0) backups)).
  destruct (success_rate_of_ok
              (count (λ b, String.eqb (status b) "success") backups) total)
    as [rate Hrate].
  exists rate. split; [done|]. rewrite Hrate. cbn [mbind result_bind].
  assert (0 < total) as Hpos by (subst total backups; simpl length; lia).
  rewrite (proj2 (Z.ltb_lt 0 total) Hpos).
  rewrite (truediv_ok _ (inject_Z total)) by (apply inject_Z_nonzero; lia).
  cbn [mbind result_bind].
  assert (∃ avg,
    match report_durations backups with
    | [] => Ok 0%Q
    | _ :: _ =>
      truediv (sumQ (λ d, d) (report_durations backups))
        (inject_Z (Z.of_nat (length (report_durations backups))))
    end = Ok avg ∧ round2 avg = round2 (mean_finished_duration backups))
    as (avg & -> & Havg).
  { unfold mean_finished_duration.
    change (omap finished_duration backups) with (report_durations backups).
    destruct (report_durations backups) as [|d ds] eqn:Hd.
    - by eexists.
    - rewrite truediv_ok
        by (apply inject_Z_nonzero; simpl length; lia).
      eexists. split; [done|]. apply round2_proper. by rewrite Qred_correct. }
  cbn [mbind result_bind]. rewrite !round_gb_ok. cbn [mbind result_bind].
  rewrite (mapM_fmap_Ok _ _ _ top_source_row_ok). cbn [mbind result_bind].
  rewrite (mapM_fmap_Ok _ _ _ detailed_backup_ok). cbn [mbind result_bind].
  by rewrite Havg.
Qed.

Lemma insert_by_start_time_perm x l : insert_by_start_time x l ≡ₚ x :: l.
Proof.
  induction l as [|y l IH]; [done|]. simpl.
  destruct (_ <? _); [|done]. rewrite IH. apply Permutation_swap.
Qed.

Lemma newest_first_perm l : newest_first l ≡ₚ l.
Proof.
  induction l as [|x l IH]; [done|].
  unfold newest_first in *. simpl. by rewrite insert_by_start_time_perm, IH.
Qed.

Lemma insert_by_start_time_sorted x l :
  StronglySorted by_start_time_desc l →
  StronglySorted by_start_time_desc (insert_by_start_time x l).
Proof.
  induction 1 as [|y l Hs IH Hy]; simpl.
  { repeat constructor. }
  destruct (_ <? _) eqn:Hk.
  - apply Z.ltb_lt in Hk. constructor; [done|].
    rewrite insert_by_start_time_perm. constructor; [|done].
    unfold by_start_time_desc. lia.
  - apply Z.ltb_ge in Hk.
    constructor; [by constructor|]. constructor; [done|].
    eapply Forall_impl; [exact Hy|].
    unfold by_start_time_desc in *. intros z Hz. lia.
Qed.

Lemma newest_first_sorted l : StronglySorted by_start_time_desc (newest_first l).
Proof.
  induction l as [|x l IH]; [constructor|].
  by apply insert_by_start_time_sorted.
Qed.

(** Rows that are in order already, rows of equal [start_time] among them,
    stay as they are. *)
Lemma newest_first_stable l :
  StronglySorted by_start_time_desc l → newest_first l = l.
Proof.
  induction 1 as [|x l Hs IH Hx]; [done|].
  unfold newest_first in *. simpl. rewrite IH.
  destruct Hx as [|y l Hy _]; [done|]. simpl.
  unfold by_start_time_desc in Hy.
  by rewrite (proj2 (Z.ltb_ge _ _)) by lia.
Qed.

Lemma report_backups_filter now db agent_id_ days :
  report_backups now db agent_id_ days
  = newest_first
      (filter (λ b, in_report now agent_id_ days b = true) (backup_jobs db)).
Proof.
  unfold report_backups. cbv zeta. f_equal. unfold in_report.
  destruct agent_id_ as [aid|]; [destruct (String.eqb aid "") eqn:Haid|].
  - apply list_filter_iff. intros b. simpl.
    rewrite andb_true_r. symmetry. apply Z.leb_le.
  - rewrite list_filter_filter. apply list_filter_iff.
    intros b. simpl. rewrite andb_true_iff, Z.leb_le, String.eqb_eq. tauto.
  - apply list_filter_iff. intros b.
    rewrite andb_true_r. symmetry. apply Z.leb_le.
Qed.

(** *** Rounding stays near *)

Lemma round_half_even_near (x : Q) :
  (inject_Z (round_half_even x) - x <= 1 # 2)%Q
  ∧ (x - inject_Z (round_half_even x) <= 1 # 2)%Q.
Proof.
  unfold round_half_even.
  pose proof (Qfloor_le x) as Hl. pose proof (Qlt_floor x) as Hu.
  rewrite inject_Z_plus in Hu. change (inject_Z 1) with 1%Q in Hu.
  destruct (Qcompare_spec (x - inject_Z (Qfloor x)) (1 # 2)) as [He|Hlt|Hgt].
  - destruct (Z.even (Qfloor x));
      [|rewrite inject_Z_plus; change (inject_Z 1) with 1%Q]; split; lra.
  - split; lra.
  - rewrite inject_Z_plus. change (inject_Z 1) with 1%Q. split; lra.
Qed.

Lemma round2_near (x : Q) :
  (∃ k : Z, round2 x == inject_Z k / 100)%Q
  ∧ (x - (1 # 200) <= round2 x ∧ round2 x <= x + (1 # 200))%Q.
Proof.
  unfold round2. split.
  - eexists. by rewrite Qred_correct.
  - rewrite Qred_correct.
    destruct (round_half_even_near (x * 100)) as [H1 H2].
    split.
    + apply Qle_shift_div_l; [done|]. lra.
    + apply Qle_shift_div_r; [done|]. lra.
Qed.

Lemma count_status_split (l : list BackupJob) :
  count (λ b, String.eqb (status b) "success") l
  + count (λ b, String.eqb (status b) "failed") l
  + count (λ b, String.eqb (status b) "running") l
  ≤ Z.of_nat (length l).
Proof.
  induction l as [|x l IH]; [done|].
  rewrite !count_cons. change (length (x :: l)) with (S (length l)).
  destruct (String.eqb_spec (status x) "success") as [->|_]; [simpl; lia|].
  destruct (String.eqb_spec (status x) "failed") as [->|_]; [simpl; lia|].
  destruct (String.eqb (status x) "running"); lia.
Qed.

(** X20.  When the start of the period, [utcnow() - timedelta(days)], is a
    datetime (the subtraction raises [OverflowError] otherwise), the backup
    report raises nothing.  It is about the jobs started in the last [days]
    days, of the named agent when there is one, newest first, jobs that are
    in that order already staying as the table has them; it is [None]
    exactly when there is no such job.  Otherwise its summary counts these
    jobs and the successful, failed and running ones among them, its success
    rate lies in [0, 100], its average duration is a number of hundredths
    within 0.005 of the mean over the jobs that have an end time (a job that
    is still running is left out of the mean), the detailed rows are the 50
    newest jobs and there are at most 5 top sources. *)
Theorem backup_report_summary_counts (now : datetime) (db : Session)
    (agent_id_ : option string) (days : Z) :
  start_date_in_range now days →
  let backups := report_backups now db agent_id_ days in
  let jobs :=
    filter (λ b, in_report now agent_id_ days b = true) (backup_jobs db) in
  backups ≡ₚ jobs
  ∧ StronglySorted by_start_time_desc backups
  ∧ (StronglySorted by_start_time_desc jobs → backups = jobs)
  ∧ match generate_backup_report now db agent_id_ days with
    | Raise _ => False
    | Ok None => backups = []
    | Ok (Some r) =>
      let s := backup_report_summary r in
      backups ≠ []
      ∧ summary_total_backups s = Z.of_nat (length backups)
      ∧ summary_success_backups s
        = count (λ b, String.eqb (status b) "success") backups
      ∧ summary_failed_backups s
        = count (λ b, String.eqb (status b) "failed") backups
      ∧ summary_running_backups s
        = count (λ b, String.eqb (status b) "running") backups
      ∧ summary_success_backups s + summary_failed_backups s
        + summary_running_backups s ≤ summary_total_backups s
      ∧ (0 <= summary_success_rate s ∧ summary_success_rate s <= 100)%Q
      ∧ (∃ k : Z, summary_avg_duration_seconds s == inject_Z k / 100)%Q
      ∧ (mean_finished_duration backups - (1 # 200)
         <= summary_avg_duration_seconds s
         ∧ summary_avg_duration_seconds s
           <= mean_finished_duration backups + (1 # 200))%Q
      ∧ backup_report_detailed_backups r = detail_of <$> take 50 backups
      ∧ (length (backup_report_top_sources r) ≤ 5)%nat
    end.
Proof.
  intros _ backups jobs. subst backups jobs.
  rewrite !report_backups_filter.
  split; [apply newest_first_perm|].
  split; [apply newest_first_sorted|].
  split; [apply newest_first_stable|].
  rewrite <- !report_backups_filter.
  set (backups := report_backups now db agent_id_ days).
  destruct (decide (backups = [])) as [Hnil|Hne].
  { unfold generate_backup_report. fold backups. by rewrite Hnil. }
  destruct (generate_backup_report_Some now db agent_id_ days Hne)
    as (rate & Hrate & ->).
  fold backups in Hrate |- *.
  cbn [backup_report_summary backup_report_detailed_backups
       backup_report_top_sources summary_total_backups
       summary_success_backups summary_failed_backups
       summary_running_backups summary_success_rate
       summary_avg_duration_seconds].
  split_and!; try done.
  - apply count_status_split.
  - eapply success_rate_of_between; [|exact Hrate].
    split; [apply count_nonneg|apply count_le_length].
  - eapply success_rate_of_between; [|exact Hrate].
    split; [apply count_nonneg|apply count_le_length].
  - apply round2_near.
  - apply (proj2 (round2_near _)).
  - apply (proj2 (round2_near _)).
  - rewrite length_fmap, length_take. lia.
Qed.

Lemma backup_report_summary_counts_witness :
  start_date_in_range 1700000300000000 7
  ∧ match generate_backup_report 1700000300000000 example_session None 7 with
    | Ok (Some r) =>
      summary_total_backups (backup_report_summary r) = 2
      ∧ (summary_avg_duration_seconds (backup_report_summary r)
         <= 100 + (1 # 200))%Q
    | _ => False
    end.
Proof.
  split; [exact start_date_in_range_example|].
  pose proof (backup_report_summary_counts 1700000300000000 example_session
                None 7 start_date_in_range_example) as (_ & _ & _ & Hr).
  destruct (generate_backup_report 1700000300000000 example_session None 7)
    as [[r|]|e]; [|discriminate Hr|exact Hr].
  destruct Hr as (_ & Htotal & _ & _ & _ & _ & _ & _ & [_ Havg] & _).
  split; [exact Htotal|exact Havg].
Defined.

(** *** Dictionaries filled by a loop *)

Lemma sdict_mem_get {V} (k : string) (d : list (string * V)) :
  sdict_mem k d = bool_decide (is_Some (sdict_get k d)).
Proof.
  induction d as [|[k' v] d IH]; simpl; [done|].
  by destruct (String.eqb k' k).
Qed.

Lemma sdict_get_alter {V} (f : V → V) (k k' : string)
    (d : list (string * V)) :
  sdict_get k (sdict_alter f k' d)
  = if String.eqb k' k then f <$> sdict_get k d else sdict_get k d.
Proof.
  induction d as [|[k0 v] d IH]; simpl; [by destruct (String.eqb k' k)|].
  destruct (String.eqb_spec k0 k') as [->|Hk0]; simpl.
  - by destruct (String.eqb k' k).
  - rewrite IH. destruct (String.eqb_spec k0 k) as [->|_]; [|done].
    by rewrite (proj2 (String.eqb_neq k' k)).
Qed.

Lemma sdict_get_snoc {V} (k k' : string) (v : V) (d : list (string * V)) :
  sdict_get k (d ++ [(k', v)])
  = match sdict_get k d with
    | Some x => Some x
    | None => if String.eqb k' k then Some v else None
    end.
Proof.
  induction d as [|[k0 v0] d IH]; simpl; [done|].
  by destruct (String.eqb k0 k).
Qed.

Section grouping.
Context {B V : Type} (key : B → string) (upd : B → V → V) (init : V).
Context (cond : B → bool).

Lemma sdict_get_group_step (k : string) (d : list (string * V)) (b : B) :
  sdict_get k (group_step key upd init cond d b)
  = if cond b && String.eqb (key b) k
    then Some (upd b (default init (sdict_get k d)))
    else sdict_get k d.
Proof.
  unfold group_step. destruct (cond b); simpl; [|done].
  rewrite sdict_get_alter, sdict_mem_get.
  destruct (String.eqb_spec (key b) k) as [->|Hk]; [|by case_bool_decide; [|rewrite sdict_get_snoc, (proj2 (String.eqb_neq _ _) Hk); destruct (sdict_get k d)]].
  case_bool_decide as Hin.
  - by destruct Hin as [v ->].
  - rewrite sdict_get_snoc, String.eqb_refl.
    destruct (sdict_get k d) eqn:Hg; [|done]. destruct Hin. by eexists.
Qed.

(** The entry of a key after the loop: the rows that count for the key,
    folded in their order, and no entry when there is no such row. *)
Lemma sdict_get_fold_group_step (k : string) (l : list B) :
  sdict_get k (fold_left (group_step key upd init cond) l [])
  = match filter (λ b, cond b && String.eqb (key b) k = true) l with
    | [] => None
    | items => Some (fold_left (λ v b, upd b v) items init)
    end.
Proof.
  induction l as [|b l IH] using rev_ind; [done|].
  rewrite fold_left_app, filter_app. simpl.
  rewrite sdict_get_group_step, IH, filter_cons, filter_nil.
  destruct (cond b && String.eqb (key b) k) eqn:Hb.
  - rewrite decide_True by done.
    destruct (filter _ l) as [|x items]; [done|].
    simpl. by rewrite fold_left_app.
  - rewrite decide_False by done. by rewrite app_nil_r.
Qed.

(** The keys of the dictionary are distinct. *)
Lemma sdict_alter_keys (f : V → V) (k : string) (d : list (string * V)) :
  (sdict_alter f k d).*1 = d.*1.
Proof.
  induction d as [|[k' v] d IH]; [done|]. cbn [sdict_alter].
  destruct (String.eqb k' k); [done|]. rewrite !fmap_cons. by rewrite IH.
Qed.

Lemma sdict_mem_keys (k : string) (d : list (string * V)) :
  sdict_mem k d = false → k ∉ d.*1.
Proof.
  induction d as [|[k' v] d IH]; cbn [sdict_mem]; intros Hm;
    [apply not_elem_of_nil|].
  apply orb_false_iff in Hm as [Hk Hm]. rewrite fmap_cons.
  apply not_elem_of_cons.
  split; [|by apply IH]. apply String.eqb_neq in Hk. simpl. congruence.
Qed.

Lemma group_step_NoDup (d : list (string * V)) (b : B) :
  NoDup d.*1 → NoDup (group_step key upd init cond d b).*1.
Proof.
  intros Hd. unfold group_step. destruct (cond b); [|done].
  rewrite sdict_alter_keys. destruct (sdict_mem (key b) d) eqn:Hm; [done|].
  rewrite fmap_app. simpl. apply NoDup_app. split_and!; [done| |].
  - intros x Hx [->|[]%elem_of_nil]%elem_of_cons.
    by apply (sdict_mem_keys _ _ Hm).
  - apply NoDup_singleton.
Qed.

Lemma fold_group_step_NoDup (l : list B) (d : list (string * V)) :
  NoDup d.*1 → NoDup (fold_left (group_step key upd init cond) l d).*1.
Proof.
  revert d. induction l as [|b l IH]; intros d Hd; [done|].
  simpl. by apply IH, group_step_NoDup.
Qed.

End grouping.

Lemma sdict_alter_snoc {V} (g : V → V) (k : string) (d : list (string * V))
    (v : V) :
  sdict_mem k d = false →
  sdict_alter g k (d ++ [(k, v)]) = d ++ [(k, g v)].
Proof.
  induction d as [|[k' v'] d IH]; simpl; intros Hm.
  - by rewrite String.eqb_refl.
  - apply orb_false_iff in Hm as [-> Hm]. by rewrite IH.
Qed.

Lemma sumZ_sdict_alter {V} (f : V → Z) (g : V → V) (c : Z) (k : string)
    (d : list (string * V)) :
  (∀ v, f (g v) = f v + c) →
  sdict_mem k d = true →
  sumZ (λ e, f e.2) (sdict_alter g k d) = sumZ (λ e, f e.2) d + c.
Proof.
  intros Hf. induction d as [|[k' v'] d IH]; simpl; [done|].
  destruct (String.eqb k' k); simpl; intros Hm.
  - rewrite !sumZ_cons. simpl. rewrite Hf. lia.
  - rewrite !sumZ_cons, IH by done. lia.
Qed.

Lemma sumZ_fold_group_step {B V} (key : B → string) (upd : B → V → V)
    (init : V) (cond : B → bool) (f : V → Z) (c : B → Z) (l : list B)
    (d : list (string * V)) :
  (∀ b v, f (upd b v) = f v + c b) →
  f init = 0 →
  sumZ (λ e, f e.2) (fold_left (group_step key upd init cond) l d)
  = sumZ (λ e, f e.2) d + sumZ c (filter (λ b, cond b = true) l).
Proof.
  intros Hf H0. revert d. induction l as [|b l IH]; intros d.
  { simpl. unfold sumZ at 3. simpl. lia. }
  simpl. rewrite IH, filter_cons. unfold group_step.
  destruct (cond b) eqn:Hb.
  - rewrite decide_True by done. rewrite sumZ_cons.
    destruct (sdict_mem (key b) d) eqn:Hm.
    + rewrite (sumZ_sdict_alter f _ (c b)) by done. lia.
    + rewrite sdict_alter_snoc, sumZ_snoc by done. simpl.
      rewrite Hf, H0. lia.
  - by rewrite decide_False by done.
Qed.

Lemma count_filter {A} (P Q : A → bool) (l : list A) :
  count P (filter (λ x, Q x = true) l) = count (λ x, Q x && P x) l.
Proof.
  induction l as [|x l IH]; [done|].
  rewrite filter_cons, (count_cons (λ x, Q x && P x)).
  destruct (Q x) eqn:HQ.
  - rewrite decide_True by done. rewrite count_cons, IH. done.
  - rewrite decide_False by done. rewrite IH. simpl. lia.
Qed.

Lemma sumZ_indicator {A} (P : A → bool) (l : list A) :
  sumZ (λ x, if P x then 1 else 0) l = count P l.
Proof.
  induction l as [|x l IH]; [done|]. by rewrite sumZ_cons, count_cons, IH.
Qed.

Lemma count_tool_fold (items : list BackupJob) (st : ToolStats) :
  fold_left (λ v b, count_tool b v) items st
  = {| tool_count := tool_count st + Z.of_nat (length items);
       tool_success :=
         tool_success st
         + count (λ b, String.eqb (status b) "success") items;
       tool_failed :=
         tool_failed st + count (λ b, String.eqb (status b) "failed") items;
       tool_size :=
         tool_size st
         + sumZ size_bytes
             (filter (λ b, String.eqb (status b) "success" = true) items) |}.
Proof.
  revert st. induction items as [|b items IH]; intros st.
  { destruct st. simpl. unfold count, sumZ. simpl. f_equal; lia. }
  simpl fold_left. rewrite IH, !count_cons, filter_cons.
  change (length (b :: items)) with (S (length items)).
  unfold count_tool. simpl.
  destruct (String.eqb_spec (status b) "success") as [Hs|Hs].
  - rewrite decide_True by done. rewrite sumZ_cons, Hs. simpl.
    f_equal; lia.
  - rewrite decide_False by done.
    destruct (String.eqb (status b) "failed"); f_equal; lia.
Qed.

(** The entry of a tool in the breakdown. *)
Lemma tool_entry (backups : list BackupJob) (t : string) :
  fold_left (λ v b, count_tool b v)
    (filter (λ b, String.eqb (tool b) t = true) backups) new_tool
  = tool_stats_of backups t.
Proof.
  rewrite count_tool_fold. unfold tool_stats_of, new_tool. simpl.
  rewrite !count_filter, list_filter_filter. f_equal.
  rewrite Z.add_0_l. f_equal. apply list_filter_iff. intros b.
  rewrite andb_true_iff. tauto.
Qed.

(** X21.  When the start of the period is a datetime (as for X20), the tool
    breakdown of the backup report has one entry for each tool that ran a
    job the report is about, and no other: the entry counts the jobs of the
    tool, the successful and the failed ones among them, and adds up the
    sizes of the successful ones.  The counts of the entries add up to the
    total of the summary. *)
Theorem backup_report_tool_breakdown_entries (now : datetime) (db : Session)
    (agent_id_ : option string) (days : Z) :
  start_date_in_range now days →
  let backups := report_backups now db agent_id_ days in
  match generate_backup_report now db agent_id_ days with
  | Raise _ => False
  | Ok None => backups = []
  | Ok (Some r) =>
    let tools := backup_report_tool_breakdown r in
    NoDup tools.*1
    ∧ (∀ t, sdict_get t tools
            = if 0 <? count (λ b, String.eqb (tool b) t) backups
              then Some (tool_stats_of backups t) else None)
    ∧ sumZ (λ e, tool_count e.2) tools
      = summary_total_backups (backup_report_summary r)
    ∧ sumZ (λ e, tool_success e.2) tools
      = summary_success_backups (backup_report_summary r)
    ∧ sumZ (λ e, tool_failed e.2) tools
      = summary_failed_backups (backup_report_summary r)
  end.
Proof.
  intros _ backups.
  destruct (decide (backups = [])) as [Hnil|Hne].
  { unfold generate_backup_report. fold backups. by rewrite Hnil. }
  destruct (generate_backup_report_Some now db agent_id_ days Hne)
    as (rate & Hrate & ->).
  fold backups.
  cbn [backup_report_tool_breakdown backup_report_summary
       summary_total_backups summary_success_backups summary_failed_backups].
  change (fold_left group_by_tool backups [])
    with (fold_left (group_step tool count_tool new_tool (λ _, true))
            backups []).
  assert (Htrue : filter (λ _ : BackupJob, true = true) backups = backups).
  { clear. induction backups as [|b l IH]; [done|].
    by rewrite filter_cons, decide_True, IH by done. }
  split_and!.
  - by apply fold_group_step_NoDup, NoDup_nil.
  - intros t. rewrite sdict_get_fold_group_step. cbn [andb].
    rewrite <- tool_entry. unfold count. cbv beta.
    destruct (filter (λ b, String.eqb (tool b) t = true) backups)
      as [|b items]; [done|].
    by rewrite (proj2 (Z.ltb_lt _ _)) by (simpl length; lia).
  - rewrite (sumZ_fold_group_step _ _ _ _ tool_count (λ _, 1)); [|done..].
    by rewrite Htrue, sumZ_const_1.
  - rewrite (sumZ_fold_group_step _ _ _ _ tool_success
               (λ b, if String.eqb (status b) "success" then 1 else 0)).
    + by rewrite Htrue, sumZ_indicator.
    + intros b v. unfold count_tool. simpl.
      destruct (String.eqb (status b) "success"); lia.
    + done.
  - rewrite (sumZ_fold_group_step _ _ _ _ tool_failed
               (λ b, if String.eqb (status b) "failed" then 1 else 0)).
    + by rewrite Htrue, sumZ_indicator.
    + intros b v. unfold count_tool. simpl.
      destruct (String.eqb_spec (status b) "success") as [->|_]; [simpl; lia|].
      destruct (String.eqb (status b) "failed"); lia.
    + done.
Qed.

Lemma backup_report_tool_breakdown_entries_witness :
  start_date_in_range 1700000300000000 7
  ∧ match generate_backup_report 1700000300000000 example_session None 7 with
    | Ok (Some r) =>
      sdict_get "restic" (backup_report_tool_breakdown r)
      = Some {| tool_count := 2; tool_success := 1; tool_failed := 0;
                tool_size := 1073741824 |}
    | _ => False
    end.
Proof.
  split; [exact start_date_in_range_example|].
  pose proof (backup_report_tool_breakdown_entries 1700000300000000
                example_session None 7 start_date_in_range_example) as Hr.
  cbv zeta in Hr.
  destruct (generate_backup_report 1700000300000000 example_session None 7)
    as [[r|]|e]; [|discriminate Hr|exact Hr].
  destruct Hr as (_ & Hget & _). exact (Hget "restic").
Defined.

(** *** Rounding is monotone *)

Lemma round_half_even_mono (x y : Q) :
  (x <= y)%Q → round_half_even x ≤ round_half_even y.
Proof.
  intros Hxy. unfold round_half_even.
  pose proof (Qfloor_le x) as Hxl. pose proof (Qlt_floor x) as Hxu.
  pose proof (Qfloor_le y) as Hyl. pose proof (Qlt_floor y) as Hyu.
  pose proof (Qfloor_resp_le x y Hxy) as Hfl.
  rewrite inject_Z_plus in Hxu, Hyu.
  destruct (decide (Qfloor x = Qfloor y)) as [Heq|Hne].
  - rewrite <- Heq in *.
    destruct (Qcompare_spec (x - inject_Z (Qfloor x)) (1 # 2)) as [He|Hl|Hg];
      destruct (Qcompare_spec (y - inject_Z (Qfloor x)) (1 # 2))
        as [He'|Hl'|Hg'];
      try (destruct (Z.even (Qfloor x))); try lia; exfalso; lra.
  - destruct (Qcompare_spec (x - inject_Z (Qfloor x)) (1 # 2)) as [He|Hl|Hg];
      destruct (Qcompare_spec (y - inject_Z (Qfloor y)) (1 # 2))
        as [He'|Hl'|Hg'];
      try (destruct (Z.even (Qfloor x))); try (destruct (Z.even (Qfloor y)));
      lia.
Qed.

Lemma round2_mono (x y : Q) : (x <= y)%Q → (round2 x <= round2 y)%Q.
Proof.
  intros Hxy. unfold round2. rewrite !Qred_correct.
  apply Qmult_le_compat_r; [|done].
  rewrite <- Zle_Qle. apply round_half_even_mono.
  by apply Qmult_le_compat_r.
Qed.

(** *** The top sources *)

Lemma insert_by_size_perm x l : insert_by_size x l ≡ₚ x :: l.
Proof.
  induction l as [|y l IH]; [done|]. simpl.
  destruct (_ <? _); [|done]. rewrite IH. apply Permutation_swap.
Qed.

Lemma sort_by_size_perm l : sort_by_size l ≡ₚ l.
Proof.
  induction l as [|x l IH]; [done|].
  unfold sort_by_size in *. simpl. by rewrite insert_by_size_perm, IH.
Qed.

Lemma insert_by_size_sorted x l :
  StronglySorted by_size_desc l →
  StronglySorted by_size_desc (insert_by_size x l).
Proof.
  induction 1 as [|y l Hs IH Hy]; simpl.
  { repeat constructor. }
  destruct (_ <? _) eqn:Hk.
  - apply Z.ltb_lt in Hk. constructor; [done|].
    rewrite insert_by_size_perm. constructor; [|done].
    unfold by_size_desc. lia.
  - apply Z.ltb_ge in Hk.
    constructor; [by constructor|]. constructor; [done|].
    eapply Forall_impl; [exact Hy|].
    unfold by_size_desc in *. intros z Hz. lia.
Qed.

Lemma sort_by_size_sorted l : StronglySorted by_size_desc (sort_by_size l).
Proof.
  induction l as [|x l IH]; [constructor|].
  by apply insert_by_size_sorted.
Qed.

Lemma sdict_get_elem_of {V} (k : string) (v : V) (d : list (string * V)) :
  NoDup d.*1 → (k, v) ∈ d → sdict_get k d = Some v.
Proof.
  induction d as [|[k' v'] d IH]; [by intros _ ?%elem_of_nil|].
  rewrite fmap_cons. intros [Hk' Hd]%NoDup_cons [[= <- <-]|Hin]%elem_of_cons.
  - simpl. by rewrite String.eqb_refl.
  - simpl. destruct (String.eqb_spec k' k) as [->|_]; [|by apply IH].
    destruct Hk'. apply list_elem_of_fmap. by exists (k, v).
Qed.

Lemma sdict_get_Some {V} (k : string) (v : V) (d : list (string * V)) :
  sdict_get k d = Some v → (k, v) ∈ d.
Proof.
  induction d as [|[k' v'] d IH]; [done|]. simpl.
  destruct (String.eqb_spec k' k) as [->|_].
  - intros [= ->]. by left.
  - intros Hg. right. by apply IH.
Qed.

Lemma count_source_fold (items : list BackupJob) (st : SourceStats) :
  fold_left (λ v b, count_source b v) items st
  = {| source_count := source_count st + Z.of_nat (length items);
       source_total_size := source_total_size st + sumZ size_bytes items |}.
Proof.
  revert st. induction items as [|b items IH]; intros st.
  { destruct st. simpl. unfold sumZ. simpl. f_equal; lia. }
  simpl fold_left. rewrite IH, sumZ_cons.
  change (length (b :: items)) with (S (length items)).
  unfold count_source. simpl. f_equal; lia.
Qed.

(** The dictionary [source_stats]: the entry of a source. *)
Lemma source_stats_get (backups : list BackupJob) (s : string) :
  sdict_get s (fold_left group_by_source backups [])
  = match filter (λ b, counts_for_source s b = true) backups with
    | [] => None
    | _ :: _ => Some (source_stats_of backups s)
    end.
Proof.
  change (fold_left group_by_source backups [])
    with (fold_left
            (group_step source count_source new_source
               (λ b, String.eqb (status b) "success" && (0 <? size_bytes b)))
            backups []).
  rewrite sdict_get_fold_group_step. unfold source_stats_of. cbv zeta.
  rewrite (list_filter_iff _ (λ b, counts_for_source s b = true)).
  - destruct (filter _ backups) as [|b items]; [done|].
    by rewrite count_source_fold.
  - intros b. unfold counts_for_source.
    rewrite !andb_true_iff. tauto.
Qed.

Lemma source_stats_NoDup (backups : list BackupJob) :
  NoDup (fold_left group_by_source backups []).*1.
Proof.
  change (fold_left group_by_source backups [])
    with (fold_left
            (group_step source count_source new_source
               (λ b, String.eqb (status b) "success" && (0 <? size_bytes b)))
            backups []).
  by apply fold_group_step_NoDup, NoDup_nil.
Qed.

Lemma source_stats_elem_of (backups : list BackupJob) (s : string)
    (v : SourceStats) :
  (s, v) ∈ fold_left group_by_source backups []
  ↔ filter (λ b, counts_for_source s b = true) backups ≠ []
    ∧ v = source_stats_of backups s.
Proof.
  split.
  - intros Hin.
    apply (sdict_get_elem_of _ _ _ (source_stats_NoDup backups)) in Hin.
    rewrite source_stats_get in Hin.
    destruct (filter _ backups); [done|]. by injection Hin as <-.
  - intros [Hne ->]. apply sdict_get_Some. rewrite source_stats_get.
    by destruct (filter _ backups).
Qed.

(** X22.  When the start of the period is a datetime (as for X20), the top
    sources of the backup report are sources of successful jobs of positive
    size among the jobs of the report, each one once: a row
    counts these jobs of its source and adds up their sizes.  The rows are
    ordered by descending size, no source left out is larger than a source
    in the rows, and no source is left out when there are fewer than 5
    rows. *)
Theorem backup_report_top_sources_rows (now : datetime) (db : Session)
    (agent_id_ : option string) (days : Z) :
  start_date_in_range now days →
  let backups := report_backups now db agent_id_ days in
  let jobs_of := λ s, filter (λ b, counts_for_source s b = true) backups in
  match generate_backup_report now db agent_id_ days with
  | Raise _ => False
  | Ok None => backups = []
  | Ok (Some r) =>
    let rows := backup_report_top_sources r in
    NoDup (top_source <$> rows)
    ∧ Forall (λ row,
        jobs_of (top_source row) ≠ []
        ∧ top_backup_count row = Z.of_nat (length (jobs_of (top_source row)))
        ∧ top_total_size_gb row
          = round2 (inject_Z (sumZ size_bytes (jobs_of (top_source row)))
                    / inject_Z (1024 ^ 3))) rows
    ∧ StronglySorted
        (λ a b, (top_total_size_gb b <= top_total_size_gb a)%Q) rows
    ∧ (∀ s row, jobs_of s ≠ [] → s ∉ top_source <$> rows → row ∈ rows →
         length rows = 5%nat
         ∧ sumZ size_bytes (jobs_of s)
           ≤ sumZ size_bytes (jobs_of (top_source row)))
    ∧ (∀ s, jobs_of s ≠ [] → (length rows < 5)%nat →
         s ∈ top_source <$> rows)
  end.
Proof.
  intros _ backups jobs_of.
  destruct (decide (backups = [])) as [Hnil|Hne].
  { unfold generate_backup_report. fold backups. by rewrite Hnil. }
  destruct (generate_backup_report_Some now db agent_id_ days Hne)
    as (rate & Hrate & ->).
  fold backups. cbn [backup_report_top_sources]. cbv zeta.
  set (stats := fold_left group_by_source backups []).
  pose proof (sort_by_size_perm stats) as Hperm.
  pose proof (sort_by_size_sorted stats) as Hsorted.
  set (sorted := sort_by_size stats) in *.
  assert (Hkeys : top_source <$> (top_source_of <$> take 5 sorted)
                  = (take 5 sorted).*1).
  { rewrite <- list_fmap_compose. by apply list_fmap_ext. }
  assert (Hstats : ∀ e, e ∈ sorted →
            jobs_of e.1 ≠ [] ∧ e.2 = source_stats_of backups e.1).
  { intros [s v] He. rewrite Hperm in He. by apply source_stats_elem_of. }
  assert (Hin_take : ∀ e, e ∈ take 5 sorted → e ∈ sorted).
  { intros e He. exact (elem_of_take_drop e 5 0 _ He). }
  assert (Hmissing : ∀ s, jobs_of s ≠ [] → s ∉ (take 5 sorted).*1 →
            (s, source_stats_of backups s) ∈ drop 5 sorted).
  { intros s Hs Hout.
    assert ((s, source_stats_of backups s) ∈ sorted) as Hin.
    { rewrite Hperm. by apply source_stats_elem_of. }
    rewrite <- (take_drop 5 sorted) in Hin.
    apply elem_of_app in Hin as [Hin|Hin]; [|done].
    destruct Hout. apply list_elem_of_fmap. by eexists (s, _). }
  rewrite Hkeys. split_and!.
  - apply (sublist_NoDup _ (sorted.*1)).
    + rewrite Hperm. apply source_stats_NoDup.
    + apply fmap_sublist, sublist_take.
  - apply Forall_fmap, Forall_forall. intros e He. simpl.
    destruct (Hstats e (Hin_take e He)) as [Hjobs ->]. done.
  - apply (StronglySorted_fmap _ by_size_desc).
    + intros a b Hab. simpl. apply round2_mono.
      apply Qmult_le_compat_r; [by rewrite <- Zle_Qle|done].
    + rewrite <- (take_drop 5 sorted) in Hsorted.
      by apply StronglySorted_app_1_l in Hsorted.
  - intros s row Hs Hout [e [-> He]]%list_elem_of_fmap.
    pose proof (Hmissing s Hs Hout) as Hdrop.
    split.
    + rewrite length_fmap, length_take.
      destruct (decide (5 ≤ length sorted)%nat); [lia|].
      rewrite drop_ge in Hdrop by lia. by apply elem_of_nil in Hdrop.
    + rewrite <- (take_drop 5 sorted) in Hsorted.
      pose proof (StronglySorted_app_1_elem_of _ _ _ _ _ Hsorted He Hdrop)
        as Hle.
      unfold by_size_desc in Hle. simpl in Hle.
      destruct (Hstats e (Hin_take e He)) as [_ Hv]. by rewrite Hv in Hle.
  - intros s Hs Hlen. rewrite length_fmap, length_take in Hlen.
    destruct (decide (s ∈ (take 5 sorted).*1)) as [|Hout]; [done|].
    pose proof (Hmissing s Hs Hout) as Hdrop.
    rewrite drop_ge in Hdrop by lia. by apply elem_of_nil in Hdrop.
Qed.

Lemma backup_report_top_sources_rows_witness :
  start_date_in_range 1700000300000000 7
  ∧ match generate_backup_report 1700000300000000 example_session None 7 with
    | Ok (Some r) =>
      NoDup (top_source <$> backup_report_top_sources r)
      ∧ StronglySorted
          (λ a b, (top_total_size_gb b <= top_total_size_gb a)%Q)
          (backup_report_top_sources r)
    | _ => False
    end.
Proof.
  split; [exact start_date_in_range_example|].
  pose proof (backup_report_top_sources_rows 1700000300000000
                example_session None 7 start_date_in_range_example) as Hr.
  cbv zeta in Hr.
  destruct (generate_backup_report 1700000300000000 example_session None 7)
    as [[r|]|e]; [|discriminate Hr|exact Hr].
  destruct Hr as (Hnodup & _ & Hsorted & _). split; [exact Hnodup|exact Hsorted].
Defined.

(** ** The daily report *)




(** ** Merging dictionaries *)

Lemma sdict_get_set {V} (k k' : string) (v : V) (d : list (string * V)) :
  sdict_get k (dict_set k' v d)
  = if String.eqb k' k then Some v else sdict_get k d.
Proof.
  induction d as [|[k0 v0] d IH]; simpl.
  { by destruct (String.eqb k' k). }
  destruct (String.eqb_spec k0 k') as [->|Hk0]; simpl.
  - by destruct (String.eqb k' k).
  - rewrite IH. destruct (String.eqb_spec k0 k) as [->|_]; [|done].
    by rewrite (proj2 (String.eqb_neq k' k)).
Qed.

Lemma dict_set_keys {V} (k : string) (v : V) (d : list (string * V)) :
  (dict_set k v d).*1
  = match sdict_get k d with Some _ => d.*1 | None => d.*1 ++ [k] end.
Proof.
  induction d as [|[k0 v0] d IH]; [done|]. cbn [dict_set sdict_get].
  destruct (String.eqb k0 k); [done|].
  rewrite !fmap_cons, IH. by destruct (sdict_get k d).
Qed.

Lemma sdict_get_None {V} (k : string) (d : list (string * V)) :
  sdict_get k d = None ↔ k ∉ d.*1.
Proof.
  induction d as [|[k0 v0] d IH].
  { split; [intros _; apply not_elem_of_nil|done]. }
  rewrite fmap_cons, not_elem_of_cons. cbn [sdict_get fst].
  destruct (String.eqb_spec k0 k) as [->|Hne].
  - split; [done|]. by intros [? _].
  - rewrite IH. split; [|tauto]. intros ?. split; [congruence|done].
Qed.

Lemma filter_get_set_ne {V} (k0 : string) (v : V) (d : list (string * V))
    (l : list string) :
  k0 ∉ l →
  filter (λ k, sdict_get k (dict_set k0 v d) = None) l
  = filter (λ k, sdict_get k d = None) l.
Proof.
  induction l as [|k l IH]; [done|].
  intros [Hne Hk0]%not_elem_of_cons.
  rewrite !filter_cons, sdict_get_set.
  rewrite (proj2 (String.eqb_neq k0 k) Hne). by rewrite IH.
Qed.

(** X24.  [merge_dicts] on a second dictionary of distinct keys.  A key of
    the second dictionary gets the value of the second dictionary, unless
    both dictionaries hold a dictionary under the key: then it gets their
    merge.  Every other key keeps the value of the first dictionary.  The
    keys of the first dictionary come first, in their order, then the new
    keys of the second one, in their order. *)
Theorem merge_dicts_lookup (dict1 dict2 : list (string * json)) :
  NoDup dict2.*1 →
  (∀ k,
     sdict_get k (merge_dicts dict1 dict2)
     = match sdict_get k dict2 with
       | None => sdict_get k dict1
       | Some value =>
         Some match sdict_get k dict1, value with
              | Some (JDict d1), JDict d2 => JDict (merge_dicts d1 d2)
              | _, _ => value
              end
       end)
  ∧ (merge_dicts dict1 dict2).*1
    = dict1.*1 ++ filter (λ k, sdict_get k dict1 = None) dict2.*1.
Proof.
  unfold merge_dicts at 1 3. revert dict1.
  induction dict2 as [|[k0 v0] dict2 IH]; intros dict1 Hnodup.
  { simpl. split; [done|]. by rewrite filter_nil, app_nil_r. }
  rewrite fmap_cons in Hnodup. apply NoDup_cons in Hnodup as [Hk0 Hnodup].
  cbn [fold_left fst snd].
  destruct (IH (dict_set k0 (merge_value v0 (sdict_get k0 dict1)) dict1)
              Hnodup) as [Hget Hkeys].
  split.
  - intros k. rewrite Hget, sdict_get_set. cbn [sdict_get].
    destruct (String.eqb_spec k0 k) as [->|Hne]; [|done].
    rewrite (proj2 (sdict_get_None k dict2) Hk0). f_equal.
    destruct v0 as [| | | | |d2]; by destruct (sdict_get k dict1) as [[]|].
  - rewrite Hkeys, dict_set_keys, fmap_cons, filter_cons. cbn [fst].
    destruct (sdict_get k0 dict1) as [old|] eqn:Hold.
    + rewrite decide_False by done. f_equal.
      apply list_filter_iff. intros k. rewrite sdict_get_set.
      destruct (String.eqb_spec k0 k) as [->|_]; [|done].
      by rewrite Hold.
    + rewrite decide_True by done. rewrite <- app_assoc. f_equal.
      cbn [app]. f_equal. by apply filter_get_set_ne.
Qed.

Lemma merge_dicts_lookup_witness :
  (∀ k,
     sdict_get k
       (merge_dicts [("a", JNum 1); ("b", JDict [("x", JNum 1)])]
          [("b", JDict [("y", JNum 2)]); ("c", JNull)])
     = match sdict_get k [("b", JDict [("y", JNum 2)]); ("c", JNull)] with
       | None => sdict_get k [("a", JNum 1); ("b", JDict [("x", JNum 1)])]
       | Some value =>
         Some match
                sdict_get k [("a", JNum 1); ("b", JDict [("x", JNum 1)])],
                value
              with
              | Some (JDict d1), JDict d2 => JDict (merge_dicts d1 d2)
              | _, _ => value
              end
       end)
  ∧ (merge_dicts [("a", JNum 1); ("b", JDict [("x", JNum 1)])]
       [("b", JDict [("y", JNum 2)]); ("c", JNull)]).*1
    = [("a", JNum 1); ("b", JDict [("x", JNum 1)])].*1
      ++ filter
           (λ k, sdict_get k [("a", JNum 1); ("b", JDict [("x", JNum 1)])]
                 = None)
           [("b", JDict [("y", JNum 2)]); ("c", JNull)].*1.
Proof.
  apply (merge_dicts_lookup [("a", JNum 1); ("b", JDict [("x", JNum 1)])]
           [("b", JDict [("y", JNum 2)]); ("c", JNull)]).
  by apply (bool_decide_unpack _).
Defined.
